(** * crossplane-pause: the pause/unpause reconciler

    A shallow embedding of [reconciler.go] (package [crossplane]) and of the
    library calls it is built from, followed by the properties of the
    decision engine, the drift detector, the scheduler and the pause-state
    codec.

    Layout of the development:
    - [GoTime]      instants and durations ([time.Time], [time.Duration]) and
                    the RFC 3339 text form used by [metav1.Time];
    - [Json]        JSON documents, their compact text and a parser;
    - [Unstructured] the dynamically typed object tree
                    ([unstructured.Unstructured]) with its nested-field
                    accessors;
    - [Codec]       [json.Marshal] / [json.Unmarshal] at the two struct types
                    the reconciler uses ([PauseInfo], [xpv1.Condition]);
    - [Pause]       the functions of [reconciler.go] themselves.

    Everything is executable; the theorems come after the definitions. *)

From Stdlib Require Import ZArith String Ascii List Lia DecimalString DecimalZ DecimalFacts.
From stdpp Require Import gmap strings list fin_maps sorting.

Set Warnings "-register-all".
Open Scope Z_scope.

(** Program text (annotation values, JSON) is a sequence of bytes. *)
Abbreviation text := (list ascii).

(* ================================================================== *)
(** * Time *)
(* ================================================================== *)

Module GoTime.

(** An instant is the number of nanoseconds since the Unix epoch; the
    location and the monotonic reading of a [time.Time] are not kept.  A
    [time.Duration] is an [int64] count of nanoseconds. *)
Definition Time := Z.
Definition Duration := Z.

Definition maxDuration : Duration := 9223372036854775807.
Definition minDuration : Duration := -9223372036854775808.
Definition Second : Duration := 1000000000.
Definition Minute : Duration := 60 * Second.
Definition Hour : Duration := 60 * Minute.

(** [t.Add(d)]. *)
Definition Add (t : Time) (d : Duration) : Time := t + d.

(** [t.Sub(u)]: the difference, or the largest (smallest) duration when
    the difference does not fit in one. *)
Definition Sub (t u : Time) : Duration :=
  let d := t - u in
  if d <? minDuration then minDuration
  else if maxDuration <? d then maxDuration
  else d.

(** [t.Before(u)] and [t.After(u)]. *)
Definition Before (t u : Time) : bool := t <? u.
Definition After (t u : Time) : bool := u <? t.

(** The zero [time.Time] is January 1, year 1, 00:00:00 UTC. *)
Definition zeroTime : Time := -62135596800 * Second.
Definition IsZero (t : Time) : bool := t =? zeroTime.

(** ** The proleptic Gregorian calendar

    Days are counted from 1970-01-01.  A 400-year era has 146097 days and
    starts on March 1; [doe] is the day of the era, [yoe] the year of the
    era. *)
Definition civil_of_doe (doe : Z) : Z * Z * Z :=
  let yoe := (doe - doe / 1460 + doe / 36524 - doe / 146096) / 365 in
  let doy := doe - (365 * yoe + yoe / 4 - yoe / 100) in
  let mp := (5 * doy + 2) / 153 in
  let d := doy - (153 * mp + 2) / 5 + 1 in
  let m := if mp <? 10 then mp + 3 else mp - 9 in
  (yoe, m, d).

Definition civil_from_days (z : Z) : Z * Z * Z :=
  let z' := z + 719468 in
  let era := z' / 146097 in
  let '(yoe, m, d) := civil_of_doe (z' mod 146097) in
  (yoe + era * 400 + (if m <=? 2 then 1 else 0), m, d).

Definition doe_of_civil (yoe m d : Z) : Z :=
  let doy := (153 * (if 2 <? m then m - 3 else m + 9) + 2) / 5 + d - 1 in
  yoe * 365 + yoe / 4 - yoe / 100 + doy.

Definition days_from_civil (y m d : Z) : Z :=
  let y' := if m <=? 2 then y - 1 else y in
  (y' / 400) * 146097 + doe_of_civil (y' mod 400) m d - 719468.

Definition isLeap (y : Z) : bool :=
  (y mod 4 =? 0) && (negb (y mod 100 =? 0) || (y mod 400 =? 0)).

Definition daysIn (y m : Z) : Z :=
  if m =? 2 then (if isLeap y then 29 else 28)
  else if (m =? 4) || (m =? 6) || (m =? 9) || (m =? 11) then 30
  else 31.

(** ** Decimal fields *)
Definition digit (n : Z) : ascii := ascii_of_N (48 + Z.to_N n).

Definition digit_val (c : ascii) : option Z :=
  let n := Z.of_N (N_of_ascii c) in
  if (48 <=? n) && (n <=? 57) then Some (n - 48) else None.

Definition is_digit (c : ascii) : bool :=
  match digit_val c with Some _ => true | None => false end.

Definition pad2 (n : Z) : text := [digit (n / 10); digit (n mod 10)].

Definition pad4 (n : Z) : text :=
  [digit (n / 1000); digit (n / 100 mod 10); digit (n / 10 mod 10); digit (n mod 10)].

Definition decimal (n : Z) : text :=
  list_ascii_of_string (NilZero.string_of_uint (N.to_uint (Z.to_N n))).

(** A year is written with at least four digits, and with a sign when it
    is negative. *)
Definition fmt_year (y : Z) : text :=
  if (0 <=? y) && (y <=? 9999) then pad4 y
  else if y <? 0 then "-"%char :: repeat "0"%char (4 - length (decimal (- y)))%nat ++ decimal (- y)
  else decimal y.

(** [t.UTC().Format(time.RFC3339)]: whole seconds, the sub-second part of
    the instant is dropped. *)
Definition Format (t : Time) : text :=
  let s := t / Second in
  let '(y, m, d) := civil_from_days (s / 86400) in
  let sod := s mod 86400 in
  fmt_year y ++ "-"%char :: pad2 m ++ "-"%char :: pad2 d ++ "T"%char ::
  pad2 (sod / 3600) ++ ":"%char :: pad2 (sod / 60 mod 60) ++ ":"%char ::
  pad2 (sod mod 60) ++ ["Z"%char].

Definition num2 (s : text) : option (Z * text) :=
  match s with
  | a :: b :: r =>
      match digit_val a, digit_val b with
      | Some x, Some y => Some (10 * x + y, r)
      | _, _ => None
      end
  | _ => None
  end.

Definition num4 (s : text) : option (Z * text) :=
  '(hi, r) ← num2 s; '(lo, r') ← num2 r; Some (100 * hi + lo, r').

Definition expect (c : ascii) (s : text) : option text :=
  match s with
  | x :: r => if Ascii.eqb x c then Some r else None
  | [] => None
  end.

(** The digits of a fractional second; those after the ninth are read and
    ignored. *)
Fixpoint fraction (s : text) (unit acc : Z) : Z * text :=
  match s with
  | c :: r =>
      match digit_val c with
      | Some x => fraction r (unit / 10) (acc + x * unit)
      | None => (acc, s)
      end
  | [] => (acc, s)
  end.

Definition parse_fraction (s : text) : option (Z * text) :=
  match s with
  | c :: x :: r =>
      if (Ascii.eqb c "."%char || Ascii.eqb c ","%char) && is_digit x
      then Some (fraction (x :: r) 100000000 0)
      else Some (0, s)
  | _ => Some (0, s)
  end.

(** The zone: [Z], or a signed [hh:mm] offset; the result is the offset in
    seconds and nothing may follow. *)
Definition parse_zone (s : text) : option Z :=
  match s with
  | [z] => if Ascii.eqb z "Z"%char then Some 0 else None
  | sign :: r =>
      '(hh, r1) ← num2 r;
      r2 ← expect ":"%char r1;
      '(mm, r3) ← num2 r2;
      match r3 with
      | [] =>
          if (hh <? 24) && (mm <? 60) then
            if Ascii.eqb sign "+"%char then Some (hh * 3600 + mm * 60)
            else if Ascii.eqb sign "-"%char then Some (- (hh * 3600 + mm * 60))
            else None
          else None
      | _ => None
      end
  | [] => None
  end.

(** [time.Parse(time.RFC3339, s)], as an instant. *)
Definition Parse (s : text) : option Time :=
  '(y, r) ← num4 s;
  r ← expect "-"%char r;
  '(m, r) ← num2 r;
  r ← expect "-"%char r;
  '(d, r) ← num2 r;
  r ← expect "T"%char r;
  '(hh, r) ← num2 r;
  r ← expect ":"%char r;
  '(mm, r) ← num2 r;
  r ← expect ":"%char r;
  '(ss, r) ← num2 r;
  '(ns, r) ← parse_fraction r;
  off ← parse_zone r;
  if (1 <=? m) && (m <=? 12) && (1 <=? d) && (d <=? daysIn y m)
     && (hh <? 24) && (mm <? 60) && (ss <? 60)
  then Some ((days_from_civil y m d * 86400 + hh * 3600 + mm * 60 + ss - off) * Second + ns)
  else None.

(** Checking a predicate on every integer of [base, base + p). *)
Fixpoint all_from (p : positive) (f : Z -> bool) (base : Z) : bool :=
  match p with
  | xH => f base
  | xO q => all_from q f base && all_from q f (base + Zpos q)
  | xI q => f base && all_from q f (base + 1) && all_from q f (base + 1 + Zpos q)
  end.

Definition doe_ok (doe : Z) : bool :=
  let '(yoe, m, d) := civil_of_doe doe in
  (0 <=? yoe) && (yoe <? 400) && (1 <=? m) && (m <=? 12) && (1 <=? d)
  && (d <=? daysIn (yoe + (if m <=? 2 then 1 else 0)) m)
  && (doe_of_civil yoe m d =? doe)
  && (if doe <? 146037 then yoe + (if m <=? 2 then 1 else 0) <=? 399
      else yoe + (if m <=? 2 then 1 else 0) =? 400).

(** The instants whose year has four digits: from 0000-01-01T00:00:00Z
    up to, and without, 10000-01-01T00:00:00Z. *)
Definition minRFC3339 : Time := -62167219200 * Second.
Definition maxRFC3339 : Time := 253402300800 * Second.

End GoTime.

(* ================================================================== *)
(** * JSON documents and their text *)
(* ================================================================== *)

Module Json.
Import GoTime.

(** A JSON document as it is written: the members of an object are kept in
    the order of the text, duplicates included.  Numbers are integers;
    fractions and exponents are outside the model. *)
Inductive json :=
| JNull
| JBool (b : bool)
| JNum (z : Z)
| JStr (s : string)
| JArr (l : list json)
| JObj (l : list (string * json)).

(** ** Printing *)

Definition hexdigit (n : N) : ascii :=
  if (n <? 10)%N then ascii_of_N (48 + n) else ascii_of_N (87 + n).

(** The bytes the encoder writes for one byte of a string: quotes,
    backslashes, control characters and the HTML characters are escaped.  A
    byte from 128 up is copied.  Inside valid UTF-8 the encoder of Go copies
    it too, apart from U+2028 and U+2029, which it writes as escapes that the
    decoder turns back into the same bytes; a byte that is not valid UTF-8 it
    replaces by U+FFFD, which is outside the model. *)
Definition esc (c : ascii) : text :=
  let n := N_of_ascii c in
  if (n =? 34)%N then ["\"; "034"]%char
  else if (n =? 92)%N then ["\"; "\"]%char
  else if (n =? 10)%N then ["\"; "n"]%char
  else if (n =? 13)%N then ["\"; "r"]%char
  else if (n =? 9)%N then ["\"; "t"]%char
  else if (n <? 32)%N || (n =? 60)%N || (n =? 62)%N || (n =? 38)%N
  then ["\"; "u"; "0"; "0"; hexdigit (n / 16); hexdigit (n mod 16)]%char
  else [c].

Fixpoint escape (s : string) : text :=
  match s with
  | EmptyString => []
  | String c r => esc c ++ escape r
  end.

Definition quote (s : string) : text := "034"%char :: escape s ++ ["034"%char].

Fixpoint sep (l : list text) : text :=
  match l with
  | [] => []
  | [x] => x
  | x :: r => x ++ ","%char :: sep r
  end.

Definition print_int (z : Z) : text :=
  list_ascii_of_string (NilZero.string_of_int (Z.to_int z)).

Fixpoint print (j : json) : text :=
  match j with
  | JNull => list_ascii_of_string "null"
  | JBool true => list_ascii_of_string "true"
  | JBool false => list_ascii_of_string "false"
  | JNum z => print_int z
  | JStr s => quote s
  | JArr l => "["%char :: sep (map print l) ++ ["]"%char]
  | JObj l =>
      "{"%char :: sep (map (fun kv => quote (fst kv) ++ ":"%char :: print (snd kv)) l)
      ++ ["}"%char]
  end.

(** ** Parsing *)

Definition is_ws (c : ascii) : bool :=
  let n := N_of_ascii c in
  ((n =? 32) || (n =? 9) || (n =? 10) || (n =? 13))%N.

Fixpoint skip_ws (s : text) : text :=
  match s with
  | c :: r => if is_ws c then skip_ws r else s
  | [] => []
  end.

Definition hex_val (c : ascii) : option N :=
  let n := N_of_ascii c in
  if (48 <=? n)%N && (n <=? 57)%N then Some (n - 48)%N
  else if (97 <=? n)%N && (n <=? 102)%N then Some (n - 87)%N
  else if (65 <=? n)%N && (n <=? 70)%N then Some (n - 55)%N
  else None.

(** The UTF-8 bytes of a code point below 65536; a surrogate half stands
    for the replacement character. *)
Definition utf8 (cp : N) : text :=
  if (cp <? 128)%N then [ascii_of_N cp]
  else if (cp <? 2048)%N then
    [ascii_of_N (192 + cp / 64); ascii_of_N (128 + cp mod 64)]
  else
    let cp := if (55296 <=? cp)%N && (cp <? 57344)%N then 65533%N else cp in
    [ascii_of_N (224 + cp / 4096); ascii_of_N (128 + (cp / 64) mod 64);
     ascii_of_N (128 + cp mod 64)].

Definition unescape (e : ascii) : option ascii :=
  let n := N_of_ascii e in
  if (n =? 34)%N then Some e
  else if (n =? 92)%N then Some e
  else if (n =? 47)%N then Some e
  else if (n =? 98)%N then Some (ascii_of_N 8)
  else if (n =? 102)%N then Some (ascii_of_N 12)
  else if (n =? 110)%N then Some (ascii_of_N 10)
  else if (n =? 114)%N then Some (ascii_of_N 13)
  else if (n =? 116)%N then Some (ascii_of_N 9)
  else None.

Fixpoint prepend (l : text) (s : string) : string :=
  match l with
  | [] => s
  | c :: r => String c (prepend r s)
  end.

(** The body of a string literal, after its opening quote, up to and
    including the closing quote. *)
Fixpoint parse_string (s : text) : option (string * text) :=
  match s with
  | [] => None
  | c :: r =>
      if (N_of_ascii c =? 34)%N then Some (EmptyString, r)
      else if (N_of_ascii c =? 92)%N then
        match r with
        | [] => None
        | e :: r1 =>
            if (N_of_ascii e =? 117)%N then
              match r1 with
              | h1 :: h2 :: h3 :: h4 :: r2 =>
                  match hex_val h1, hex_val h2, hex_val h3, hex_val h4 with
                  | Some a, Some b, Some c', Some d =>
                      '(str, rest) ← parse_string r2;
                      Some (prepend (utf8 (((a * 16 + b) * 16 + c') * 16 + d)%N) str, rest)
                  | _, _, _, _ => None
                  end
              | _ => None
              end
            else
              x ← unescape e;
              '(str, rest) ← parse_string r1;
              Some (String x str, rest)
        end
      else if (N_of_ascii c <? 32)%N then None
      else '(str, rest) ← parse_string r; Some (String c str, rest)
  end.

Fixpoint span_digits (s : text) : text * text :=
  match s with
  | c :: r =>
      if is_digit c then let '(ds, rest) := span_digits r in (c :: ds, rest)
      else ([], s)
  | [] => ([], [])
  end.

Definition starts_fraction (s : text) : bool :=
  match s with
  | c :: _ => ((N_of_ascii c =? 46) || (N_of_ascii c =? 101) || (N_of_ascii c =? 69))%N
  | [] => false
  end.

Definition parse_number (s : text) : option (Z * text) :=
  let '(neg, s1) :=
    match s with
    | c :: r => if (N_of_ascii c =? 45)%N then (true, r) else (false, s)
    | [] => (false, s)
    end in
  let '(ds, rest) := span_digits s1 in
  match ds with
  | [] => None
  | d :: more =>
      if (N_of_ascii d =? 48)%N && negb (Nat.eqb (length more) 0) then None
      else if starts_fraction rest then None
      else
        u ← NilEmpty.uint_of_string (string_of_list_ascii ds);
        Some (if neg then - Z.of_uint u else Z.of_uint u, rest)
  end.

(** [after k s]: what follows the prefix [k] of [s]. *)
Fixpoint after (k s : text) : option text :=
  match k with
  | [] => Some s
  | c :: k' =>
      match s with
      | x :: s' => if Ascii.eqb x c then after k' s' else None
      | [] => None
      end
  end.

Definition keyword (w : string) (s : text) : option text :=
  after (list_ascii_of_string w) s.

Fixpoint parse_value (fuel : nat) (s : text) {struct fuel} : option (json * text) :=
  match fuel with
  | O => None
  | S n =>
      match skip_ws s with
      | [] => None
      | c :: r =>
          let k := N_of_ascii c in
          if (k =? 110)%N then rest ← keyword "null" (c :: r); Some (JNull, rest)
          else if (k =? 116)%N then rest ← keyword "true" (c :: r); Some (JBool true, rest)
          else if (k =? 102)%N then rest ← keyword "false" (c :: r); Some (JBool false, rest)
          else if (k =? 34)%N then '(str, rest) ← parse_string r; Some (JStr str, rest)
          else if (k =? 91)%N then
            match skip_ws r with
            | c' :: r' =>
                if (N_of_ascii c' =? 93)%N then Some (JArr [], r')
                else '(l, rest) ← parse_elems n r; Some (JArr l, rest)
            | [] => None
            end
          else if (k =? 123)%N then
            match skip_ws r with
            | c' :: r' =>
                if (N_of_ascii c' =? 125)%N then Some (JObj [], r')
                else '(l, rest) ← parse_members n r; Some (JObj l, rest)
            | [] => None
            end
          else '(z, rest) ← parse_number (c :: r); Some (JNum z, rest)
      end
  end
with parse_elems (fuel : nat) (s : text) {struct fuel} : option (list json * text) :=
  match fuel with
  | O => None
  | S n =>
      '(v, r) ← parse_value n s;
      match skip_ws r with
      | c :: r' =>
          if (N_of_ascii c =? 44)%N then '(l, rest) ← parse_elems n r'; Some (v :: l, rest)
          else if (N_of_ascii c =? 93)%N then Some ([v], r')
          else None
      | [] => None
      end
  end
with parse_members (fuel : nat) (s : text) {struct fuel}
    : option (list (string * json) * text) :=
  match fuel with
  | O => None
  | S n =>
      match skip_ws s with
      | q :: r0 =>
          if (N_of_ascii q =? 34)%N then
            '(k, r1) ← parse_string r0;
            match skip_ws r1 with
            | c1 :: r2 =>
                if (N_of_ascii c1 =? 58)%N then
                  '(v, r3) ← parse_value n r2;
                  match skip_ws r3 with
                  | c :: r' =>
                      if (N_of_ascii c =? 44)%N
                      then '(l, rest) ← parse_members n r'; Some ((k, v) :: l, rest)
                      else if (N_of_ascii c =? 125)%N then Some ([(k, v)], r')
                      else None
                  | [] => None
                  end
                else None
            | [] => None
            end
          else None
      | [] => None
      end
  end.

(** A whole text holds one value, surrounded by white space only. *)
Definition parse (s : text) : option json :=
  '(j, rest) ← parse_value (S (length s)) s;
  match skip_ws rest with
  | [] => Some j
  | _ :: _ => None
  end.

(** The fuel [parse_value] needs to read back a printed document. *)
Fixpoint need (j : json) : nat :=
  match j with
  | JArr l => S (fold_right (fun x n => S (Nat.max (need x) n)) 0%nat l)
  | JObj l => S (fold_right (fun kv n => S (Nat.max (need (snd kv)) n)) 0%nat l)
  | _ => 1
  end.

End Json.

(* ================================================================== *)
(** * Unstructured objects *)
(* ================================================================== *)

Module Unstructured.
Import GoTime Json.

(** The values an [interface{}] holds after JSON decoding: [nil], [bool],
    [int64], [string], [[]interface{}] and [map[string]interface{}].  A Go
    map has no order and no duplicate keys, so it is a [gmap]; a nil map and
    an empty map are not told apart.  A [float64], which the decoder gives for
    a number with a fraction or an exponent, is outside the model. *)
Inductive value :=
| VNil
| VBool (b : bool)
| VInt (z : Z)
| VString (s : string)
| VSlice (l : list value)
| VMap (m : gmap string value).

(** The [Object] field of an [unstructured.Unstructured]. *)
Abbreviation object := (gmap string value).

(** [reflect.DeepEqual] on these values is equality, and it is decidable. *)
Fixpoint value_eq_dec (v1 v2 : value) : Decision (v1 = v2).
Proof.
  refine (match v1, v2 with
          | VNil, VNil => left _
          | VBool a, VBool b => cast_if (decide (a = b))
          | VInt a, VInt b => cast_if (decide (a = b))
          | VString a, VString b => cast_if (decide (a = b))
          | VSlice a, VSlice b =>
              cast_if (@decide (a = b) (@list_eq_dec _ value_eq_dec a b))
          | VMap a, VMap b =>
              cast_if (@decide (a = b) (@gmap_eq_dec _ _ _ _ value_eq_dec a b))
          | _, _ => right _
          end); congruence.
Defined.
#[export] Instance value_eqdec : EqDecision value := value_eq_dec.

Definition DeepEqual (a b : object) : bool := bool_decide (a = b).

Fixpoint value_size (v : value) : nat :=
  match v with
  | VSlice l => S (foldr (fun x n => (value_size x + n)%nat) 0%nat l)
  | VMap m => S (map_fold (fun _ x n => (value_size x + n)%nat) 0%nat m)
  | _ => 1
  end.

(** The three results of a nested accessor: the value, [found == false],
    or an error because a value on the path has the wrong type. *)
Inductive nested (A : Type) :=
| Found (a : A)
| NotFound
| WrongType.
Arguments Found {A} a.
Arguments NotFound {A}.
Arguments WrongType {A}.

Fixpoint NestedFieldNoCopy (val : value) (fields : list string) : nested value :=
  match fields with
  | [] => Found val
  | f :: rest =>
      match val with
      | VNil => NotFound
      | VMap m =>
          match m !! f with
          | Some v => NestedFieldNoCopy v rest
          | None => NotFound
          end
      | _ => WrongType
      end
  end.

Definition NestedMap (obj : object) (fields : list string) : nested object :=
  match NestedFieldNoCopy (VMap obj) fields with
  | Found (VMap m) => Found m
  | Found _ => WrongType
  | NotFound => NotFound
  | WrongType => WrongType
  end.

Definition NestedSlice (obj : object) (fields : list string) : nested (list value) :=
  match NestedFieldNoCopy (VMap obj) fields with
  | Found (VSlice l) => Found l
  | Found _ => WrongType
  | NotFound => NotFound
  | WrongType => WrongType
  end.

Definition NestedString (obj : object) (fields : list string) : nested string :=
  match NestedFieldNoCopy (VMap obj) fields with
  | Found (VString s) => Found s
  | Found _ => WrongType
  | NotFound => NotFound
  | WrongType => WrongType
  end.

Definition as_string (v : value) : option string :=
  match v with VString s => Some s | _ => None end.

(** Every value of the map must be a string. *)
Definition NestedStringMap (obj : object) (fields : list string)
    : nested (gmap string string) :=
  match NestedMap obj fields with
  | Found m =>
      if bool_decide (map_Forall (fun _ v => is_Some (as_string v)) m)
      then Found (omap as_string m)
      else WrongType
  | NotFound => NotFound
  | WrongType => WrongType
  end.

(** [getNestedString]: the empty string unless a string is found. *)
Definition getNestedString (obj : object) (fields : list string) : string :=
  match NestedString obj fields with
  | Found s => s
  | _ => EmptyString
  end.

(** [RemoveNestedField] walks down through maps and deletes the last
    field; it stops without a change when the path leaves the maps.  The
    maps are updated in place in Go; here the path is rebuilt. *)
Fixpoint RemoveNestedField (m : object) (fields : list string) : object :=
  match fields with
  | [] => m
  | [f] => delete f m
  | f :: rest =>
      match m !! f with
      | Some (VMap x) => <[f := VMap (RemoveNestedField x rest)]> m
      | _ => m
      end
  end.

(** [setNestedFieldNoCopy]: missing maps on the path are created; [None]
    is the error for a value on the path that is not a map. *)
Fixpoint setNestedFieldNoCopy (m : object) (v : value) (fields : list string)
    : option object :=
  match fields with
  | [] => None
  | [f] => Some (<[f := v]> m)
  | f :: rest =>
      match m !! f with
      | Some (VMap x) =>
          x' ← setNestedFieldNoCopy x v rest; Some (<[f := VMap x']> m)
      | Some _ => None
      | None =>
          x' ← setNestedFieldNoCopy ∅ v rest; Some (<[f := VMap x']> m)
      end
  end.

(** [u.GetAnnotations()]: [None] is the nil map, returned when there are no
    annotations and also when the accessor fails. *)
Definition GetAnnotations (u : object) : option (gmap string string) :=
  match NestedStringMap u ["metadata"; "annotations"]%string with
  | Found m => Some m
  | _ => None
  end.

(** [u.SetAnnotations(ann)]; the error of the setter is dropped. *)
Definition SetAnnotations (u : object) (ann : option (gmap string string)) : object :=
  match ann with
  | None => RemoveNestedField u ["metadata"; "annotations"]%string
  | Some a =>
      match setNestedFieldNoCopy u (VMap (VString <$> a))
              ["metadata"; "annotations"]%string with
      | Some u' => u'
      | None => u
      end
  end.

(** [u.GetDeletionTimestamp()]: [None] is the nil pointer, returned for a
    missing, unreadable or zero timestamp. *)
Definition GetDeletionTimestamp (u : object) : option Time :=
  let str := getNestedString u ["metadata"; "deletionTimestamp"]%string in
  if bool_decide (str = EmptyString) || bool_decide (str = "null"%string) then None
  else
    match Parse (list_ascii_of_string str) with
    | Some t => if IsZero t then None else Some t
    | None => None
    end.

(** ** Values and documents *)

Definition key_le (a b : string * json) : Prop := String.le (fst a) (fst b).
#[export] Instance key_le_dec : RelDecision key_le.
Proof. intros a b. unfold key_le. apply _. Defined.

(** The encoder writes the keys of a map in sorted order. *)
Fixpoint to_json (v : value) : json :=
  match v with
  | VNil => JNull
  | VBool b => JBool b
  | VInt z => JNum z
  | VString s => JStr s
  | VSlice l => JArr (map to_json l)
  | VMap m => JObj (merge_sort key_le (map_to_list (to_json <$> m)))
  end.

(** The decoder stores the members of an object one after the other, so
    the last of several equal keys stays. *)
Fixpoint of_json (j : json) : value :=
  match j with
  | JNull => VNil
  | JBool b => VBool b
  | JNum z => VInt z
  | JStr s => VString s
  | JArr l => VSlice (map of_json l)
  | JObj l => VMap (foldl (fun m kv => <[fst kv := of_json (snd kv)]> m) ∅ l)
  end.

End Unstructured.

(* ================================================================== *)
(** * encoding/json at the types of the reconciler *)
(* ================================================================== *)

Module Codec.
Import GoTime Json Unstructured.

(** Go errors: a message, possibly wrapping a cause ([%w]). *)
Inductive error :=
| Leaf (msg : string)
| Wrap (msg : string) (cause : error).

(** What a call gives: its value, an error value, or a run-time panic. *)
Inductive result (A : Type) :=
| Ok (a : A)
| Err (e : error)
| Panic (msg : string).
Arguments Ok {A} a.
Arguments Err {A} e.
Arguments Panic {A} msg.

(** [json.Marshal] of an [interface{}] value. *)
Definition Marshal_value (v : value) : string :=
  string_of_list_ascii (print (to_json v)).

(** Keys of the text are matched with the field names without regard to
    the case of ASCII letters. *)
Definition lower (c : ascii) : ascii :=
  let n := N_of_ascii c in
  if (65 <=? n)%N && (n <=? 90)%N then ascii_of_N (n + 32) else c.

Fixpoint lower_string (s : string) : string :=
  match s with
  | EmptyString => EmptyString
  | String c r => String (lower c) (lower_string r)
  end.

Definition names (key field : string) : bool :=
  String.eqb (lower_string key) (lower_string field).

(** [metav1.Time.MarshalJSON]: [null] for the zero time, else the RFC 3339
    text in UTC. *)
Definition encode_time (t : Time) : json :=
  if IsZero t then JNull else JStr (string_of_list_ascii (Format t)).

(** Decoding into a [*metav1.Time] field: [null] makes the pointer nil. *)
Definition decode_time_ptr (j : json) : option (option Time) :=
  match j with
  | JNull => Some None
  | JStr s => t ← Parse (list_ascii_of_string s); Some (Some t)
  | _ => None
  end.

(** Decoding into a [metav1.Time] field: [null] gives the zero time. *)
Definition decode_time (j : json) : option Time :=
  match j with
  | JNull => Some zeroTime
  | JStr s => Parse (list_ascii_of_string s)
  | _ => None
  end.

(** Decoding into a [string] or [bool] field: [null] leaves it as it is. *)
Definition decode_string (old : string) (j : json) : option string :=
  match j with
  | JNull => Some old
  | JStr s => Some s
  | _ => None
  end.

Definition decode_bool (old : bool) (j : json) : option bool :=
  match j with
  | JNull => Some old
  | JBool b => Some b
  | _ => None
  end.

Fixpoint count_slash (s : string) : nat :=
  match s with
  | EmptyString => 0
  | String c r =>
      ((if (N_of_ascii c =? 47)%N then 1 else 0) + count_slash r)%nat
  end.

(** The kind of an object: empty when [kind] is not a string and when
    [apiVersion] does not parse as a group and a version. *)
Definition kind_of (u : object) : string :=
  if (2 <=? count_slash (getNestedString u ["apiVersion"]%string))%nat
  then EmptyString
  else getNestedString u ["kind"]%string.

(** [Unstructured.UnmarshalJSON]: the text must be an object and the
    object must have a kind. *)
Definition decode_unstructured (j : json) : option object :=
  match j with
  | JObj _ =>
      match of_json j with
      | VMap m => if bool_decide (kind_of m = EmptyString) then None else Some m
      | _ => None
      end
  | _ => None
  end.

(** Decoding an object into a struct: the members are taken in the order
    of the text, each one by the field it names; [step] gives [None] for a
    value of the wrong type.  A [null] text leaves the struct as it is, any
    other text that is not an object is an error. *)
Definition decode_struct {A : Type} (step : string -> json -> A -> option A)
    (zero : A) (s : string) : result A :=
  match parse (list_ascii_of_string s) with
  | None => Err (Leaf "invalid character in JSON text")
  | Some JNull => Ok zero
  | Some (JObj l) =>
      match foldl (fun acc kv => a ← acc; step (fst kv) (snd kv) a) (Some zero) l with
      | Some a => Ok a
      | None => Err (Leaf "json: cannot unmarshal value into Go struct field")
      end
  | Some _ => Err (Leaf "json: cannot unmarshal value into Go struct")
  end.

(** ** [xpv1.Condition] *)
Record Condition := {
  Type_ : string;
  Status : string;
  LastTransitionTime : Time;
  Reason : string;
  Message : string
}.

Definition TypeReady : string := "Ready".
Definition TypeSynced : string := "Synced".
Definition ConditionTrue : string := "True".

Definition Condition_step (k : string) (j : json) (c : Condition) : option Condition :=
  if names k "type" then
    x ← decode_string (Type_ c) j;
    Some {| Type_ := x; Status := Status c; LastTransitionTime := LastTransitionTime c;
            Reason := Reason c; Message := Message c |}
  else if names k "status" then
    x ← decode_string (Status c) j;
    Some {| Type_ := Type_ c; Status := x; LastTransitionTime := LastTransitionTime c;
            Reason := Reason c; Message := Message c |}
  else if names k "lastTransitionTime" then
    x ← decode_time j;
    Some {| Type_ := Type_ c; Status := Status c; LastTransitionTime := x;
            Reason := Reason c; Message := Message c |}
  else if names k "reason" then
    x ← decode_string (Reason c) j;
    Some {| Type_ := Type_ c; Status := Status c; LastTransitionTime := LastTransitionTime c;
            Reason := x; Message := Message c |}
  else if names k "message" then
    x ← decode_string (Message c) j;
    Some {| Type_ := Type_ c; Status := Status c; LastTransitionTime := LastTransitionTime c;
            Reason := Reason c; Message := x |}
  else Some c.

Definition Unmarshal_Condition (s : string) : result Condition :=
  decode_struct Condition_step
    {| Type_ := EmptyString; Status := EmptyString; LastTransitionTime := zeroTime;
       Reason := EmptyString; Message := EmptyString |} s.

End Codec.

(* ================================================================== *)
(** * reconciler.go *)
(* ================================================================== *)

Module Crossplane.
Import GoTime Json Unstructured Codec.

Definition AnnotationKeyReconciliationPaused : string := "crossplane.io/paused".
Definition AnnotationKeyPauseInfo : string := "cloud.pingcap.com/pause-info".
Definition DefaultFrozenTimeDuration : Duration := 5 * Minute.

(** The [Object] field of a [PauseInfo] is a pointer.  During a pause it is
    made to point at the object under reconciliation itself, so that later
    changes of that object are seen through it; a decoded record points at
    a snapshot of its own. *)
Inductive ObjectRef :=
| NilObject
| SameObject
| Snapshot (u : object).

Record PauseInfo := {
  Pause : bool;
  Object : ObjectRef;
  LastPauseTime : option Time;
  LastUnPauseTime : option Time;
  ShouldUnpauseTime : option Time
}.

(** The policy fields of the [Reconciler]; the client is part of the
    [World] below. *)
Record Reconciler := {
  UnPausePollInterval : option Duration;
  FrozenTimeDuration : option Duration
}.

(** [ctrl.Result]. *)
Record Result := {
  Requeue : bool;
  RequeueAfter : Duration
}.
Definition noResult : Result := {| Requeue := false; RequeueAfter := 0 |}.

(** What the pointer leads to, [obj] being the object under
    reconciliation. *)
Definition deref (obj : object) (p : ObjectRef) : option object :=
  match p with
  | NilObject => None
  | SameObject => Some obj
  | Snapshot u => Some u
  end.

(** ** The codec of [PauseInfo]

    The struct tags: [pause] is always written, the four pointer fields are
    left out when nil. *)
Definition optional {A : Type} (name : string) (enc : A -> json) (o : option A)
    : list (string * json) :=
  match o with
  | Some a => [(name, enc a)]
  | None => []
  end.

Definition PauseInfo_json (obj : object) (info : PauseInfo) : json :=
  JObj ([("pause"%string, JBool (Pause info))]
        ++ optional "object" (fun u => to_json (VMap u)) (deref obj (Object info))
        ++ optional "lastPauseTime" encode_time (LastPauseTime info)
        ++ optional "lastUnPauseTime" encode_time (LastUnPauseTime info)
        ++ optional "shouldUnpauseTime" encode_time (ShouldUnpauseTime info)).

(** [json.Marshal(info)], [obj] being the object under reconciliation. *)
Definition Marshal_PauseInfo (obj : object) (info : PauseInfo) : string :=
  string_of_list_ascii (print (PauseInfo_json obj info)).

Definition PauseInfo_step (k : string) (j : json) (i : PauseInfo) : option PauseInfo :=
  if names k "pause" then
    x ← decode_bool (Pause i) j;
    Some {| Pause := x; Object := Object i; LastPauseTime := LastPauseTime i;
            LastUnPauseTime := LastUnPauseTime i;
            ShouldUnpauseTime := ShouldUnpauseTime i |}
  else if names k "object" then
    x ← match j with
        | JNull => Some NilObject
        | _ => u ← decode_unstructured j; Some (Snapshot u)
        end;
    Some {| Pause := Pause i; Object := x; LastPauseTime := LastPauseTime i;
            LastUnPauseTime := LastUnPauseTime i;
            ShouldUnpauseTime := ShouldUnpauseTime i |}
  else if names k "lastPauseTime" then
    x ← decode_time_ptr j;
    Some {| Pause := Pause i; Object := Object i; LastPauseTime := x;
            LastUnPauseTime := LastUnPauseTime i;
            ShouldUnpauseTime := ShouldUnpauseTime i |}
  else if names k "lastUnPauseTime" then
    x ← decode_time_ptr j;
    Some {| Pause := Pause i; Object := Object i; LastPauseTime := LastPauseTime i;
            LastUnPauseTime := x;
            ShouldUnpauseTime := ShouldUnpauseTime i |}
  else if names k "shouldUnpauseTime" then
    x ← decode_time_ptr j;
    Some {| Pause := Pause i; Object := Object i; LastPauseTime := LastPauseTime i;
            LastUnPauseTime := LastUnPauseTime i;
            ShouldUnpauseTime := x |}
  else Some i.

(** [new(PauseInfo)]. *)
Definition newPauseInfo : PauseInfo :=
  {| Pause := false; Object := NilObject; LastPauseTime := None;
     LastUnPauseTime := None; ShouldUnpauseTime := None |}.

(** [json.Unmarshal([]byte(v), info)] with [info = new(PauseInfo)]. *)
Definition Unmarshal_PauseInfo (v : string) : result PauseInfo :=
  decode_struct PauseInfo_step newPauseInfo v.

(** ** The world outside

    The clock, the random source and the API client.  [clock] is the
    instant the next reading gives and [ticks] tells how far the clock moves
    after each reading; [draws] are the raw values of the random source;
    [failures] tells, call after call, whether [cli.Update] fails; [calls]
    records every [cli.Update], oldest first, with the object sent and
    whether it was accepted. *)
Record World := {
  clock : Time;
  ticks : list Duration;
  draws : list Z;
  failures : list bool;
  calls : list (object * bool)
}.

(** [time.Now()] and [metav1.Now()]. *)
Definition Now (w : World) : Time * World :=
  (clock w,
   {| clock := clock w + hd 0 (ticks w); ticks := tl (ticks w); draws := draws w;
      failures := failures w; calls := calls w |}).

(** [rand.Int63n(n)]: a value of [0, n); it panics unless [0 < n]. *)
Definition Int63n (n : Z) (w : World) : option Z * World :=
  if n <=? 0 then (None, w)
  else (Some (hd 0 (draws w) mod n),
        {| clock := clock w; ticks := ticks w; draws := tl (draws w);
           failures := failures w; calls := calls w |}).

(** [cli.Update(ctx, obj)].  The answer of the server is not written back
    into the object: it stays as it was sent. *)
Definition Update (obj : object) (w : World) : option error * World :=
  let failed := hd false (failures w) in
  ((if failed then Some (Leaf "update failed") else None),
   {| clock := clock w; ticks := ticks w; draws := draws w;
      failures := tl (failures w); calls := calls w ++ [(obj, negb failed)] |}).

(** What [r.Client.Get] gave. *)
Inductive fetched :=
| Got (obj : object)
| GetNotFound
| GetFailed (e : error).

(** ** The functions *)

Definition isPaused (v : string) : bool := String.eqb v "true".

Definition parsePauseInfo (obj : object) : result (option PauseInfo) :=
  let ann := GetAnnotations obj in
  match ann ≫= (fun m => m !! AnnotationKeyPauseInfo) with
  | None => Ok None
  | Some v =>
      match Unmarshal_PauseInfo v with
      | Ok info => Ok (Some info)
      | Err e => Err e
      | Panic msg => Panic msg
      end
  end.

(** [time.Duration(float64(r) * 0.1)]; the product is exact below 2^53,
    the rounding of larger draws is not modelled. *)
Definition tenth (r : Z) : Duration := r / 10.

Definition ensurePause (obj : object) (info : option PauseInfo)
    (unPausePollInterval : option Duration) (w : World)
    : result unit * object * PauseInfo * World :=
  let info := default newPauseInfo info in
  if Pause info then (Ok tt, obj, info, w)
  else
    let '(now, w) := Now w in
    let info := {| Pause := true; Object := SameObject; LastPauseTime := Some now;
                   LastUnPauseTime := LastUnPauseTime info;
                   ShouldUnpauseTime := ShouldUnpauseTime info |} in
    let scheduled :=
      match unPausePollInterval with
      | Some interval =>
          let shouldUnpauseTime := Add now interval in
          match Int63n interval w with
          | (Some r, w) =>
              let jitter := tenth r in
              (* the sum is computed and dropped *)
              let _ := Add shouldUnpauseTime jitter in
              Some ({| Pause := Pause info; Object := Object info;
                       LastPauseTime := LastPauseTime info;
                       LastUnPauseTime := LastUnPauseTime info;
                       ShouldUnpauseTime := Some shouldUnpauseTime |}, w)
          | (None, w) => None
          end
      | None => Some (info, w)
      end in
    match scheduled with
    | None => (Panic "invalid argument to Int63n", obj, info, w)
    | Some (info, w) =>
        let obj := RemoveNestedField obj
                     ["metadata"; "annotations"; AnnotationKeyPauseInfo]%string in
        let data := Marshal_PauseInfo obj info in
        let ann := default ∅ (GetAnnotations obj) in
        let ann := <[AnnotationKeyReconciliationPaused := "true"%string]> ann in
        let ann := <[AnnotationKeyPauseInfo := data]> ann in
        let obj := SetAnnotations obj (Some ann) in
        match Update obj w with
        | (Some e, w) => (Err (Wrap "failed to update object" e), obj, info, w)
        | (None, w) => (Ok tt, obj, info, w)
        end
    end.

Definition ensureUnPause (obj : object) (info : option PauseInfo) (w : World)
    : result unit * object * option PauseInfo * World :=
  match info with
  | None => (Ok tt, obj, None, w)
  | Some info =>
      if negb (Pause info) then (Ok tt, obj, Some info, w)
      else
        let ann := default ∅ (GetAnnotations obj) in
        let '(now, w) := Now w in
        let info := {| Pause := false; Object := NilObject;
                       LastPauseTime := LastPauseTime info;
                       LastUnPauseTime := Some now;
                       ShouldUnpauseTime := None |} in
        let data := Marshal_PauseInfo obj info in
        let ann := delete AnnotationKeyReconciliationPaused ann in
        let ann := <[AnnotationKeyPauseInfo := data]> ann in
        let obj := SetAnnotations obj (Some ann) in
        match Update obj w with
        | (Some e, w) => (Err (Wrap "failed to update object" e), obj, Some info, w)
        | (None, w) => (Ok tt, obj, Some info, w)
        end
  end.

Definition checkFieldEqual (obj1 obj2 : object) (fields : list string) : result bool :=
  match NestedMap obj1 fields with
  | WrongType => Err (Leaf "accessor error")
  | r1 =>
      match NestedMap obj2 fields with
      | WrongType => Err (Leaf "accessor error")
      | r2 =>
          match r1, r2 with
          | Found spec1, Found spec2 => Ok (DeepEqual spec1 spec2)
          | NotFound, NotFound => Ok true
          | _, _ => Ok false
          end
      end
  end.

Definition strip (u : object) : object :=
  RemoveNestedField
    (RemoveNestedField u
       ["metadata"; "annotations"; AnnotationKeyReconciliationPaused]%string)
    ["metadata"; "annotations"; AnnotationKeyPauseInfo]%string.

(** [isUpdated(ctx, old, now)]; a nil [now] is dereferenced. *)
Definition isUpdated (old : object) (now : option object) : result bool :=
  match now with
  | None => Panic "nil pointer dereference"
  | Some now =>
      let now := strip now in
      let old := strip old in
      match checkFieldEqual old now ["spec"]%string with
      | Ok true =>
          match checkFieldEqual old now ["metadata"; "annotations"]%string with
          | Ok true =>
              match checkFieldEqual old now ["metadata"; "labels"]%string with
              | Ok true => Ok false
              | Ok false => Ok true
              | Err e => Err e
              | Panic msg => Panic msg
              end
          | Ok false => Ok true
          | Err e => Err e
          | Panic msg => Panic msg
          end
      | Ok false => Ok true
      | Err e => Err e
      | Panic msg => Panic msg
      end
  end.

Fixpoint findCondition (conditions : list value) (ty : string)
    : result (option Condition) :=
  match conditions with
  | [] => Ok None
  | c :: rest =>
      let data := Marshal_value c in
      match Unmarshal_Condition data with
      | Ok res =>
          if String.eqb (Type_ res) ty then Ok (Some res) else findCondition rest ty
      | Err e => Err (Wrap "unable to unmarshal condition" e)
      | Panic msg => Panic msg
      end
  end.

Definition getCondition (obj : object) (ty : string) : result (option Condition) :=
  match NestedSlice obj ["status"; "conditions"]%string with
  | WrongType => Err (Wrap "unable to get conditions" (Leaf "accessor error"))
  | NotFound => Ok None
  | Found conditions => findCondition conditions ty
  end.

Definition isTrue (c : option Condition) : bool :=
  match c with
  | Some c => String.eqb (Status c) ConditionTrue
  | None => false
  end.

(** Lines 117-154: the record says the resource is paused. *)
Definition reconcilePaused (r : Reconciler) (obj : object) (info : PauseInfo)
    (w : World) : result Result * World :=
  match isUpdated obj (deref obj (Object info)) with
  | Panic msg => (Panic msg, w)
  | Err e => (Err (Wrap "unable to check if updated" e), w)
  | Ok true =>
      match ensureUnPause obj (Some info) w with
      | (Ok _, _, _, w) => (Ok noResult, w)
      | (Err e, _, _, w) => (Err (Wrap "unable to unpause" e), w)
      | (Panic msg, _, _, w) => (Panic msg, w)
      end
  | Ok false =>
      match UnPausePollInterval r with
      | Some interval =>
          let '(now, w) := Now w in
          match LastPauseTime info with
          | None => (Panic "nil pointer dereference", w)
          | Some lastPauseTime =>
              let shouldUnpauseTime :=
                match ShouldUnpauseTime info with
                | Some t => t
                | None => Add lastPauseTime interval
                end in
              if Before now shouldUnpauseTime
              then (Ok {| Requeue := false; RequeueAfter := Sub shouldUnpauseTime now |}, w)
              else
                match ensureUnPause obj (Some info) w with
                | (Ok _, _, _, w) => (Ok noResult, w)
                | (Err e, _, _, w) => (Err (Wrap "unable to unpause" e), w)
                | (Panic msg, _, _, w) => (Panic msg, w)
                end
          end
      | None => (Ok noResult, w)
      end
  end.

(** Lines 164-187: the two conditions, then the pause. *)
Definition reconcileConditions (r : Reconciler) (obj : object) (info : PauseInfo)
    (w : World) : result Result * World :=
  match getCondition obj TypeReady with
  | Panic msg => (Panic msg, w)
  | Err e => (Err (Wrap "unable to get ready condition" e), w)
  | Ok readyCondition =>
      if negb (isTrue readyCondition) then (Ok noResult, w)
      else
        match getCondition obj TypeSynced with
        | Panic msg => (Panic msg, w)
        | Err e => (Err (Wrap "unable to get synced condition" e), w)
        | Ok syncedCondition =>
            if negb (isTrue syncedCondition) then (Ok noResult, w)
            else
              match ensurePause obj (Some info) (UnPausePollInterval r) w with
              | (Ok _, _, _, w) => (Ok noResult, w)
              | (Err e, _, _, w) => (Err (Wrap "unable to pause" e), w)
              | (Panic msg, _, _, w) => (Panic msg, w)
              end
        end
  end.

(** Lines 156-187: the record says the resource is not paused. *)
Definition reconcileUnpaused (r : Reconciler) (obj : object) (info : PauseInfo)
    (w : World) : result Result * World :=
  let '(now, w) := Now w in
  match LastUnPauseTime info with
  | None => reconcileConditions r obj info w
  | Some lastUnPauseTime =>
      match FrozenTimeDuration r with
      | None => (Panic "nil pointer dereference", w)
      | Some frozen =>
          if After (Add lastUnPauseTime frozen) now
          then (Ok {| Requeue := false;
                      RequeueAfter := Sub (Add lastUnPauseTime frozen) now |}, w)
          else reconcileConditions r obj info w
      end
  end.

(** [Reconcile], from the answer of [r.Client.Get] on.  Logging, and the
    clock readings made only for it, are left out. *)
Definition Reconcile (r : Reconciler) (got : fetched) (w : World)
    : result Result * World :=
  match got with
  | GetNotFound => (Ok noResult, w)
  | GetFailed e => (Err (Wrap "unable to get object" e), w)
  | Got obj =>
      let ann := GetAnnotations obj in
      let pauseValue :=
        default EmptyString (ann ≫= (fun m => m !! AnnotationKeyReconciliationPaused)) in
      match parsePauseInfo obj with
      | Panic msg => (Panic msg, w)
      | Err e => (Err (Wrap "unable to parse pause info" e), w)
      | Ok info =>
          if isPaused pauseValue && bool_decide (info = None) then (Ok noResult, w)
          else
            let info := default newPauseInfo info in
            let deleted :=
              match GetDeletionTimestamp obj with
              | Some _ => ensureUnPause obj (Some info) w
              | None => (Ok tt, obj, Some info, w)
              end in
            match deleted with
            | (Panic msg, _, _, w) => (Panic msg, w)
            | (Err e, _, _, w) => (Err (Wrap "unable to unpause" e), w)
            | (Ok _, obj, info, w) =>
                let info := default newPauseInfo info in
                if Pause info then reconcilePaused r obj info w
                else reconcileUnpaused r obj info w
            end
      end
  end.

(** [SetupWithManager], as far as the policy goes: the default of the
    frozen window. *)
Definition SetupWithManager (r : Reconciler) : Reconciler :=
  {| UnPausePollInterval := UnPausePollInterval r;
     FrozenTimeDuration :=
       match FrozenTimeDuration r with
       | Some d => Some d
       | None => Some DefaultFrozenTimeDuration
       end |}.

End Crossplane.

(* ================================================================== *)
(** * The vocabulary of the properties *)
(* ================================================================== *)

Import GoTime Json Unstructured Codec Crossplane.

(** ** Worlds and objects *)

(** [extends w w'] : the world [w'] is a later state of [w]; the calls made
    in between are [l]. *)
Definition extends (w w' : World) (l : list (object * bool)) : Prop :=
  calls w' = calls w ++ l.

(** The metadata of an object can take annotations when it is a map, or
    missing. *)
Definition metadata_ok (u : object) : bool :=
  match u !! "metadata"%string with
  | Some (VMap _) | None => true
  | Some _ => false
  end.

(** ** The two transitions, in the words of the specification *)

(** The unpause transition at the instant [now]: the record is marked not
    paused, loses its snapshot and its schedule and takes [now] as the time of
    the last unpause; the object loses the pause flag and carries the new
    record. *)
Definition unpaused_info (info : PauseInfo) (now : Time) : PauseInfo :=
  {| Pause := false; Object := NilObject; LastPauseTime := LastPauseTime info;
     LastUnPauseTime := Some now; ShouldUnpauseTime := None |}.

Definition unpaused_annotations (obj : object) (info : PauseInfo) (now : Time)
    : gmap string string :=
  <[AnnotationKeyPauseInfo := Marshal_PauseInfo obj (unpaused_info info now)]>
    (delete AnnotationKeyReconciliationPaused (default ∅ (GetAnnotations obj))).

Definition unpaused_object (obj : object) (info : PauseInfo) (now : Time) : object :=
  SetAnnotations obj (Some (unpaused_annotations obj info now)).

(** The pause transition at the instant [now]: the snapshot is the object
    without its record annotation, [schedule] is the time of the forced
    unpause. *)
Definition pause_snapshot (obj : object) : object :=
  RemoveNestedField obj ["metadata"; "annotations"; AnnotationKeyPauseInfo]%string.

Definition paused_info (info : PauseInfo) (now : Time) (schedule : option Time) : PauseInfo :=
  {| Pause := true; Object := SameObject; LastPauseTime := Some now;
     LastUnPauseTime := LastUnPauseTime info; ShouldUnpauseTime := schedule |}.

Definition paused_annotations (obj : object) (info : PauseInfo) (now : Time)
    (schedule : option Time) : gmap string string :=
  <[AnnotationKeyPauseInfo :=
      Marshal_PauseInfo (pause_snapshot obj) (paused_info info now schedule)]>
    (<[AnnotationKeyReconciliationPaused := "true"%string]>
       (default ∅ (GetAnnotations (pause_snapshot obj)))).

Definition paused_object (obj : object) (info : PauseInfo) (now : Time)
    (schedule : option Time) : object :=
  SetAnnotations (pause_snapshot obj) (Some (paused_annotations obj info now schedule)).

(** The schedule the code stores: the old one without a poll interval, else
    the time of the pause plus the interval. *)
Definition stored_schedule (info : PauseInfo) (now : Time) (interval : option Duration)
    : option Time :=
  match interval with
  | Some i => Some (Add now i)
  | None => ShouldUnpauseTime info
  end.

Definition update_outcome (w : World) : result unit :=
  if hd false (failures w) then Err (Wrap "failed to update object" (Leaf "update failed"))
  else Ok tt.

(** ** What an evaluation reads *)

(** The value of the record annotation, as [parsePauseInfo] reads it. *)
Definition record_annotation (obj : object) : option string :=
  GetAnnotations obj ≫= (fun m => m !! AnnotationKeyPauseInfo).

(** The value of the pause flag, as [Reconcile] reads it. *)
Definition pause_flag (obj : object) : string :=
  default EmptyString
    (GetAnnotations obj ≫= (fun m => m !! AnnotationKeyReconciliationPaused)).

(** The time at which a paused resource is due for a forced unpause. *)
Definition dueTime (info : PauseInfo) (lastPauseTime : Time) (interval : Duration) : Time :=
  match ShouldUnpauseTime info with
  | Some t => t
  | None => lastPauseTime + interval
  end.

(** There is no frozen window at [now]: no unpause is recorded, or the
    window that follows it is over. *)
Definition window_over (r : Reconciler) (info : PauseInfo) (now : Time) : Prop :=
  match LastUnPauseTime info with
  | None => True
  | Some t0 =>
      match FrozenTimeDuration r with
      | Some frozen => t0 + frozen <= now
      | None => False
      end
  end.

Definition positive_interval (interval : option Duration) : Prop :=
  match interval with
  | Some i => 0 < i
  | None => True
  end.

(** The annotation [k] of an object, whatever its type. *)
Definition annotation (u : object) (k : string) : option value :=
  match u !! "metadata"%string with
  | Some (VMap meta) =>
      match meta !! "annotations"%string with
      | Some (VMap a) => a !! k
      | _ => None
      end
  | _ => None
  end.

(** ** Reading back a printed document *)

(** What may follow a number: not a digit, and not the start of a fraction
    or of an exponent. *)
Definition ok_after (rest : text) : bool :=
  match rest with
  | [] => true
  | c :: _ => negb (is_digit c) && negb (starts_fraction rest)
  end.

Definition digits_of (u : Decimal.uint) : text :=
  list_ascii_of_string (NilEmpty.string_of_uint u).

(** The first character of a printed document. *)
Definition opens (c : ascii) : Prop :=
  is_ws c = false /\ N_of_ascii c <> 93%N /\ N_of_ascii c <> 125%N.

(** The fuel for the elements of an array and the members of an object. *)
Definition need_elems (l : list json) : nat :=
  fold_right (fun x n => S (Nat.max (need x) n)) 0%nat l.

Definition need_members (l : list (string * json)) : nat :=
  fold_right (fun kv n => S (Nat.max (need (snd kv)) n)) 0%nat l.

Definition print_member (kv : string * json) : text :=
  quote (fst kv) ++ ":"%char :: print (snd kv).

Definition reads_back (j : json) : Prop :=
  forall fuel rest, (need j <= fuel)%nat -> ok_after rest = true ->
                    parse_value fuel (print j ++ rest) = Some (j, rest).

(** ** What the codec keeps of a record *)

(** What is kept of a time: nothing of the zero time, the whole seconds of
    any other. *)
Definition stored_time (t : Time) : option Time :=
  if IsZero t then None else Some (t / Second * Second).

(** What is kept of a record that is encoded for the object [obj]. *)
Definition stored (obj : object) (s : PauseInfo) : PauseInfo :=
  {| Pause := Pause s;
     Object := match deref obj (Object s) with
               | Some u => Snapshot u
               | None => NilObject
               end;
     LastPauseTime := LastPauseTime s ≫= stored_time;
     LastUnPauseTime := LastUnPauseTime s ≫= stored_time;
     ShouldUnpauseTime := ShouldUnpauseTime s ≫= stored_time |}.

Definition year_has_four_digits (o : option Time) : Prop :=
  match o with
  | Some t => minRFC3339 <= t < maxRFC3339
  | None => True
  end.

Definition has_kind (o : option object) : Prop :=
  match o with
  | Some u => kind_of u <> EmptyString
  | None => True
  end.

(** [utf8.ValidString]: the bytes are well-formed UTF-8.  A code point
    takes one to four bytes; the forms that are too long, the surrogate halves
    and the code points above U+10FFFF are not valid. *)
Definition between (lo hi : N) (c : ascii) : bool :=
  ((lo <=? N_of_ascii c) && (N_of_ascii c <=? hi))%N.

Definition continuation (c : ascii) : bool := between 128 191 c.

Definition second_of_three (lead : N) (c : ascii) : bool :=
  if (lead =? 224)%N then between 160 191 c
  else if (lead =? 237)%N then between 128 159 c
  else continuation c.

Definition second_of_four (lead : N) (c : ascii) : bool :=
  if (lead =? 240)%N then between 144 191 c
  else if (lead =? 244)%N then between 128 143 c
  else continuation c.

Fixpoint valid_utf8 (s : text) : bool :=
  match s with
  | [] => true
  | c :: r =>
      let n := N_of_ascii c in
      if (n <? 128)%N then valid_utf8 r
      else if between 194 223 c then
        match r with
        | c1 :: r1 => continuation c1 && valid_utf8 r1
        | _ => false
        end
      else if between 224 239 c then
        match r with
        | c1 :: c2 :: r2 => second_of_three n c1 && continuation c2 && valid_utf8 r2
        | _ => false
        end
      else if between 240 244 c then
        match r with
        | c1 :: c2 :: c3 :: r3 =>
            second_of_four n c1 && continuation c2 && continuation c3 && valid_utf8 r3
        | _ => false
        end
      else false
  end.

Definition valid_string (s : string) : bool := valid_utf8 (list_ascii_of_string s).

Definition is_int64 (z : Z) : bool := (minDuration <=? z) && (z <=? maxDuration).

(** The values that the encoder writes and the decoder gives back as they
    are: every string and every key is valid UTF-8, where the encoder of Go
    writes U+FFFD for a byte that is not, and every number is an [int64].  A
    [float64] is not a value here; the decoder gives an [int64] for every
    number it can, so that a [float64] with an integer value is not read back
    as it was. *)
Fixpoint kept_by_codec (v : value) : bool :=
  match v with
  | VNil | VBool _ => true
  | VInt z => is_int64 z
  | VString s => valid_string s
  | VSlice l => forallb kept_by_codec l
  | VMap m =>
      forallb (fun kv : string * bool => valid_string (fst kv) && snd kv)
        (map_to_list (kept_by_codec <$> m))
  end.

Definition plain_snapshot (o : option object) : Prop :=
  match o with
  | Some u => kept_by_codec (VMap u) = true
  | None => True
  end.

(** The record can be read back: its snapshot has a kind and the years of
    its times have four digits. *)
Definition encodable (obj : object) (s : PauseInfo) : Prop :=
  has_kind (deref obj (Object s))
  /\ year_has_four_digits (LastPauseTime s)
  /\ year_has_four_digits (LastUnPauseTime s)
  /\ year_has_four_digits (ShouldUnpauseTime s).

(** A time that is kept as it is: whole seconds, a year of four digits, not
    the zero time. *)
Definition kept_exactly (o : option Time) : Prop :=
  match o with
  | Some t => t mod Second = 0 /\ minRFC3339 <= t < maxRFC3339 /\ t <> zeroTime
  | None => True
  end.

(** ** The regions of the drift check *)

(** The region [fields] can be read in [a] and is the same in [b]: missing
    in both, or the same map in both. *)
Definition same_region (a b : object) (fields : list string) : Prop :=
  NestedMap a fields <> WrongType /\ NestedMap a fields = NestedMap b fields.

(** An annotation region without the two annotations of the reconciler. *)
Definition without_own (r : nested object) : nested object :=
  match r with
  | Found m =>
      Found (delete AnnotationKeyPauseInfo (delete AnnotationKeyReconciliationPaused m))
  | NotFound => NotFound
  | WrongType => WrongType
  end.

(** ** What is sent to the client *)

(** The pause flag of the object and the record it carries say the same. *)
Definition agreed (o : object) : Prop :=
  exists snap record,
    record_annotation o = Some (Marshal_PauseInfo snap record)
    /\ isPaused (pause_flag o) = Pause record.

(** [w'] is [w] after at most one call of the client, of an object with the
    property [P]. *)
Definition sends_at_most_one (P : object -> Prop) (w w' : World) : Prop :=
  exists l, extends w w' l /\ (length l <= 1)%nat /\ Forall (fun c => P (fst c)) l.

(** The record of a paused resource has what the paused branch
    dereferences. *)
Definition record_is_whole (info : PauseInfo) : Prop :=
  Pause info = true -> Object info <> NilObject /\ LastPauseTime info <> None.

(** The calls [l] of a step and its result [out] fit: no call, or one call
    that was accepted and no error, or one call that was rejected and an
    error. *)
Definition answered {A : Type} (out : result A) (l : list (object * bool)) : Prop :=
  l = []
  \/ (exists o a, l = [(o, true)] /\ out = Ok a)
  \/ (exists o e, l = [(o, false)] /\ out = Err e).

(** ** Errors *)

(** The steps of an evaluation that can fail, by the text that wraps their
    error. *)
Definition steps : list string :=
  ["unable to get object"; "unable to parse pause info"; "unable to unpause";
   "unable to check if updated"; "unable to get ready condition";
   "unable to get synced condition"; "unable to pause"]%string.

Definition names_its_step (e : error) : Prop :=
  exists msg cause, e = Wrap msg cause /\ msg ∈ steps.

(** The three regions of the drift check. *)
Definition regions : list (list string) :=
  [["spec"]; ["metadata"; "annotations"]; ["metadata"; "labels"]]%string.

(** ** Times as a record keeps them *)

(** The time cut to the second, as it is written in a record. *)
Definition whole_seconds (t : Time) : Time := t / Second * Second.

(** The time can be written in a record and read back: its year has four
    digits and it is not the zero time. *)
Definition readable (t : Time) : Prop :=
  minRFC3339 <= t < maxRFC3339 /\ t <> zeroTime.

(** ** The resource of the tests *)

Module Examples.
#[local] Open Scope string_scope.

Definition condition (ty status : string) : value :=
  VMap (list_to_map [("type", VString ty); ("status", VString status);
                     ("reason", VString "Available");
                     ("lastTransitionTime", VString "2022-07-22T10:54:18Z")]).

Definition bare_metadata : object := {["name" := VString "test-subnet"]}.

(** The subnet of [TestPause], without any annotation. *)
Definition bare_subnet : object :=
  list_to_map
    [("apiVersion", VString "ec2.aws.crossplane.io/v1beta1");
     ("kind", VString "Subnet");
     ("metadata", VMap bare_metadata);
     ("spec", VMap {["forProvider" := VMap {["cidrBlock" := VString "a"]}]});
     ("status",
      VMap {["conditions" :=
               VSlice [condition "Ready" "True"; condition "Synced" "True"]]})].

Definition annotate (k v : string) (u : object) : object :=
  SetAnnotations u (Some (<[k := v]> (default ∅ (GetAnnotations u)))).

(** The subnet of the tests, with its annotation [some: value]. *)
Definition subnet : object := annotate "some" "value" bare_subnet.

Definition with_metadata (k : string) (v : value) (u : object) : object :=
  match u !! "metadata" with
  | Some (VMap m) => <["metadata" := VMap (<[k := v]> m)]> u
  | _ => u
  end.

Definition deleted (u : object) : object :=
  with_metadata "deletionTimestamp" (VString "2022-07-22T11:00:00Z") u.

(** 2022-07-22T10:54:18Z, and 123456789 ns later. *)
Definition T0 : Time := 1658487258 * Second.
Definition T1 : Time := T0 + 123456789.

(** 9999-12-31T23:59:59Z. *)
Definition far : Time := 253402300799 * Second.

Definition world_at (now : Time) : World :=
  {| clock := now; ticks := []; draws := [1800000000000]; failures := [];
     calls := [] |}.

Definition policy : Reconciler :=
  {| UnPausePollInterval := Some Hour;
     FrozenTimeDuration := Some DefaultFrozenTimeDuration |}.

(** The object [u] with the record [record] and, if any, the pause flag. *)
Definition carrying (record : PauseInfo) (flag : option string) (u : object) : object :=
  let u' := annotate AnnotationKeyPauseInfo (Marshal_PauseInfo u record) u in
  match flag with
  | Some f => annotate AnnotationKeyReconciliationPaused f u'
  | None => u'
  end.

(** The record of the subnet paused at [T0], with the schedule [due]. *)
Definition paused_record (due : Time) : PauseInfo :=
  {| Pause := true; Object := Snapshot subnet; LastPauseTime := Some T0;
     LastUnPauseTime := None; ShouldUnpauseTime := Some due |}.

Definition paused_subnet : object :=
  carrying (paused_record (T0 + Hour)) (Some "true") subnet.

Definition far_subnet : object := carrying (paused_record far) (Some "true") subnet.

(** A record with a schedule and without the time of the last pause. *)
Definition unanchored_record : PauseInfo :=
  {| Pause := true; Object := Snapshot subnet; LastPauseTime := None;
     LastUnPauseTime := None; ShouldUnpauseTime := Some (T0 + Hour) |}.

Definition unanchored_subnet : object :=
  carrying unanchored_record (Some "true") subnet.

Definition policy_without_interval : Reconciler :=
  {| UnPausePollInterval := Some 0;
     FrozenTimeDuration := Some DefaultFrozenTimeDuration |}.

(** A record whose last pause is the zero time, and one whose snapshot has
    no kind. *)
Definition zero_record : PauseInfo :=
  {| Pause := false; Object := NilObject; LastPauseTime := Some zeroTime;
     LastUnPauseTime := None; ShouldUnpauseTime := None |}.

Definition kindless_record : PauseInfo :=
  {| Pause := true; Object := Snapshot (delete "kind" subnet); LastPauseTime := Some T0;
     LastUnPauseTime := None; ShouldUnpauseTime := None |}.

(** The record of the subnet unpaused at [t0]. *)
Definition unpaused_record (t0 : Time) : PauseInfo :=
  {| Pause := false; Object := NilObject; LastPauseTime := Some T0;
     LastUnPauseTime := Some t0; ShouldUnpauseTime := None |}.

Definition unpaused_subnet (t0 : Time) : object :=
  carrying (unpaused_record t0) None subnet.

(** A record that says paused and nothing else: its text is the object
    with the one member [pause], true. *)
Definition only_paused : PauseInfo :=
  {| Pause := true; Object := NilObject; LastPauseTime := None;
     LastUnPauseTime := None; ShouldUnpauseTime := None |}.

Definition hand_written : object := carrying only_paused (Some "true") subnet.

Definition flagged_false : object :=
  annotate AnnotationKeyReconciliationPaused "false" subnet.

Definition flagged_true : object :=
  annotate AnnotationKeyReconciliationPaused "true" subnet.

Definition garbled : object := annotate AnnotationKeyPauseInfo "not a record" subnet.

(** The record of an object, if it has one that can be read. *)
Definition record_of (u : object) : option PauseInfo :=
  match parsePauseInfo u with
  | Ok o => o
  | _ => None
  end.

(** The objects sent to the client, oldest first. *)
Definition sent (w : World) : list object := (calls w).*1.

Definition ready : option Condition :=
  Some {| Type_ := "Ready"; Status := "True"; LastTransitionTime := T0;
          Reason := "Available"; Message := EmptyString |}.

Definition synced : option Condition :=
  Some {| Type_ := "Synced"; Status := "True"; LastTransitionTime := T0;
          Reason := "Available"; Message := EmptyString |}.

(** The object with another CIDR block in its spec. *)
Definition resized (u : object) : object :=
  <["spec" := VMap {["forProvider" := VMap {["cidrBlock" := VString "b"]}]}]> u.

(** The object with a Ready condition that is not true. *)
Definition unready (u : object) : object :=
  <["status" :=
      VMap {["conditions" :=
               VSlice [condition "Ready" "False"; condition "Synced" "True"]]}]> u.

Definition not_ready : option Condition :=
  Some {| Type_ := "Ready"; Status := "False"; LastTransitionTime := T0;
          Reason := "Available"; Message := EmptyString |}.

(** A world whose server rejects the next update. *)
Definition rejecting (now : Time) : World :=
  {| clock := now; ticks := []; draws := [1800000000000]; failures := [true];
     calls := [] |}.

End Examples.

Import Examples.

(* ================================================================== *)
(** * Properties *)
(* ================================================================== *)

(** ** The effects of the functions on the world *)

Lemma extends_refl w : extends w w [].
Proof. unfold extends. by rewrite app_nil_r. Qed.

Lemma extends_trans w1 w2 w3 l1 l2 :
  extends w1 w2 l1 -> extends w2 w3 l2 -> extends w1 w3 (l1 ++ l2).
Proof. unfold extends. intros H1 H2. by rewrite H2, H1, app_assoc. Qed.

Lemma Now_calls w : calls (Now w).2 = calls w.
Proof. reflexivity. Qed.

Lemma Now_time w : (Now w).1 = clock w.
Proof. reflexivity. Qed.

Lemma Now_failures w : failures (Now w).2 = failures w.
Proof. reflexivity. Qed.

Lemma Int63n_calls n w : calls (Int63n n w).2 = calls w.
Proof. unfold Int63n. by destruct (n <=? 0). Qed.

Lemma Int63n_failures n w : failures (Int63n n w).2 = failures w.
Proof. unfold Int63n. by destruct (n <=? 0). Qed.

Lemma Int63n_positive n w : 0 < n -> exists r, (Int63n n w).1 = Some r /\ 0 <= r < n.
Proof.
  intros Hn. unfold Int63n. destruct (Z.leb_spec n 0); [lia|].
  eexists; split; [reflexivity|]. apply Z.mod_pos_bound; lia.
Qed.

Lemma Update_calls obj w :
  calls (Update obj w).2 = calls w ++ [(obj, negb (hd false (failures w)))].
Proof. reflexivity. Qed.

Lemma Update_result obj w :
  (Update obj w).1 = if hd false (failures w) then Some (Leaf "update failed") else None.
Proof. reflexivity. Qed.

(** ** Annotations *)

Lemma omap_as_string_fmap (a : gmap string string) : omap as_string (VString <$> a) = a.
Proof.
  apply map_eq. intros k. rewrite lookup_omap, lookup_fmap.
  by destruct (a !! k).
Qed.

Lemma all_strings_fmap (a : gmap string string) :
  map_Forall (fun (_ : string) v => is_Some (as_string v)) (VString <$> a).
Proof.
  intros k v. rewrite lookup_fmap. destruct (a !! k); intros [= <-]. by eexists.
Qed.

Lemma Get_SetAnnotations u a :
  metadata_ok u = true -> GetAnnotations (SetAnnotations u (Some a)) = Some a.
Proof.
  unfold metadata_ok, GetAnnotations, SetAnnotations, NestedStringMap, NestedMap.
  cbn [setNestedFieldNoCopy NestedFieldNoCopy].
  destruct (u !! "metadata"%string) as [[]|] eqn:Hm; try discriminate; intros _; cbn;
    rewrite lookup_insert_eq; cbn; rewrite lookup_insert_eq;
    rewrite bool_decide_eq_true_2 by apply all_strings_fmap;
    by rewrite omap_as_string_fmap.
Qed.

Lemma GetAnnotations_metadata_ok u a : GetAnnotations u = Some a -> metadata_ok u = true.
Proof.
  unfold metadata_ok, GetAnnotations, NestedStringMap, NestedMap.
  cbn [NestedFieldNoCopy].
  by destruct (u !! "metadata"%string) as [[]|].
Qed.

Lemma GetDeletionTimestamp_metadata_ok u t :
  GetDeletionTimestamp u = Some t -> metadata_ok u = true.
Proof.
  unfold metadata_ok, GetDeletionTimestamp, getNestedString, NestedString.
  cbn [NestedFieldNoCopy].
  by destruct (u !! "metadata"%string) as [[]|].
Qed.

(** ** The two transitions *)

Lemma ensureUnPause_paused obj info w :
  Pause info = true ->
  ensureUnPause obj (Some info) w =
    (update_outcome w, unpaused_object obj info (clock w),
     Some (unpaused_info info (clock w)),
     (Update (unpaused_object obj info (clock w)) (Now w).2).2).
Proof.
  intros Hp. unfold ensureUnPause. rewrite Hp. cbn [negb].
  unfold update_outcome, Update, Now. cbn.
  by destruct (hd false (failures w)).
Qed.

Lemma ensureUnPause_unpaused obj info w :
  Pause info = false -> ensureUnPause obj (Some info) w = (Ok tt, obj, Some info, w).
Proof. intros Hp. unfold ensureUnPause. by rewrite Hp. Qed.

Lemma ensurePause_paused obj info interval w :
  Pause info = true -> ensurePause obj (Some info) interval w = (Ok tt, obj, info, w).
Proof. intros Hp. unfold ensurePause. cbn. by rewrite Hp. Qed.

(** The pause, when no panic stops it: [w1] is the world after the clock
    reading and the draw. *)
Lemma ensurePause_unpaused obj info interval w :
  Pause info = false ->
  match interval with Some i => 0 < i | None => True end ->
  let now := clock w in
  let w1 := match interval with Some i => (Int63n i (Now w).2).2 | None => (Now w).2 end in
  let schedule := stored_schedule info now interval in
  ensurePause obj (Some info) interval w =
    (update_outcome w, paused_object obj info now schedule,
     paused_info info now schedule,
     (Update (paused_object obj info now schedule) w1).2).
Proof.
  intros Hp Hi now w1 schedule. unfold ensurePause. cbn [from_option id]. cbv zeta. rewrite Hp.
  destruct interval as [i|]; cbn [Now fst snd].
  - subst w1. unfold Int63n. cbn [Now fst snd clock].
    destruct (Z.leb_spec i 0); [lia|]. cbn.
    unfold update_outcome. by destruct (hd false (failures w)).
  - cbn. unfold update_outcome. by destruct (hd false (failures w)).
Qed.

Lemma ensurePause_nonpositive obj info i w :
  Pause info = false -> i <= 0 ->
  (ensurePause obj (Some info) (Some i) w).1.1.1 = Panic "invalid argument to Int63n".
Proof.
  intros Hp Hi. unfold ensurePause. cbn [from_option id]. cbv zeta. rewrite Hp.
  cbn [Now]. unfold Int63n. cbn [clock].
  destruct (Z.leb_spec i 0); [|lia]. reflexivity.
Qed.

(** ** Calls are only ever added *)

Lemma ensureUnPause_extends obj info w :
  exists l, extends w (ensureUnPause obj info w).2 l.
Proof.
  destruct info as [info|]; [|exists []; apply extends_refl].
  destruct (Pause info) eqn:Hp.
  - rewrite ensureUnPause_paused by done. eexists. unfold extends.
    cbn [snd]. by rewrite Update_calls, Now_calls.
  - rewrite ensureUnPause_unpaused by done. exists []. apply extends_refl.
Qed.

Lemma ensurePause_extends obj info interval w :
  exists l, extends w (ensurePause obj info interval w).2 l.
Proof.
  unfold ensurePause. destruct (Pause (default newPauseInfo info)).
  { exists []. apply extends_refl. }
  cbn [Now]. destruct interval as [i|].
  - unfold Int63n. cbn [clock]. destruct (i <=? 0).
    + exists []. unfold extends. cbn. by rewrite app_nil_r.
    + cbn. destruct (hd false (failures w)); eexists; unfold extends; cbn; reflexivity.
  - cbn. destruct (hd false (failures w)); eexists; unfold extends; cbn; reflexivity.
Qed.

Lemma reconcileConditions_extends r obj info w :
  exists l, extends w (reconcileConditions r obj info w).2 l.
Proof.
  unfold reconcileConditions.
  destruct (getCondition obj TypeReady) as [c1| |]; try (exists []; apply extends_refl).
  destruct (negb (isTrue c1)); [exists []; apply extends_refl|].
  destruct (getCondition obj TypeSynced) as [c2| |]; try (exists []; apply extends_refl).
  destruct (negb (isTrue c2)); [exists []; apply extends_refl|].
  destruct (ensurePause_extends obj (Some info) (UnPausePollInterval r) w) as [l Hl].
  exists l. by destruct (ensurePause _ _ _ _) as [[[[] ?] ?] ?].
Qed.

Lemma reconcileUnpaused_extends r obj info w :
  exists l, extends w (reconcileUnpaused r obj info w).2 l.
Proof.
  unfold reconcileUnpaused. cbn [Now].
  set (w1 := {| clock := _ |}).
  assert (Hw : forall w' l, extends w1 w' l -> extends w w' l) by (intros ??; done).
  destruct (LastUnPauseTime info).
  - destruct (FrozenTimeDuration r); [|exists []; by apply Hw, extends_refl].
    destruct (After _ _); [exists []; by apply Hw, extends_refl|].
    destruct (reconcileConditions_extends r obj info w1) as [l Hl]. eauto.
  - destruct (reconcileConditions_extends r obj info w1) as [l Hl]. eauto.
Qed.

Lemma reconcilePaused_extends r obj info w :
  exists l, extends w (reconcilePaused r obj info w).2 l.
Proof.
  unfold reconcilePaused.
  destruct (isUpdated _ _) as [[]| |]; try (exists []; apply extends_refl).
  - destruct (ensureUnPause_extends obj (Some info) w) as [l Hl].
    exists l. by destruct (ensureUnPause _ _ _) as [[[[] ?] ?] ?].
  - destruct (UnPausePollInterval r); [|exists []; apply extends_refl].
    cbn [Now]. set (w1 := {| clock := _ |}).
    assert (Hw : forall w' l, extends w1 w' l -> extends w w' l) by (intros ??; done).
    destruct (LastPauseTime info); [|exists []; by apply Hw, extends_refl].
    destruct (Before _ _); [exists []; by apply Hw, extends_refl|].
    destruct (ensureUnPause_extends obj (Some info) w1) as [l Hl].
    exists l. apply Hw. by destruct (ensureUnPause _ _ _) as [[[[] ?] ?] ?].
Qed.

(** ** Reading the record of a resource *)

Lemma Unmarshal_PauseInfo_no_panic v msg : Unmarshal_PauseInfo v <> Panic msg.
Proof.
  unfold Unmarshal_PauseInfo, decode_struct.
  destruct (parse _) as [[]|]; try discriminate.
  by destruct (foldl _ _ _).
Qed.

Lemma parsePauseInfo_no_panic obj msg : parsePauseInfo obj <> Panic msg.
Proof.
  unfold parsePauseInfo. destruct (_ ≫= _) as [v|]; [|done].
  pose proof (Unmarshal_PauseInfo_no_panic v) as H.
  destruct (Unmarshal_PauseInfo v); try done. intros [= ->]. by eapply H.
Qed.

(** The step of [Reconcile] after a record was read. *)
Lemma Reconcile_with_record r obj info w :
  parsePauseInfo obj = Ok (Some info) ->
  Reconcile r (Got obj) w =
    match (match GetDeletionTimestamp obj with
           | Some _ => ensureUnPause obj (Some info) w
           | None => (Ok tt, obj, Some info, w)
           end) with
    | (Panic msg, _, _, w) => (Panic msg, w)
    | (Err e, _, _, w) => (Err (Wrap "unable to unpause" e), w)
    | (Ok _, obj, info, w) =>
        let info := default newPauseInfo info in
        if Pause info then reconcilePaused r obj info w
        else reconcileUnpaused r obj info w
    end.
Proof.
  intros Hi. unfold Reconcile. rewrite Hi.
  rewrite (bool_decide_eq_false_2 (Some info = None)) by done.
  by rewrite andb_false_r.
Qed.

(** ** The record annotation of a resource *)


(** C4: a resource with a deletion timestamp whose record says paused is
    unpaused first: whatever the snapshot, the schedule and the policy are,
    the first call of the client sends the unpaused object, which has lost
    the pause flag and carries the unpaused record.  When that call fails the
    evaluation ends with its error. *)
Theorem deleted_paused_resource_is_unpaused
    (r : Reconciler) (obj : object) (info : PauseInfo) (t : Time) (w : World) :
  GetDeletionTimestamp obj = Some t ->
  parsePauseInfo obj = Ok (Some info) ->
  Pause info = true ->
  let now := clock w in
  let obj' := unpaused_object obj info now in
  let out := Reconcile r (Got obj) w in
  (exists rest, calls out.2 = calls w ++ (obj', negb (hd false (failures w))) :: rest)
  /\ GetAnnotations obj' = Some (unpaused_annotations obj info now)
  /\ GetAnnotations obj' ≫= (fun m => m !! AnnotationKeyReconciliationPaused) = None
  /\ record_annotation obj' = Some (Marshal_PauseInfo obj (unpaused_info info now))
  /\ (hd false (failures w) = true ->
      out.1 = Err (Wrap "unable to unpause"
                     (Wrap "failed to update object" (Leaf "update failed")))).
Proof.
  intros Hdel Hparse Hp now obj' out.
  assert (Hann : GetAnnotations obj' = Some (unpaused_annotations obj info now)).
  { apply Get_SetAnnotations. by eapply GetDeletionTimestamp_metadata_ok. }
  split; [|split; [done|split; [|split]]].
  - subst out. rewrite (Reconcile_with_record _ _ _ _ Hparse), Hdel.
    rewrite ensureUnPause_paused by done. fold now obj'.
    unfold update_outcome. destruct (hd false (failures w)) eqn:Hf.
    + exists []. cbn [snd]. by rewrite Update_calls, Now_calls, Now_failures, Hf.
    + cbn [default from_option id unpaused_info Pause].
      destruct (reconcileUnpaused_extends r obj' (unpaused_info info now)
                  (Update obj' (Now w).2).2) as [l Hl].
      exists l. rewrite Hl, Update_calls, Now_calls, Now_failures, Hf.
      by rewrite <- app_assoc.
  - rewrite Hann. cbn. unfold unpaused_annotations.
    rewrite lookup_insert_ne by done. apply lookup_delete_eq.
  - unfold record_annotation. rewrite Hann. cbn. apply lookup_insert_eq.
  - intros Hf. subst out. rewrite (Reconcile_with_record _ _ _ _ Hparse), Hdel.
    rewrite ensureUnPause_paused by done. unfold update_outcome. by rewrite Hf.
Qed.

(** ** Durations saturate *)

Lemma Sub_saturates (t u : Time) : u <= t -> Sub t u = Z.min (t - u) maxDuration.
Proof.
  intros H. unfold Sub, minDuration, maxDuration.
  destruct (Z.ltb_spec (t - u) (-9223372036854775808)); [lia|].
  destruct (Z.ltb_spec 9223372036854775807 (t - u)); lia.
Qed.

Lemma Sub_exact (t u : Time) : u <= t -> t - u <= maxDuration -> Sub t u = t - u.
Proof. intros H1 H2. rewrite Sub_saturates by done. lia. Qed.

(** ** The paused branch *)

(** C5, as the code has it: for a resource that is not deleted, is paused
    by its record, has not drifted from the snapshot and whose record has the
    time of the last pause: with a poll interval, before the due time nothing
    is sent and the evaluation asks to be run again after the time left,
    capped at the largest duration; from the due time on the unpaused object
    is sent; without a poll interval nothing is sent and no new run is asked
    for. *)
Theorem paused_resource_and_poll_interval
    (r : Reconciler) (obj snap : object) (info : PauseInfo) (tp : Time) (w : World) :
  GetDeletionTimestamp obj = None ->
  parsePauseInfo obj = Ok (Some info) ->
  Pause info = true ->
  Object info = Snapshot snap ->
  isUpdated obj (Some snap) = Ok false ->
  LastPauseTime info = Some tp ->
  let now := clock w in
  let out := Reconcile r (Got obj) w in
  (forall interval, UnPausePollInterval r = Some interval ->
     let due := dueTime info tp interval in
     (now < due ->
        out.1 = Ok {| Requeue := false; RequeueAfter := Z.min (due - now) maxDuration |}
        /\ calls out.2 = calls w)
     /\ (due <= now ->
        let w1 := (Now w).2 in
        calls out.2 =
          calls w ++ [(unpaused_object obj info (clock w1), negb (hd false (failures w)))]
        /\ out.1 = match update_outcome w with
                   | Ok _ => Ok noResult
                   | Err e => Err (Wrap "unable to unpause" e)
                   | Panic msg => Panic msg
                   end))
  /\ (UnPausePollInterval r = None -> out = (Ok noResult, w)).
Proof.
  intros Hdel Hparse Hp Hobj Hupd Htp now out.
  assert (Hout : out = reconcilePaused r obj info w).
  { subst out. rewrite (Reconcile_with_record _ _ _ _ Hparse), Hdel.
    cbn [default from_option id]. by rewrite Hp. }
  rewrite Hout. unfold reconcilePaused. rewrite Hobj. cbn [deref]. rewrite Hupd.
  split.
  - intros interval Hi. rewrite Hi, Htp. cbn [Now]. unfold dueTime, Add, Before.
    set (due := match ShouldUnpauseTime info with Some t => t | None => tp + interval end).
    cbv zeta. split.
    + intros Hlt. destruct (Z.ltb_spec (clock w) due); [|subst now; lia].
      cbn [fst snd calls]. split; [|done].
      by rewrite Sub_saturates by (subst now; lia).
    + intros Hge. destruct (Z.ltb_spec (clock w) due); [subst now; lia|].
      rewrite ensureUnPause_paused by done.
      unfold update_outcome. cbn [failures].
      by destruct (hd false (failures w)) eqn:Hf; split; cbn; rewrite ?Hf.
  - intros Hi. by rewrite Hi.
Qed.

(** ** The frozen window *)

(** C6, as the code has it: for a resource whose record says not paused and
    has the time [t0] of the last unpause, with the frozen window [frozen]:
    before [t0 + frozen] nothing is sent and the evaluation asks to be run
    again after the rest of the window, capped at the largest duration; from
    [t0 + frozen] on the evaluation is the check of the two conditions, which
    sends nothing and asks for no new run unless Ready is true. *)
Theorem frozen_window
    (r : Reconciler) (obj : object) (info : PauseInfo) (t0 : Time) (frozen : Duration)
    (w : World) :
  parsePauseInfo obj = Ok (Some info) ->
  Pause info = false ->
  LastUnPauseTime info = Some t0 ->
  FrozenTimeDuration r = Some frozen ->
  let now := clock w in
  let out := Reconcile r (Got obj) w in
  (now < t0 + frozen ->
     out.1 = Ok {| Requeue := false;
                   RequeueAfter := Z.min (t0 + frozen - now) maxDuration |}
     /\ calls out.2 = calls w)
  /\ (t0 + frozen <= now ->
     out = reconcileConditions r obj info (Now w).2
     /\ (forall ready, getCondition obj TypeReady = Ok ready -> isTrue ready = false ->
         out = (Ok noResult, (Now w).2))).
Proof.
  intros Hparse Hp Ht0 Hf now out.
  assert (Hout : out = reconcileUnpaused r obj info w).
  { subst out. rewrite (Reconcile_with_record _ _ _ _ Hparse).
    destruct (GetDeletionTimestamp obj).
    - rewrite ensureUnPause_unpaused by done. cbn [default from_option id]. by rewrite Hp.
    - cbn [default from_option id]. by rewrite Hp. }
  rewrite Hout. unfold reconcileUnpaused. cbn [Now]. rewrite Ht0, Hf.
  unfold After, Add. split.
  - intros Hlt. destruct (Z.ltb_spec (clock w) (t0 + frozen)); [|subst now; lia].
    cbn [fst snd calls]. split; [|done].
    by rewrite Sub_saturates by (subst now; lia).
  - intros Hge. destruct (Z.ltb_spec (clock w) (t0 + frozen)); [subst now; lia|].
    split; [done|]. intros ready Hr Hn. unfold reconcileConditions.
    by rewrite Hr, Hn.
Qed.

(** ** The unpaused branch *)

Lemma Reconcile_unpaused r obj oinfo w :
  parsePauseInfo obj = Ok oinfo ->
  (oinfo = None -> isPaused (pause_flag obj) = false) ->
  Pause (default newPauseInfo oinfo) = false ->
  Reconcile r (Got obj) w = reconcileUnpaused r obj (default newPauseInfo oinfo) w.
Proof.
  intros Hparse Hflag Hp. destruct oinfo as [info|].
  - rewrite (Reconcile_with_record _ _ _ _ Hparse).
    cbn [default from_option id] in *.
    destruct (GetDeletionTimestamp obj).
    + rewrite ensureUnPause_unpaused by done. cbn [default from_option id]. by rewrite Hp.
    + cbn [default from_option id]. by rewrite Hp.
  - unfold Reconcile. rewrite Hparse. fold (pause_flag obj). rewrite Hflag by done.
    cbn [andb default from_option id].
    destruct (GetDeletionTimestamp obj).
    + rewrite ensureUnPause_unpaused by done. reflexivity.
    + reflexivity.
Qed.

Lemma pause_snapshot_metadata_ok obj :
  metadata_ok obj = true -> metadata_ok (pause_snapshot obj) = true.
Proof.
  unfold metadata_ok, pause_snapshot. cbn [RemoveNestedField].
  destruct (obj !! "metadata"%string) as [[]|] eqn:Hm; try done.
  - intros _. by rewrite lookup_insert_eq.
  - intros _. by rewrite Hm.
Qed.

(** C9, as the code has it: a resource with a deletion timestamp is paused
    like any other.  Its record is absent or says not paused, the pause flag
    is not already ["true"] without a record, no frozen window is running,
    Ready and Synced are true and the poll interval, if any, is positive:
    then the one call of the client sends the paused object, with the pause
    flag set. *)
Theorem deleted_unpaused_resource_is_paused
    (r : Reconciler) (obj : object) (oinfo : option PauseInfo) (t : Time) (w : World)
    (ready synced : option Condition) :
  GetDeletionTimestamp obj = Some t ->
  parsePauseInfo obj = Ok oinfo ->
  (oinfo = None -> isPaused (pause_flag obj) = false) ->
  let info := default newPauseInfo oinfo in
  Pause info = false ->
  window_over r info (clock w) ->
  getCondition obj TypeReady = Ok ready -> isTrue ready = true ->
  getCondition obj TypeSynced = Ok synced -> isTrue synced = true ->
  positive_interval (UnPausePollInterval r) ->
  let now := clock (Now w).2 in
  let obj' := paused_object obj info now (stored_schedule info now (UnPausePollInterval r)) in
  let out := Reconcile r (Got obj) w in
  calls out.2 = calls w ++ [(obj', negb (hd false (failures w)))]
  /\ GetAnnotations obj' ≫= (fun m => m !! AnnotationKeyReconciliationPaused)
     = Some "true"%string
  /\ out.1 = (if hd false (failures w)
              then Err (Wrap "unable to pause"
                          (Wrap "failed to update object" (Leaf "update failed")))
              else Ok noResult).
Proof.
  intros Hdel Hparse Hflag info Hp Hwin Hr Hrt Hs Hst Hi now obj' out.
  assert (Hout : out = reconcileConditions r obj info (Now w).2).
  { subst out. rewrite (Reconcile_unpaused _ _ _ _ Hparse Hflag Hp). fold info.
    unfold reconcileUnpaused. unfold window_over in Hwin.
    destruct (Now w) as [n0 w1] eqn:HN. cbn [snd].
    assert (n0 = clock w) as -> by (by inversion HN).
    destruct (LastUnPauseTime info) as [t0|]; [|done].
    destruct (FrozenTimeDuration r) as [frozen|]; [|done].
    unfold After, Add. by destruct (Z.ltb_spec (clock w) (t0 + frozen)); [lia|]. }
  assert (Hens := ensurePause_unpaused obj info (UnPausePollInterval r) (Now w).2 Hp Hi).
  cbv zeta in Hens. fold now in Hens. fold obj' in Hens.
  rewrite Hout. unfold reconcileConditions. rewrite Hr, Hrt, Hs, Hst. cbn [negb].
  rewrite Hens. unfold update_outcome. rewrite Now_failures.
  split; [|split].
  - assert (Hc : forall w2, calls w2 = calls w ->
                 failures w2 = failures w ->
                 calls (Update obj' w2).2 = calls w ++ [(obj', negb (hd false (failures w)))]).
    { intros w2 Hc Hf. by rewrite Update_calls, Hc, Hf. }
    destruct (hd false (failures w)); cbn [snd]; apply Hc;
      destruct (UnPausePollInterval r); by rewrite ?Int63n_calls, ?Int63n_failures.
  - unfold obj', paused_object. rewrite Get_SetAnnotations.
    + cbn. unfold paused_annotations. rewrite lookup_insert_ne by done.
      apply lookup_insert_eq.
    + apply pause_snapshot_metadata_ok. by eapply GetDeletionTimestamp_metadata_ok.
  - by destruct (hd false (failures w)).
Qed.

(** ** Nil pointers in the paused branch *)

Lemma checkFieldEqual_no_panic a b fields msg : checkFieldEqual a b fields <> Panic msg.
Proof.
  unfold checkFieldEqual.
  by destruct (NestedMap a fields), (NestedMap b fields).
Qed.

Lemma isUpdated_no_panic old now msg : isUpdated old (Some now) <> Panic msg.
Proof.
  unfold isUpdated.
  repeat match goal with
         | |- context [checkFieldEqual ?a ?b ?f] =>
             let H := fresh in
             pose proof (checkFieldEqual_no_panic a b f) as H;
             destruct (checkFieldEqual a b f) as [[]| |]; try done;
             try (by intros [= ->]; eapply H)
         end.
Qed.

(** C10: in the paused branch of a resource that is not deleted, the
    snapshot is dereferenced by the drift check and the time of the last
    pause by the poll-interval check.  A record without a snapshot makes the
    evaluation panic; so does, with a poll interval and no drift, a record
    without the time of the last pause.  A record that has both never makes
    the evaluation panic. *)
Theorem paused_branch_needs_the_invariant
    (r : Reconciler) (obj : object) (info : PauseInfo) (w : World) :
  GetDeletionTimestamp obj = None ->
  parsePauseInfo obj = Ok (Some info) ->
  Pause info = true ->
  let out := Reconcile r (Got obj) w in
  (Object info = NilObject -> out = (Panic "nil pointer dereference", w))
  /\ (forall snap interval,
        Object info = Snapshot snap -> isUpdated obj (Some snap) = Ok false ->
        UnPausePollInterval r = Some interval -> LastPauseTime info = None ->
        out.1 = Panic "nil pointer dereference" /\ calls out.2 = calls w)
  /\ (Object info <> NilObject -> LastPauseTime info <> None ->
      forall msg, out.1 <> Panic msg).
Proof.
  intros Hdel Hparse Hp out.
  assert (Hout : out = reconcilePaused r obj info w).
  { subst out. rewrite (Reconcile_with_record _ _ _ _ Hparse), Hdel.
    cbn [default from_option id]. by rewrite Hp. }
  rewrite Hout. unfold reconcilePaused. split; [|split].
  - intros ->. reflexivity.
  - intros snap interval -> Hu Hi Ht. cbn [deref]. by rewrite Hu, Hi, Ht.
  - intros Hobj Ht msg.
    destruct (deref obj (Object info)) as [snap|] eqn:Hd;
      [|by destruct (Object info)].
    pose proof (isUpdated_no_panic obj snap) as Hnp.
    destruct (isUpdated obj (Some snap)) as [[]| |]; try done.
    + rewrite ensureUnPause_paused by done. unfold update_outcome.
      by destruct (hd false (failures w)).
    + destruct (UnPausePollInterval r); [|done]. cbn [Now].
      destruct (LastPauseTime info); [|done].
      destruct (Before _ _); [done|].
      rewrite ensureUnPause_paused by done. unfold update_outcome. cbn [failures].
      by destruct (hd false (failures w)).
    + intros Heq. by eapply Hnp.
Qed.

(** ** The schedule of the forced unpause *)

Lemma ensurePause_default obj oinfo interval w :
  ensurePause obj oinfo interval w =
  ensurePause obj (Some (default newPauseInfo oinfo)) interval w.
Proof. by destruct oinfo. Qed.

(** C1, against the code: a pause at the instant [T] with the poll interval
    [interval] draws a random value below the interval, but the time it
    stores for the forced unpause is [T + interval] whatever the draw is;
    that time is in the record which the object sent to the client
    carries. *)
Theorem pause_stores_schedule_without_jitter
    (obj : object) (oinfo : option PauseInfo) (interval : Duration) (w : World) :
  Pause (default newPauseInfo oinfo) = false ->
  0 < interval ->
  let T := clock w in
  let out := ensurePause obj oinfo (Some interval) w in
  let sent := out.1.1.2 in
  let info' := out.1.2 in
  (exists d, (Int63n interval (Now w).2).1 = Some d /\ 0 <= d < interval)
  /\ LastPauseTime info' = Some T
  /\ ShouldUnpauseTime info' = Some (T + interval)
  /\ calls out.2 = calls w ++ [(sent, negb (hd false (failures w)))]
  /\ (metadata_ok obj = true ->
      record_annotation sent = Some (Marshal_PauseInfo (pause_snapshot obj) info')).
Proof.
  intros Hp Hi T out sent info'.
  subst out sent info'. rewrite ensurePause_default.
  rewrite (ensurePause_unpaused obj _ (Some interval) w Hp Hi). cbn [fst snd].
  split; [by apply Int63n_positive|]. split; [done|]. split; [done|]. split.
  - by rewrite Update_calls, Int63n_calls, Int63n_failures.
  - intros Hm. unfold record_annotation, paused_object.
    rewrite Get_SetAnnotations by by apply pause_snapshot_metadata_ok.
    cbn. apply lookup_insert_eq.
Qed.

(** ** Drift *)

Lemma remove_annotation (u meta a : object) (k : string) :
  u !! "metadata"%string = Some (VMap meta) ->
  meta !! "annotations"%string = Some (VMap a) ->
  RemoveNestedField u ["metadata"; "annotations"; k]%string =
  <["metadata"%string := VMap (<["annotations"%string := VMap (delete k a)]> meta)]> u.
Proof. intros Hm Ha. cbn [RemoveNestedField]. by rewrite Hm, Ha. Qed.

Lemma strip_with_annotations (u meta a : object) :
  u !! "metadata"%string = Some (VMap meta) ->
  meta !! "annotations"%string = Some (VMap a) ->
  strip u =
  <["metadata"%string :=
      VMap (<["annotations"%string :=
                VMap (delete AnnotationKeyPauseInfo
                        (delete AnnotationKeyReconciliationPaused a))]> meta)]> u.
Proof.
  intros Hm Ha. unfold strip.
  rewrite (remove_annotation u meta a) by done.
  erewrite remove_annotation; [|apply lookup_insert_eq|apply lookup_insert_eq].
  by rewrite !insert_insert_eq.
Qed.

Lemma strip_without_annotations (u meta : object) :
  u !! "metadata"%string = Some (VMap meta) ->
  meta !! "annotations"%string = None ->
  strip u = u.
Proof.
  intros Hm Ha. unfold strip. cbn [RemoveNestedField].
  rewrite Hm, Ha. rewrite (insert_id u) by done. by rewrite Hm, Ha, insert_id.
Qed.

Lemma checkFieldEqual_same (u : object) (fields : list string) :
  NestedMap u fields <> WrongType -> checkFieldEqual u u fields = Ok true.
Proof.
  intros H. unfold checkFieldEqual. destruct (NestedMap u fields); try done.
  unfold DeepEqual. by rewrite bool_decide_eq_true_2.
Qed.

(** What the stripping achieves: two objects that are equal once the two
    own annotations are removed, and whose three regions can be read, are not
    told apart. *)
Lemma equal_after_strip_is_no_drift (a b : object) :
  strip a = strip b ->
  NestedMap (strip a) ["spec"%string] <> WrongType ->
  NestedMap (strip a) ["metadata"; "annotations"]%string <> WrongType ->
  NestedMap (strip a) ["metadata"; "labels"]%string <> WrongType ->
  isUpdated a (Some b) = Ok false.
Proof.
  intros Heq H1 H2 H3. unfold isUpdated. rewrite <- Heq.
  by rewrite !checkFieldEqual_same.
Qed.

(** C2, against the code: take an object whose metadata has no annotations
    and set the pause flag on it, the way the pause does.  The two objects
    differ in that annotation only, and [isUpdated] reports a drift, in
    either order of its arguments: once the flag is stripped an empty
    annotation map is left, and it is compared with no map at all. *)
Theorem pause_flag_alone_reads_as_drift (u meta : object) (v : string) :
  u !! "metadata"%string = Some (VMap meta) ->
  meta !! "annotations"%string = None ->
  NestedMap u ["spec"%string] <> WrongType ->
  let marked := SetAnnotations u (Some {[AnnotationKeyReconciliationPaused := v]}) in
  (forall k, k <> "metadata"%string -> marked !! k = u !! k)
  /\ (exists meta', marked !! "metadata"%string = Some (VMap meta')
        /\ forall k, k <> "annotations"%string -> meta' !! k = meta !! k)
  /\ (forall k, k <> AnnotationKeyReconciliationPaused -> annotation marked k = annotation u k)
  /\ annotation marked AnnotationKeyReconciliationPaused = Some (VString v)
  /\ isUpdated marked (Some u) = Ok true
  /\ isUpdated u (Some marked) = Ok true.
Proof.
  intros Hm Ha Hspec marked.
  assert (Hmarked : marked =
            <["metadata"%string :=
                VMap (<["annotations"%string :=
                          VMap {[AnnotationKeyReconciliationPaused := VString v]}]> meta)]> u).
  { subst marked. unfold SetAnnotations. cbn [setNestedFieldNoCopy]. rewrite Hm.
    cbn [mbind option_bind]. by rewrite map_fmap_singleton. }
  assert (Hstrip : strip marked =
            <["metadata"%string := VMap (<["annotations"%string := VMap ∅]> meta)]> u).
  { rewrite Hmarked.
    erewrite strip_with_annotations; [|apply lookup_insert_eq|apply lookup_insert_eq].
    by rewrite delete_singleton_eq, delete_empty, !insert_insert_eq. }
  assert (Hspec' : forall a, NestedMap (<["metadata"%string := a]> u) ["spec"%string]
                             = NestedMap u ["spec"%string]).
  { intros a. unfold NestedMap. cbn [NestedFieldNoCopy]. by rewrite lookup_insert_ne. }
  split; [|split; [|split; [|split]]].
  - intros k Hk. rewrite Hmarked. by rewrite lookup_insert_ne.
  - eexists. split; [rewrite Hmarked; apply lookup_insert_eq|].
    intros k Hk. by rewrite lookup_insert_ne.
  - intros k Hk. unfold annotation. rewrite Hmarked, lookup_insert_eq, lookup_insert_eq.
    rewrite Hm, Ha. by rewrite lookup_singleton_ne.
  - unfold annotation. rewrite Hmarked, lookup_insert_eq, lookup_insert_eq.
    apply lookup_singleton_eq.
  - assert (H1 : checkFieldEqual (strip marked) (strip u) ["spec"%string] = Ok true).
    { rewrite Hstrip, (strip_without_annotations u meta) by done.
      unfold checkFieldEqual. rewrite Hspec'.
      destruct (NestedMap u ["spec"%string]); try done.
      unfold DeepEqual. by rewrite bool_decide_eq_true_2. }
    assert (H2 : checkFieldEqual (strip marked) (strip u)
                   ["metadata"; "annotations"]%string = Ok false).
    { rewrite Hstrip, (strip_without_annotations u meta) by done.
      unfold checkFieldEqual, NestedMap. cbn [NestedFieldNoCopy].
      rewrite lookup_insert_eq, lookup_insert_eq, Hm, Ha. reflexivity. }
    split.
    + unfold isUpdated. by rewrite H1, H2.
    + unfold isUpdated.
      assert (H1' : checkFieldEqual (strip u) (strip marked) ["spec"%string] = Ok true).
      { rewrite Hstrip, (strip_without_annotations u meta) by done.
        unfold checkFieldEqual. rewrite Hspec'.
        destruct (NestedMap u ["spec"%string]); try done.
        unfold DeepEqual. by rewrite bool_decide_eq_true_2. }
      assert (H2' : checkFieldEqual (strip u) (strip marked)
                      ["metadata"; "annotations"]%string = Ok false).
      { rewrite Hstrip, (strip_without_annotations u meta) by done.
        unfold checkFieldEqual, NestedMap. cbn [NestedFieldNoCopy].
        rewrite lookup_insert_eq, lookup_insert_eq, Hm, Ha. reflexivity. }
      by rewrite H1', H2'.
Qed.

(** ** The records that are written *)

Lemma annotation_pause_snapshot obj k :
  annotation (pause_snapshot obj) k =
  if bool_decide (k = AnnotationKeyPauseInfo) then None else annotation obj k.
Proof.
  unfold annotation, pause_snapshot. cbn [RemoveNestedField].
  destruct (obj !! "metadata"%string) as [[| | | | |meta]|] eqn:Hm;
    rewrite ?Hm; try by case_bool_decide.
  rewrite lookup_insert_eq.
  destruct (meta !! "annotations"%string) as [[| | | | |a]|] eqn:Ha;
    rewrite ?Ha; try by case_bool_decide.
  rewrite lookup_insert_eq. case_bool_decide as Hk.
  - subst k. apply lookup_delete_eq.
  - by apply lookup_delete_ne.
Qed.

(** C3, as the code has it.  The record a pause writes says paused, points
    at the snapshot and has the time of the pause; the snapshot is the object
    as it was, without its record annotation, and it has a pause flag exactly
    when the object had one.  The record an unpause writes says not paused and
    has no snapshot.  In both cases the record meant is the one whose encoding
    is the record annotation of the object sent to the client. *)
Theorem written_records_keep_the_invariants :
  (forall (obj : object) (oinfo : option PauseInfo) (interval : option Duration)
          (w : World),
      Pause (default newPauseInfo oinfo) = false ->
      positive_interval interval ->
      metadata_ok obj = true ->
      let out := ensurePause obj oinfo interval w in
      let sent := out.1.1.2 in
      let record := out.1.2 in
      let snap := pause_snapshot obj in
      calls out.2 = calls w ++ [(sent, negb (hd false (failures w)))]
      /\ record_annotation sent = Some (Marshal_PauseInfo snap record)
      /\ Pause record = true
      /\ deref snap (Object record) = Some snap
      /\ LastPauseTime record = Some (clock w)
      /\ annotation snap AnnotationKeyPauseInfo = None
      /\ annotation snap AnnotationKeyReconciliationPaused
         = annotation obj AnnotationKeyReconciliationPaused)
  /\ (forall (obj : object) (info : PauseInfo) (w : World),
      Pause info = true ->
      metadata_ok obj = true ->
      let out := ensureUnPause obj (Some info) w in
      let sent := out.1.1.2 in
      exists record,
        out.1.2 = Some record
        /\ calls out.2 = calls w ++ [(sent, negb (hd false (failures w)))]
        /\ record_annotation sent = Some (Marshal_PauseInfo obj record)
        /\ Pause record = false
        /\ deref obj (Object record) = None
        /\ GetAnnotations sent ≫= (fun m => m !! AnnotationKeyReconciliationPaused) = None).
Proof.
  split.
  - intros obj oinfo interval w Hp Hi Hm out sent record snap.
    subst out sent record. rewrite ensurePause_default.
    rewrite (ensurePause_unpaused obj _ interval w Hp Hi). cbn [fst snd].
    split; [|split; [|split; [done|split; [done|split; [done|split]]]]].
    + rewrite Update_calls. by destruct interval; rewrite ?Int63n_calls, ?Int63n_failures.
    + unfold record_annotation, paused_object.
      rewrite Get_SetAnnotations by by apply pause_snapshot_metadata_ok.
      cbn. apply lookup_insert_eq.
    + subst snap. by rewrite annotation_pause_snapshot.
    + subst snap. by rewrite annotation_pause_snapshot.
  - intros obj info w Hp Hm out sent. subst out sent.
    rewrite ensureUnPause_paused by done. cbn [fst snd].
    eexists. split; [done|]. split; [by rewrite Update_calls|].
    unfold record_annotation, unpaused_object. rewrite Get_SetAnnotations by done.
    cbn. split; [apply lookup_insert_eq|]. split; [done|]. split; [done|].
    unfold unpaused_annotations. rewrite lookup_insert_ne by done. apply lookup_delete_eq.
Qed.

(* ================================================================== *)
(** * The text of a time *)
(* ================================================================== *)

Lemma all_from_spec (p : positive) (f : Z -> bool) (base : Z) :
  all_from p f base = true -> forall z, base <= z < base + Zpos p -> f z = true.
Proof.
  revert base. induction p as [q IH|q IH|]; intros base H z Hz; cbn [all_from] in H.
  - apply andb_prop in H as [H H3]. apply andb_prop in H as [H1 H2].
    destruct (Z.eq_dec z base) as [->|]; [done|].
    destruct (Z_lt_le_dec z (base + 1 + Zpos q)).
    + apply (IH (base + 1)); [done|lia].
    + apply (IH (base + 1 + Zpos q)); [done|lia].
  - apply andb_prop in H as [H1 H2].
    destruct (Z_lt_le_dec z (base + Zpos q)).
    + apply (IH base); [done|lia].
    + apply (IH (base + Zpos q)); [done|lia].
  - assert (z = base) as -> by lia. done.
Qed.

Lemma doe_ok_all (doe : Z) : 0 <= doe < 146097 -> doe_ok doe = true.
Proof.
  apply (all_from_spec 146097 doe_ok 0). vm_compute. reflexivity.
Qed.

Lemma isLeap_era (y era : Z) : isLeap (y + era * 400) = isLeap y.
Proof.
  unfold isLeap.
  replace (y + era * 400) with (y + (era * 100) * 4) at 1 by lia.
  replace (y + era * 400) with (y + (era * 4) * 100) at 1 by lia.
  by rewrite !Z_mod_plus_full.
Qed.

Lemma daysIn_era (y era m : Z) : daysIn (y + era * 400) m = daysIn y m.
Proof. unfold daysIn. by rewrite isLeap_era. Qed.

(** The calendar date of a day, and back; the year has four digits for the
    days of [minRFC3339, maxRFC3339). *)
Lemma civil_from_days_spec (z : Z) :
  let '(y, m, d) := civil_from_days z in
  days_from_civil y m d = z /\ 1 <= m <= 12 /\ 1 <= d <= daysIn y m
  /\ (-719528 <= z < 2932897 -> 0 <= y <= 9999).
Proof.
  unfold civil_from_days.
  pose proof (Z.mod_pos_bound (z + 719468) 146097 eq_refl) as Hdoe.
  pose proof (doe_ok_all _ Hdoe) as Hok. unfold doe_ok in Hok.
  destruct (civil_of_doe ((z + 719468) `mod` 146097)) as [[yoe m] d].
  repeat (apply andb_prop in Hok as [Hok ?]).
  set (era := (z + 719468) / 146097).
  set (c := if m <=? 2 then 1 else 0) in *.
  assert (Hy : (if m <=? 2 then yoe + era * 400 + c - 1 else yoe + era * 400 + c)
               = yoe + era * 400).
  { subst c. destruct (m <=? 2); lia. }
  pose proof (Z.div_mod (z + 719468) 146097 ltac:(done)) as Hdm. fold era in Hdm.
  split; [|split; [lia|split]].
  - unfold days_from_civil. rewrite Hy.
    rewrite Z.div_add by done. rewrite Z_mod_plus_full.
    rewrite Z.div_small, Z.mod_small by lia.
    assert (doe_of_civil yoe m d = (z + 719468) `mod` 146097) as -> by lia. lia.
  - replace (yoe + era * 400 + c) with (yoe + c + era * 400) by lia.
    rewrite daysIn_era. lia.
  - intros Hz.
    assert (-1 <= era <= 24) by lia.
    assert (0 <= c <= 1) by (subst c; destruct (m <=? 2); lia).
    destruct (Z.ltb_spec ((z + 719468) `mod` 146097) 146037); lia.
Qed.

Lemma digit_val_digit (n : Z) : 0 <= n <= 9 -> digit_val (digit n) = Some n.
Proof.
  intros H.
  pose proof (all_from_spec 10
                (fun k => match digit_val (digit k) with
                          | Some m => m =? k
                          | None => false
                          end) 0 eq_refl n ltac:(lia)) as Hn.
  cbv beta in Hn. destruct (digit_val (digit n)) as [m|]; [|done].
  by apply Z.eqb_eq in Hn as ->.
Qed.

Lemma num2_pad2 (n : Z) (r : text) : 0 <= n < 100 -> num2 (pad2 n ++ r) = Some (n, r).
Proof.
  intros H. unfold pad2, num2. cbn [app].
  rewrite !digit_val_digit by (Z.div_mod_to_equations; lia).
  do 2 f_equal. Z.div_mod_to_equations; lia.
Qed.

Lemma num4_pad4 (n : Z) (r : text) : 0 <= n < 10000 -> num4 (pad4 n ++ r) = Some (n, r).
Proof.
  intros H. unfold pad4, num4, num2. cbn [app].
  rewrite !digit_val_digit by (Z.div_mod_to_equations; lia).
  cbn [mbind option_bind]. rewrite !digit_val_digit by (Z.div_mod_to_equations; lia).
  cbn [mbind option_bind]. do 2 f_equal. Z.div_mod_to_equations; lia.
Qed.

Lemma expect_same (c : ascii) (r : text) : expect c (c :: r) = Some r.
Proof. unfold expect. by rewrite Ascii.eqb_refl. Qed.

(** Reading a written time gives its whole seconds. *)
Lemma Parse_Format (t : Time) :
  minRFC3339 <= t < maxRFC3339 -> Parse (Format t) = Some (t / Second * Second).
Proof.
  unfold minRFC3339, maxRFC3339, Second. intros Ht. unfold Format.
  change Second with 1000000000.
  set (s := t / 1000000000).
  assert (Hs : -62167219200 <= s < 253402300800)
    by (subst s; Z.div_mod_to_equations; lia).
  clearbody s. clear Ht.
  pose proof (civil_from_days_spec (s / 86400)) as Hc.
  destruct (civil_from_days (s / 86400)) as [[y m] d].
  destruct Hc as (Hdays & Hm & Hd & Hy).
  specialize (Hy ltac:(Z.div_mod_to_equations; lia)).
  unfold fmt_year.
  destruct (Z.leb_spec 0 y); [|lia]. destruct (Z.leb_spec y 9999); [|lia]. cbn [andb].
  pose proof (Z.mod_pos_bound s 86400 eq_refl) as Hsod.
  set (sod := s `mod` 86400) in *.
  unfold Parse.
  rewrite num4_pad4 by lia. cbn [mbind option_bind]. rewrite expect_same.
  cbn [mbind option_bind].
  assert (HdI : d <= 31) by (unfold daysIn in Hd; repeat case_match; lia).
  rewrite num2_pad2 by lia. cbn [mbind option_bind]. rewrite expect_same.
  cbn [mbind option_bind].
  rewrite num2_pad2 by lia. cbn [mbind option_bind]. rewrite expect_same.
  cbn [mbind option_bind].
  rewrite num2_pad2 by (Z.div_mod_to_equations; lia).
  cbn [mbind option_bind]. rewrite expect_same. cbn [mbind option_bind].
  rewrite num2_pad2 by (Z.div_mod_to_equations; lia).
  cbn [mbind option_bind]. rewrite expect_same. cbn [mbind option_bind].
  rewrite num2_pad2 by (Z.div_mod_to_equations; lia).
  cbn [mbind option_bind parse_fraction parse_zone app Ascii.eqb Bool.eqb].
  destruct (Z.leb_spec 1 m); [|lia]. destruct (Z.leb_spec m 12); [|lia].
  destruct (Z.leb_spec 1 d); [|lia]. destruct (Z.leb_spec d (daysIn y m)); [|lia].
  destruct (Z.ltb_spec (sod / 3600) 24); [|Z.div_mod_to_equations; lia].
  destruct (Z.ltb_spec ((sod / 60) `mod` 60) 60); [|Z.div_mod_to_equations; lia].
  destruct (Z.ltb_spec (sod `mod` 60) 60); [|Z.div_mod_to_equations; lia].
  cbn [andb]. f_equal. rewrite Hdays. subst sod.
  unfold Second. clear. Z.div_mod_to_equations. lia.
Qed.

(* ================================================================== *)
(** * The text of a document *)
(* ================================================================== *)

(** ** Strings *)

Lemma parse_string_esc (c : ascii) (tail : text) :
  parse_string (esc c ++ tail) =
  '(str, rest) ← parse_string tail; Some (String c str, rest).
Proof.
  destruct c as [[] [] [] [] [] [] [] []]; reflexivity.
Qed.

Lemma parse_string_escape (s : string) (rest : text) :
  parse_string (escape s ++ "034"%char :: rest) = Some (s, rest).
Proof.
  induction s as [|c s IH]; [reflexivity|].
  cbn [escape]. rewrite <- app_assoc, parse_string_esc, IH. reflexivity.
Qed.

(** ** Numbers *)

Lemma span_digits_after (rest : text) : ok_after rest = true -> span_digits rest = ([], rest).
Proof.
  destruct rest as [|c r]; [done|]. cbn [ok_after span_digits].
  by destruct (is_digit c).
Qed.

Lemma span_digits_of (u : Decimal.uint) (rest : text) :
  ok_after rest = true -> span_digits (digits_of u ++ rest) = (digits_of u, rest).
Proof.
  intros Hr. unfold digits_of.
  induction u as [|u IH|u IH|u IH|u IH|u IH|u IH|u IH|u IH|u IH|u IH];
    cbn [NilEmpty.string_of_uint list_ascii_of_string app];
    [by apply span_digits_after|..];
    cbn [span_digits]; change (is_digit _) with true; cbn iota; by rewrite IH.
Qed.

Lemma starts_fraction_after (rest : text) : ok_after rest = true -> starts_fraction rest = false.
Proof.
  destruct rest as [|c r]; [done|]. cbn [ok_after].
  intros H. apply andb_prop in H as [_ H]. by apply negb_true_iff in H.
Qed.

Lemma nzhead_not_D0 (u v : Decimal.uint) : Decimal.nzhead u <> Decimal.D0 v.
Proof. induction u; cbn; try done. Qed.

Lemma to_uint_normal (p : positive) : Decimal.unorm (Pos.to_uint p) = Pos.to_uint p.
Proof.
  rewrite <- (DecimalN.Unsigned.to_of (Pos.to_uint p)).
  unfold N.of_uint. by rewrite DecimalPos.Unsigned.of_to.
Qed.

Lemma to_uint_head (p : positive) :
  exists c tl, digits_of (Pos.to_uint p) = c :: tl /\ is_digit c = true
               /\ N_of_ascii c <> 48%N /\ N_of_ascii c <> 45%N.
Proof.
  pose proof (to_uint_normal p) as Hn.
  pose proof (DecimalPos.Unsigned.of_to p) as Hp.
  unfold digits_of.
  destruct (Pos.to_uint p) as [|u|u|u|u|u|u|u|u|u|u] eqn:Hu;
    try (cbn; eexists _, _; split; [reflexivity|by repeat split]).
  - discriminate.
  - exfalso. unfold Decimal.unorm in Hn. cbn [Decimal.nzhead] in Hn.
    destruct (Decimal.nzhead u) eqn:Hz; try discriminate.
    + injection Hn as <-. discriminate.
    + by apply nzhead_not_D0 in Hz.
Qed.

Lemma parse_number_digits (u : Decimal.uint) (c : ascii) (tl rest : text) (neg : bool) :
  digits_of u = c :: tl -> N_of_ascii c <> 48%N ->
  ok_after rest = true ->
  (let '(ds, rest') := span_digits (digits_of u ++ rest) in
   match ds with
   | [] => None
   | d :: more =>
       if (N_of_ascii d =? 48)%N && negb (Nat.eqb (length more) 0) then None
       else if starts_fraction rest' then None
       else u' ← NilEmpty.uint_of_string (string_of_list_ascii ds);
            Some (if neg then - Z.of_uint u' else Z.of_uint u', rest')
   end) = Some (if neg then - Z.of_uint u else Z.of_uint u, rest).
Proof.
  intros Hu Hc Hr. rewrite span_digits_of by done. rewrite Hu.
  rewrite (proj2 (N.eqb_neq _ _) Hc). cbn [andb].
  rewrite starts_fraction_after by done. rewrite <- Hu. unfold digits_of.
  by rewrite string_of_list_ascii_of_string, NilEmpty.usu.
Qed.

Lemma parse_number_print (z : Z) (rest : text) :
  ok_after rest = true -> parse_number (print_int z ++ rest) = Some (z, rest).
Proof.
  intros Hr. destruct z as [|p|p].
  - change (print_int 0 ++ rest) with ("0"%char :: rest). unfold parse_number.
    change (N_of_ascii "0" =? 45)%N with false. cbn iota. cbn [span_digits].
    change (is_digit "0") with true. cbn iota. rewrite span_digits_after by done.
    change (N_of_ascii "0" =? 48)%N with true. cbn [length Nat.eqb negb andb].
    by rewrite starts_fraction_after.
  - destruct (to_uint_head p) as (c & tl & Hu & Hd & H0 & Hm).
    assert (Hprint : print_int (Z.pos p) = digits_of (Pos.to_uint p)).
    { unfold print_int, digits_of. cbn [Z.to_int NilZero.string_of_int].
      unfold NilZero.string_of_uint. unfold digits_of in Hu.
      by destruct (Pos.to_uint p). }
    rewrite Hprint. unfold parse_number.
    rewrite Hu at 1. cbn [app]. rewrite (proj2 (N.eqb_neq _ _) Hm).
    etrans; [exact (parse_number_digits _ c tl rest false Hu H0 Hr)|].
    unfold Z.of_uint. by rewrite DecimalPos.Unsigned.of_to.
  - destruct (to_uint_head p) as (c & tl & Hu & Hd & H0 & Hm).
    assert (Hprint : print_int (Z.neg p) = "-"%char :: digits_of (Pos.to_uint p)).
    { unfold print_int, digits_of. cbn [Z.to_int NilZero.string_of_int].
      unfold NilZero.string_of_uint. unfold digits_of in Hu.
      by destruct (Pos.to_uint p). }
    rewrite Hprint. unfold parse_number. cbn [app].
    change (N_of_ascii "-" =? 45)%N with true. cbn iota.
    etrans; [exact (parse_number_digits _ c tl rest true Hu H0 Hr)|].
    unfold Z.of_uint. by rewrite DecimalPos.Unsigned.of_to.
Qed.

Lemma print_int_head (z : Z) :
  exists c tl, print_int z = c :: tl /\ (is_digit c = true \/ N_of_ascii c = 45%N).
Proof.
  destruct z as [|p|p].
  - eexists _, _. split; [reflexivity|by left].
  - destruct (to_uint_head p) as (c & tl & Hu & Hd & _).
    exists c, tl. split; [|by left].
    unfold print_int, digits_of in *. cbn [Z.to_int NilZero.string_of_int].
    unfold NilZero.string_of_uint. by destruct (Pos.to_uint p).
  - exists "-"%char, (list_ascii_of_string (NilZero.string_of_uint (Pos.to_uint p))).
    split; [reflexivity|by right].
Qed.

(** ** Documents *)

(** Induction on documents, with the hypothesis for every element of an
    array and every member of an object. *)
Lemma json_induction (P : json -> Prop) :
  P JNull -> (forall b, P (JBool b)) -> (forall z, P (JNum z)) -> (forall s, P (JStr s)) ->
  (forall l, Forall P l -> P (JArr l)) ->
  (forall l, Forall (fun kv => P (snd kv)) l -> P (JObj l)) ->
  forall j, P j.
Proof.
  intros Hnull Hbool Hnum Hstr Harr Hobj.
  fix IH 1. intros [|b|z|s|l|l].
  - exact Hnull.
  - exact (Hbool b).
  - exact (Hnum z).
  - exact (Hstr s).
  - apply Harr. induction l as [|x l IHl]; constructor; [apply IH|exact IHl].
  - apply Hobj. induction l as [|[k x] l IHl]; constructor; [apply IH|exact IHl].
Qed.

Lemma skip_ws_nonws (c : ascii) (r : text) : is_ws c = false -> skip_ws (c :: r) = c :: r.
Proof. intros H. cbn [skip_ws]. by rewrite H. Qed.

(** One step of the parser on each kind of first character. *)
Lemma parse_value_null n X :
  parse_value (S n) ("n" :: "u" :: "l" :: "l" :: X)%char = Some (JNull, X).
Proof. reflexivity. Qed.

Lemma parse_value_true n X :
  parse_value (S n) ("t" :: "r" :: "u" :: "e" :: X)%char = Some (JBool true, X).
Proof. reflexivity. Qed.

Lemma parse_value_false n X :
  parse_value (S n) ("f" :: "a" :: "l" :: "s" :: "e" :: X)%char = Some (JBool false, X).
Proof. reflexivity. Qed.

Lemma parse_value_str n X :
  parse_value (S n) ("034"%char :: X) = '(str, rest) ← parse_string X; Some (JStr str, rest).
Proof. reflexivity. Qed.

Lemma parse_value_arr n X :
  parse_value (S n) ("["%char :: X) =
  match skip_ws X with
  | c' :: r' =>
      if (N_of_ascii c' =? 93)%N then Some (JArr [], r')
      else '(l, rest) ← parse_elems n X; Some (JArr l, rest)
  | [] => None
  end.
Proof. reflexivity. Qed.

Lemma parse_value_obj n X :
  parse_value (S n) ("{"%char :: X) =
  match skip_ws X with
  | c' :: r' =>
      if (N_of_ascii c' =? 125)%N then Some (JObj [], r')
      else '(l, rest) ← parse_members n X; Some (JObj l, rest)
  | [] => None
  end.
Proof. reflexivity. Qed.

Lemma parse_value_num n c X :
  is_digit c = true \/ N_of_ascii c = 45%N ->
  parse_value (S n) (c :: X) = '(z, rest) ← parse_number (c :: X); Some (JNum z, rest).
Proof.
  intros Hc.
  destruct c as [[] [] [] [] [] [] [] []];
    try reflexivity; exfalso; destruct Hc as [Hc|Hc]; vm_compute in Hc; discriminate.
Qed.

Lemma parse_elems_eq n s :
  parse_elems (S n) s =
  '(v, r) ← parse_value n s;
  match skip_ws r with
  | c :: r' =>
      if (N_of_ascii c =? 44)%N then '(l, rest) ← parse_elems n r'; Some (v :: l, rest)
      else if (N_of_ascii c =? 93)%N then Some ([v], r')
      else None
  | [] => None
  end.
Proof. reflexivity. Qed.

Lemma parse_members_eq n X :
  parse_members (S n) ("034"%char :: X) =
  '(k, r1) ← parse_string X;
  match skip_ws r1 with
  | c1 :: r2 =>
      if (N_of_ascii c1 =? 58)%N then
        '(v, r3) ← parse_value n r2;
        match skip_ws r3 with
        | c :: r' =>
            if (N_of_ascii c =? 44)%N
            then '(l, rest) ← parse_members n r'; Some ((k, v) :: l, rest)
            else if (N_of_ascii c =? 125)%N then Some ([(k, v)], r')
            else None
        | [] => None
        end
      else None
  | [] => None
  end.
Proof. reflexivity. Qed.

Lemma digit_or_minus_opens c : is_digit c = true \/ N_of_ascii c = 45%N -> opens c.
Proof.
  intros Hc.
  destruct c as [[] [] [] [] [] [] [] []];
    try (by repeat split); exfalso; destruct Hc as [Hc|Hc]; vm_compute in Hc; discriminate.
Qed.

Lemma print_head (j : json) : exists c tl, print j = c :: tl /\ opens c.
Proof.
  destruct j as [|[]|z|s|l|l]; try (eexists _, _; split; [reflexivity|by repeat split]).
  destruct (print_int_head z) as (c & tl & Hz & Hc).
  exists c, tl. split; [done|]. by apply digit_or_minus_opens.
Qed.

Lemma ok_after_separator (c : ascii) (r : text) :
  N_of_ascii c = 44%N \/ N_of_ascii c = 93%N \/ N_of_ascii c = 125%N ->
  ok_after (c :: r) = true.
Proof.
  intros Hc.
  destruct c as [[] [] [] [] [] [] [] []];
    try reflexivity; exfalso; destruct Hc as [Hc|[Hc|Hc]]; vm_compute in Hc; discriminate.
Qed.

Lemma parse_elems_print (l : list json) :
  Forall reads_back l -> l <> [] ->
  forall fuel rest, (need_elems l <= fuel)%nat ->
    parse_elems fuel (sep (map print l) ++ "]"%char :: rest) = Some (l, rest).
Proof.
  intros Hall. induction Hall as [|x l Hx Hl IH]; [done|]. intros _ fuel rest Hf.
  unfold need_elems in Hf. cbn [fold_right] in Hf. fold (need_elems l) in Hf.
  destruct fuel as [|n]; [lia|]. rewrite parse_elems_eq.
  destruct l as [|y l'].
  - cbn [map sep]. rewrite (Hx n) by (lia || by apply ok_after_separator; auto).
    reflexivity.
  - change (sep (map print (x :: y :: l')))
      with (print x ++ ","%char :: sep (map print (y :: l'))).
    rewrite <- app_assoc. cbn [app].
    rewrite (Hx n) by (lia || by apply ok_after_separator; auto).
    cbn [mbind option_bind]. rewrite skip_ws_nonws by reflexivity.
    change (N_of_ascii "," =? 44)%N with true. cbn iota.
    rewrite IH by (done || lia). reflexivity.
Qed.

Lemma parse_members_print (l : list (string * json)) :
  Forall (fun kv => reads_back (snd kv)) l -> l <> [] ->
  forall fuel rest, (need_members l <= fuel)%nat ->
    parse_members fuel (sep (map print_member l) ++ "}"%char :: rest) = Some (l, rest).
Proof.
  intros Hall. induction Hall as [|[k x] l Hx Hl IH]; [done|]. intros _ fuel rest Hf.
  unfold need_members in Hf. cbn [fold_right snd] in Hf. fold (need_members l) in Hf.
  cbn [snd] in Hx.
  destruct fuel as [|n]; [lia|].
  destruct l as [|y l'].
  - cbn [map sep]. unfold print_member, quote. cbn [fst snd app].
    rewrite <- !app_assoc. cbn [app].
    rewrite parse_members_eq, parse_string_escape. cbn [mbind option_bind].
    rewrite skip_ws_nonws by reflexivity.
    change (N_of_ascii ":" =? 58)%N with true. cbn iota.
    rewrite (Hx n) by (lia || by apply ok_after_separator; auto).
    reflexivity.
  - change (sep (map print_member ((k, x) :: y :: l')))
      with (print_member (k, x) ++ ","%char :: sep (map print_member (y :: l'))).
    unfold print_member at 1, quote. cbn [fst snd app].
    rewrite <- !app_assoc. cbn [app]. rewrite <- ?app_assoc. cbn [app].
    rewrite parse_members_eq, parse_string_escape. cbn [mbind option_bind].
    rewrite skip_ws_nonws by reflexivity.
    change (N_of_ascii ":" =? 58)%N with true. cbn iota.
    rewrite (Hx n) by (lia || by apply ok_after_separator; auto).
    cbn [mbind option_bind]. rewrite skip_ws_nonws by reflexivity.
    change (N_of_ascii "," =? 44)%N with true. cbn iota.
    rewrite IH by (done || lia). reflexivity.
Qed.

Lemma skip_ws_print (j : json) (rest : text) :
  exists c tl, skip_ws (print j ++ rest) = c :: tl
               /\ N_of_ascii c <> 93%N /\ N_of_ascii c <> 125%N.
Proof.
  destruct (print_head j) as (c & tl & Hj & Hws & H1 & H2).
  exists c, (tl ++ rest). rewrite Hj. cbn [app]. by rewrite skip_ws_nonws.
Qed.

(** Parsing a printed document gives the document back, whatever follows
    it, provided the fuel is enough. *)
Lemma parse_value_print (j : json) : reads_back j.
Proof.
  induction j as [|b|z|s|l IH|l IH] using json_induction;
    intros fuel rest Hf Hr; (destruct fuel as [|n]; [cbn in Hf; lia|]).
  - apply parse_value_null.
  - destruct b; [apply parse_value_true|apply parse_value_false].
  - cbn [print]. destruct (print_int_head z) as (c & tl & Hz & Hc).
    assert (Hp := parse_number_print z rest Hr).
    rewrite Hz in *. cbn [app] in *. rewrite parse_value_num by done.
    by rewrite Hp.
  - cbn [print]. unfold quote. cbn [app]. rewrite <- app_assoc. cbn [app].
    by rewrite parse_value_str, parse_string_escape.
  - cbn [print app]. rewrite <- app_assoc. cbn [app]. rewrite parse_value_arr.
    destruct l as [|x l'].
    + reflexivity.
    + change (sep (map print (x :: l')) ++ "]"%char :: rest)
        with (sep (map print (x :: l')) ++ "]"%char :: rest).
      assert (Hs : exists c tl,
                 skip_ws (sep (map print (x :: l')) ++ "]"%char :: rest) = c :: tl
                 /\ N_of_ascii c <> 93%N).
      { destruct l' as [|y l''].
        - cbn [map sep].
          destruct (skip_ws_print x ("]"%char :: rest)) as (c & tl & -> & ? & ?). eauto.
        - change (sep (map print (x :: y :: l'')))
            with (print x ++ ","%char :: sep (map print (y :: l''))).
          rewrite <- app_assoc.
          destruct (skip_ws_print x ((","%char :: sep (map print (y :: l'')))
                                     ++ "]"%char :: rest)) as (c & tl & -> & ? & ?).
          eauto. }
      destruct Hs as (c & tl & -> & Hc). rewrite (proj2 (N.eqb_neq _ _) Hc).
      cbn [need] in Hf. fold (need_elems (x :: l')) in Hf.
      rewrite parse_elems_print by (done || lia). reflexivity.
  - cbn [print app]. rewrite <- app_assoc. cbn [app]. rewrite parse_value_obj.
    destruct l as [|[k x] l'].
    + reflexivity.
    + fold print_member. change (fun kv : string * json => quote kv.1 ++ ":"%char :: print kv.2)
        with print_member.
      assert (Hs : exists tl,
                 skip_ws (sep (map print_member ((k, x) :: l')) ++ "}"%char :: rest)
                 = "034"%char :: tl).
      { destruct l' as [|y l'']; eexists; reflexivity. }
      destruct Hs as (tl & ->). change (N_of_ascii "034" =? 125)%N with false. cbn iota.
      cbn [need] in Hf. fold (need_members ((k, x) :: l')) in Hf.
      rewrite parse_members_print by (done || lia). reflexivity.
Qed.

Lemma need_sep {A : Type} (f : A -> nat) (g : A -> text) (l : list A) :
  Forall (fun a => (f a <= length (g a))%nat) l ->
  (fold_right (fun a n => S (Nat.max (f a) n)) 0%nat l <= S (length (sep (map g l))))%nat.
Proof.
  induction 1 as [|a l Ha Hl IH]; [cbn; lia|].
  cbn [fold_right]. destruct l as [|b l'].
  - cbn [map sep fold_right]. lia.
  - change (sep (map g (a :: b :: l'))) with (g a ++ ","%char :: sep (map g (b :: l'))).
    rewrite length_app. cbn [length]. lia.
Qed.

Lemma need_length (j : json) : (need j <= length (print j))%nat.
Proof.
  assert (Hatom : forall a, need a = 1%nat -> (need a <= length (print a))%nat).
  { intros a ->. destruct (print_head a) as (c & tl & -> & _). cbn. lia. }
  induction j as [|b|z|s|l IH|l IH] using json_induction; try by apply Hatom.
  - cbn [need print length]. rewrite length_app. cbn [length].
    pose proof (need_sep need print l IH). lia.
  - cbn [need print length]. rewrite length_app. cbn [length].
    pose proof (need_sep (fun kv => need (snd kv))
                  (fun kv => quote (fst kv) ++ ":"%char :: print (snd kv)) l) as H.
    cbn beta in H.
    assert (Hall : Forall (fun kv : string * json =>
                     (need (snd kv)
                      <= length (quote (fst kv) ++ ":"%char :: print (snd kv)))%nat) l).
    { eapply Forall_impl; [exact IH|]. intros kv Hkv. cbn beta in Hkv.
      rewrite length_app. cbn [length]. lia. }
    specialize (H Hall). lia.
Qed.

(** Reading a printed document gives the document back. *)
Lemma parse_print (j : json) : parse (print j) = Some j.
Proof.
  unfold parse. rewrite <- (app_nil_r (print j)) at 2.
  rewrite parse_value_print; [reflexivity| |reflexivity].
  pose proof (need_length j). lia.
Qed.

(* ================================================================== *)
(** * Values and documents *)
(* ================================================================== *)

Lemma value_size_elem (x : value) (l : list value) :
  x ∈ l -> (value_size x < value_size (VSlice l))%nat.
Proof.
  cbn [value_size]. induction 1 as [x l|x y l _ IH]; cbn [foldr]; lia.
Qed.

Lemma value_size_lookup (m : gmap string value) (k : string) (x : value) :
  m !! k = Some x -> (value_size x < value_size (VMap m))%nat.
Proof.
  intros Hk. cbn [value_size].
  rewrite (map_fold_delete_L _ _ k x m); [lia| |done].
  intros. lia.
Qed.

(** Induction on values, with the hypothesis for every element of a slice
    and every value of a map. *)
Lemma value_induction (P : value -> Prop) :
  P VNil -> (forall b, P (VBool b)) -> (forall z, P (VInt z)) ->
  (forall s, P (VString s)) ->
  (forall l, Forall P l -> P (VSlice l)) ->
  (forall m, map_Forall (fun _ => P) m -> P (VMap m)) ->
  forall v, P v.
Proof.
  intros Hnil Hbool Hint Hstr Hslice Hmap v.
  remember (value_size v) as n eqn:Hn. revert v Hn.
  induction (lt_wf n) as [n _ IH]. intros [| | | |l|m] ->; auto.
  - apply Hslice, Forall_forall. intros x Hx.
    eapply IH; [|reflexivity]. by apply value_size_elem.
  - apply Hmap. intros k x Hk.
    eapply IH; [|reflexivity]. by eapply value_size_lookup.
Qed.

Lemma foldl_insert_list_to_map {A B : Type} (f : A -> B) (l : list (string * A)) :
  NoDup (l.*1) ->
  foldl (fun (m : gmap string B) kv => <[fst kv := f (snd kv)]> m) ∅ l
  = list_to_map (prod_map id f <$> l).
Proof.
  induction l as [|[k x] l IH] using rev_ind; [done|]. intros Hnd.
  rewrite foldl_app. cbn [foldl fst snd].
  rewrite fmap_app in Hnd. apply NoDup_app in Hnd as (Hl & Hk & _).
  rewrite IH by done.
  rewrite (list_to_map_proper (prod_map id f <$> l ++ [(k, x)])
             ((k, f x) :: (prod_map id f <$> l))).
  - reflexivity.
  - rewrite <- list_fmap_compose. rewrite fmap_app. apply NoDup_app.
    split; [|split].
    + by erewrite list_fmap_ext; [exact Hl|].
    + intros y Hy Hy'. cbn in Hy'. apply list_elem_of_singleton in Hy'. subst y.
      apply (Hk k); [|cbn; left].
      erewrite list_fmap_ext; [exact Hy|]. by intros ? [].
    + cbn. apply NoDup_singleton.
  - rewrite fmap_app. cbn. by rewrite Permutation_app_comm.
Qed.

(** Decoding the document of a value gives the value back. *)
Lemma of_json_to_json (v : value) : of_json (to_json v) = v.
Proof.
  induction v as [|b|z|s|l IH|m IH] using value_induction; try reflexivity.
  - cbn [to_json of_json]. f_equal. rewrite map_map.
    induction IH as [|x l Hx _ IHl]; [done|]. cbn [map]. by rewrite Hx, IHl.
  - cbn [to_json of_json]. f_equal.
    set (L := merge_sort key_le (map_to_list (to_json <$> m))).
    assert (HL : L ≡ₚ map_to_list (to_json <$> m)) by apply merge_sort_Permutation.
    assert (Hnd : NoDup (L.*1)).
    { rewrite HL. apply NoDup_fst_map_to_list. }
    rewrite (foldl_insert_list_to_map of_json L Hnd).
    rewrite (list_to_map_proper _ (prod_map id of_json <$> map_to_list (to_json <$> m))).
    + rewrite list_to_map_fmap, list_to_map_to_list.
      rewrite <- map_fmap_compose. rewrite <- (map_fmap_id m) at 2.
      apply map_fmap_ext. intros k x Hk. by apply (IH k x Hk).
    + rewrite <- list_fmap_compose.
      erewrite list_fmap_ext; [exact Hnd|]. by intros [].
    + by rewrite HL.
Qed.

(* ================================================================== *)
(** * The codec of the record *)
(* ================================================================== *)

Lemma decode_encode_time (t : Time) :
  minRFC3339 <= t < maxRFC3339 -> decode_time_ptr (encode_time t) = Some (stored_time t).
Proof.
  intros Ht. unfold encode_time, stored_time. destruct (IsZero t); [done|].
  cbn [decode_time_ptr]. rewrite list_ascii_of_string_of_list_ascii.
  by rewrite Parse_Format.
Qed.

Lemma decode_unstructured_to_json (u : object) :
  kind_of u <> EmptyString -> decode_unstructured (to_json (VMap u)) = Some u.
Proof.
  intros Hk. unfold decode_unstructured.
  rewrite of_json_to_json. rewrite bool_decide_eq_false_2 by done.
  reflexivity.
Qed.

Lemma step_pause b i :
  PauseInfo_step "pause" (JBool b) i =
  Some {| Pause := b; Object := Object i; LastPauseTime := LastPauseTime i;
          LastUnPauseTime := LastUnPauseTime i; ShouldUnpauseTime := ShouldUnpauseTime i |}.
Proof. reflexivity. Qed.

Lemma step_object u i :
  kind_of u <> EmptyString ->
  PauseInfo_step "object" (to_json (VMap u)) i =
  Some {| Pause := Pause i; Object := Snapshot u; LastPauseTime := LastPauseTime i;
          LastUnPauseTime := LastUnPauseTime i; ShouldUnpauseTime := ShouldUnpauseTime i |}.
Proof.
  intros Hk. unfold PauseInfo_step.
  change (names "object" "pause") with false. change (names "object" "object") with true.
  cbn iota. pose proof (decode_unstructured_to_json u Hk) as Hd.
  cbn [to_json] in *. by rewrite Hd.
Qed.

Lemma step_lastPauseTime t i :
  minRFC3339 <= t < maxRFC3339 ->
  PauseInfo_step "lastPauseTime" (encode_time t) i =
  Some {| Pause := Pause i; Object := Object i; LastPauseTime := stored_time t;
          LastUnPauseTime := LastUnPauseTime i; ShouldUnpauseTime := ShouldUnpauseTime i |}.
Proof.
  intros Ht. unfold PauseInfo_step.
  change (names "lastPauseTime" "pause") with false.
  change (names "lastPauseTime" "object") with false.
  change (names "lastPauseTime" "lastPauseTime") with true.
  cbn iota. by rewrite decode_encode_time.
Qed.

Lemma step_lastUnPauseTime t i :
  minRFC3339 <= t < maxRFC3339 ->
  PauseInfo_step "lastUnPauseTime" (encode_time t) i =
  Some {| Pause := Pause i; Object := Object i; LastPauseTime := LastPauseTime i;
          LastUnPauseTime := stored_time t; ShouldUnpauseTime := ShouldUnpauseTime i |}.
Proof.
  intros Ht. unfold PauseInfo_step.
  change (names "lastUnPauseTime" "pause") with false.
  change (names "lastUnPauseTime" "object") with false.
  change (names "lastUnPauseTime" "lastPauseTime") with false.
  change (names "lastUnPauseTime" "lastUnPauseTime") with true.
  cbn iota. by rewrite decode_encode_time.
Qed.

Lemma step_shouldUnpauseTime t i :
  minRFC3339 <= t < maxRFC3339 ->
  PauseInfo_step "shouldUnpauseTime" (encode_time t) i =
  Some {| Pause := Pause i; Object := Object i; LastPauseTime := LastPauseTime i;
          LastUnPauseTime := LastUnPauseTime i; ShouldUnpauseTime := stored_time t |}.
Proof.
  intros Ht. unfold PauseInfo_step.
  change (names "shouldUnpauseTime" "pause") with false.
  change (names "shouldUnpauseTime" "object") with false.
  change (names "shouldUnpauseTime" "lastPauseTime") with false.
  change (names "shouldUnpauseTime" "lastUnPauseTime") with false.
  change (names "shouldUnpauseTime" "shouldUnpauseTime") with true.
  cbn iota. by rewrite decode_encode_time.
Qed.

(** Reading an encoded record gives what is kept of it. *)
Lemma Unmarshal_Marshal (obj : object) (s : PauseInfo) :
  encodable obj s ->
  Unmarshal_PauseInfo (Marshal_PauseInfo obj s) = Ok (stored obj s).
Proof.
  intros (Hk & H1 & H2 & H3).
  unfold Unmarshal_PauseInfo, decode_struct, Marshal_PauseInfo.
  rewrite list_ascii_of_string_of_list_ascii, parse_print.
  unfold PauseInfo_json, stored.
  destruct s as [p o t1 t2 t3]. cbn [Pause Object LastPauseTime LastUnPauseTime
                                      ShouldUnpauseTime] in *.
  destruct (deref obj o) as [u|]; destruct t1 as [t1|]; destruct t2 as [t2|];
    destruct t3 as [t3|]; cbn [optional app foldl fst snd mbind option_bind] in *;
    rewrite step_pause; cbn [mbind option_bind];
    rewrite ?step_object by done; cbn [mbind option_bind];
    rewrite ?step_lastPauseTime by done; cbn [mbind option_bind];
    rewrite ?step_lastUnPauseTime by done; cbn [mbind option_bind];
    rewrite ?step_shouldUnpauseTime by done; cbn [mbind option_bind];
    reflexivity.
Qed.

Lemma stored_time_exact (o : option Time) : kept_exactly o -> o ≫= stored_time = o.
Proof.
  destruct o as [t|]; [|done]. intros (Hs & _ & Hz). cbn [mbind option_bind].
  unfold stored_time, IsZero. destruct (Z.eqb_spec t zeroTime); [done|].
  f_equal. unfold Second in *. Z.div_mod_to_equations. lia.
Qed.

Lemma kept_exactly_range (o : option Time) : kept_exactly o -> year_has_four_digits o.
Proof. destruct o; [|done]. by intros (_ & ? & _). Qed.

(** C7, as the code has it: a record is read back as it was written when it
    is a decoded record (its snapshot, if any, is its own), the snapshot has a
    kind and holds only what the codec keeps (strings and keys of valid UTF-8,
    numbers that are [int64], no [float64]), and each of its times is a whole
    number of seconds, in a year of four digits, and not the zero time; each
    of the four optional fields may be present or absent.  The printer of this
    file copies the bytes from 128 up and its values have no [float64], so
    that outside these snapshots it does not speak for the codec of Go: hence
    the hypothesis [plain_snapshot]. *)
Theorem record_round_trip (obj : object) (s : PauseInfo) :
  Object s <> SameObject ->
  has_kind (deref obj (Object s)) ->
  plain_snapshot (deref obj (Object s)) ->
  kept_exactly (LastPauseTime s) ->
  kept_exactly (LastUnPauseTime s) ->
  kept_exactly (ShouldUnpauseTime s) ->
  Unmarshal_PauseInfo (Marshal_PauseInfo obj s) = Ok s.
Proof.
  intros Ho Hk _ H1 H2 H3.
  rewrite Unmarshal_Marshal by (repeat split; auto using kept_exactly_range).
  f_equal. unfold stored. rewrite !stored_time_exact by done.
  destruct s as [p [| |u] t1 t2 t3]; done.
Qed.

(* ================================================================== *)
(** * The properties on the resource of the tests *)
(* ================================================================== *)

(** The pause of the subnet at [T1] with an interval of one hour: the draw
    gives a jitter of three minutes, the schedule is one hour after [T1]. *)
Lemma pause_stores_schedule_without_jitter_witness :
  Pause (default newPauseInfo None) = false
  /\ 0 < Hour
  /\ tenth (1800000000000 mod Hour) = 3 * Minute
  /\ ShouldUnpauseTime (ensurePause subnet None (Some Hour) (world_at T1)).1.2
     = Some (T1 + Hour).
Proof.
  split; [reflexivity|]. split; [reflexivity|]. split; [reflexivity|].
  destruct (pause_stores_schedule_without_jitter subnet None Hour (world_at T1)
              eq_refl eq_refl) as (_ & _ & H & _).
  exact H.
Defined.

(** Setting the pause flag on the subnet without annotations is a drift. *)
Lemma pause_flag_alone_reads_as_drift_witness :
  bare_subnet !! "metadata"%string = Some (VMap bare_metadata)
  /\ bare_metadata !! "annotations"%string = None
  /\ NestedMap bare_subnet ["spec"%string] <> WrongType
  /\ isUpdated (annotate AnnotationKeyReconciliationPaused "true" bare_subnet)
       (Some bare_subnet) = Ok true.
Proof.
  assert (H1 : bare_subnet !! "metadata"%string = Some (VMap bare_metadata))
    by (vm_compute; reflexivity).
  assert (H2 : bare_metadata !! "annotations"%string = None) by (vm_compute; reflexivity).
  assert (H3 : NestedMap bare_subnet ["spec"%string] <> WrongType)
    by (vm_compute; discriminate).
  split; [exact H1|]. split; [exact H2|]. split; [exact H3|].
  destruct (pause_flag_alone_reads_as_drift bare_subnet bare_metadata "true" H1 H2 H3)
    as (_ & _ & _ & _ & H & _).
  exact H.
Defined.

(** The same through the engine: the subnet without annotations is paused,
    and the next evaluation of the object that was written, which nobody has
    touched, unpauses it. *)
Lemma paused_then_unpaused_without_annotations :
  let out1 := Reconcile policy (Got bare_subnet) (world_at T1) in
  let written := default ∅ (head (sent out1.2)) in
  let out2 := Reconcile policy (Got written) out1.2 in
  let rewritten := default ∅ (last (sent out2.2)) in
  out1.1 = Ok noResult
  /\ length (calls out1.2) = 1%nat
  /\ pause_flag written = "true"%string
  /\ Pause <$> record_of written = Some true
  /\ out2.1 = Ok noResult
  /\ length (calls out2.2) = 2%nat
  /\ pause_flag rewritten = EmptyString
  /\ Pause <$> record_of rewritten = Some false.
Proof. vm_compute. repeat split. Qed.

(** C3 fails where the resource already has a pause flag: the subnet with
    the flag ["false"] is paused, and the snapshot of the record that is
    written holds that flag. *)
Lemma snapshot_can_hold_the_pause_flag :
  let out := Reconcile policy (Got flagged_false) (world_at T1) in
  let written := default ∅ (head (sent out.2)) in
  out.1 = Ok noResult
  /\ length (calls out.2) = 1%nat
  /\ Pause <$> record_of written = Some true
  /\ Object <$> record_of written = Some (Snapshot flagged_false)
  /\ annotation flagged_false AnnotationKeyReconciliationPaused = Some (VString "false").
Proof. vm_compute. repeat split. Qed.

Lemma written_records_keep_the_invariants_witness :
  Pause (default newPauseInfo None) = false
  /\ positive_interval (Some Hour)
  /\ metadata_ok subnet = true
  /\ Pause (ensurePause subnet None (Some Hour) (world_at T1)).1.2 = true
  /\ annotation (pause_snapshot subnet) AnnotationKeyPauseInfo = None.
Proof.
  assert (Hm : metadata_ok subnet = true) by (vm_compute; reflexivity).
  split; [reflexivity|]. split; [reflexivity|]. split; [exact Hm|].
  destruct written_records_keep_the_invariants as [Hpause _].
  destruct (Hpause subnet None (Some Hour) (world_at T1) eq_refl eq_refl Hm)
    as (_ & _ & Hp & _ & _ & Hs & _).
  split; [exact Hp|exact Hs].
Defined.

Lemma deleted_paused_resource_is_unpaused_witness :
  GetDeletionTimestamp (deleted paused_subnet) = Some (1658487600 * Second)
  /\ parsePauseInfo (deleted paused_subnet) = Ok (Some (paused_record (T0 + Hour)))
  /\ Pause (paused_record (T0 + Hour)) = true
  /\ exists rest,
       calls (Reconcile policy (Got (deleted paused_subnet)) (world_at T1)).2
       = (unpaused_object (deleted paused_subnet) (paused_record (T0 + Hour)) T1, true)
         :: rest.
Proof.
  assert (H1 : GetDeletionTimestamp (deleted paused_subnet) = Some (1658487600 * Second))
    by (vm_compute; reflexivity).
  assert (H2 : parsePauseInfo (deleted paused_subnet)
               = Ok (Some (paused_record (T0 + Hour)))) by (vm_compute; reflexivity).
  split; [exact H1|]. split; [exact H2|]. split; [reflexivity|].
  destruct (deleted_paused_resource_is_unpaused policy _ _ _ (world_at T1) H1 H2 eq_refl)
    as (H & _).
  exact H.
Defined.

(** C5 fails where the time left does not fit in a duration: the schedule
    of the paused subnet is the end of the year 9999, and the evaluation asks
    to be run again after the largest duration, which is less.  It also fails
    for a record that has a schedule and no time of the last pause: the
    evaluation panics before the schedule is looked at. *)
Lemma requeue_of_paused_resource_is_capped :
  (GetDeletionTimestamp far_subnet = None
   /\ parsePauseInfo far_subnet = Ok (Some (paused_record far))
   /\ isUpdated far_subnet (Some subnet) = Ok false
   /\ UnPausePollInterval policy = Some Hour
   /\ dueTime (paused_record far) T0 Hour = far
   /\ T1 < far
   /\ Reconcile policy (Got far_subnet) (world_at T1)
      = (Ok {| Requeue := false; RequeueAfter := maxDuration |}, (Now (world_at T1)).2)
   /\ maxDuration <> far - T1)
  /\ (GetDeletionTimestamp unanchored_subnet = None
      /\ parsePauseInfo unanchored_subnet = Ok (Some unanchored_record)
      /\ isUpdated unanchored_subnet (Some subnet) = Ok false
      /\ T1 < T0 + Hour
      /\ (Reconcile policy (Got unanchored_subnet) (world_at T1)).1
         = Panic "nil pointer dereference").
Proof. vm_compute. repeat split; discriminate. Qed.

Lemma paused_resource_and_poll_interval_witness :
  GetDeletionTimestamp paused_subnet = None
  /\ parsePauseInfo paused_subnet = Ok (Some (paused_record (T0 + Hour)))
  /\ Pause (paused_record (T0 + Hour)) = true
  /\ Object (paused_record (T0 + Hour)) = Snapshot subnet
  /\ isUpdated paused_subnet (Some subnet) = Ok false
  /\ LastPauseTime (paused_record (T0 + Hour)) = Some T0
  /\ (Reconcile policy (Got paused_subnet) (world_at (T0 + 30 * Minute))).1
     = Ok {| Requeue := false; RequeueAfter := 30 * Minute |}.
Proof.
  assert (H1 : GetDeletionTimestamp paused_subnet = None) by (vm_compute; reflexivity).
  assert (H2 : parsePauseInfo paused_subnet = Ok (Some (paused_record (T0 + Hour))))
    by (vm_compute; reflexivity).
  assert (H3 : isUpdated paused_subnet (Some subnet) = Ok false)
    by (vm_compute; reflexivity).
  split; [exact H1|]. split; [exact H2|]. split; [reflexivity|]. split; [reflexivity|].
  split; [exact H3|]. split; [reflexivity|].
  destruct (paused_resource_and_poll_interval policy paused_subnet subnet
              (paused_record (T0 + Hour)) T0 (world_at (T0 + 30 * Minute))
              H1 H2 eq_refl eq_refl H3 eq_refl) as (H & _).
  destruct (H Hour eq_refl) as (Hbefore & _).
  destruct (Hbefore eq_refl) as (Hres & _).
  exact Hres.
Defined.

(** C6 fails in the same way: the last unpause of the record is the end of
    the year 9999. *)
Lemma requeue_of_frozen_resource_is_capped :
  parsePauseInfo (unpaused_subnet far) = Ok (Some (unpaused_record far))
  /\ Pause (unpaused_record far) = false
  /\ FrozenTimeDuration policy = Some (5 * Minute)
  /\ T1 < far + 5 * Minute
  /\ Reconcile policy (Got (unpaused_subnet far)) (world_at T1)
     = (Ok {| Requeue := false; RequeueAfter := maxDuration |}, (Now (world_at T1)).2)
  /\ maxDuration <> far + 5 * Minute - T1.
Proof. vm_compute. repeat split; discriminate. Qed.

(** The frozen window of the specification: four minutes after the unpause
    the evaluation asks for one more minute. *)
Lemma frozen_window_witness :
  parsePauseInfo (unpaused_subnet T0) = Ok (Some (unpaused_record T0))
  /\ Pause (unpaused_record T0) = false
  /\ LastUnPauseTime (unpaused_record T0) = Some T0
  /\ FrozenTimeDuration policy = Some (5 * Minute)
  /\ (Reconcile policy (Got (unpaused_subnet T0)) (world_at (T0 + 4 * Minute))).1
     = Ok {| Requeue := false; RequeueAfter := 1 * Minute |}
  /\ calls (Reconcile policy (Got (unpaused_subnet T0)) (world_at (T0 + 4 * Minute))).2
     = [].
Proof.
  assert (H1 : parsePauseInfo (unpaused_subnet T0) = Ok (Some (unpaused_record T0)))
    by (vm_compute; reflexivity).
  split; [exact H1|]. split; [reflexivity|]. split; [reflexivity|]. split; [reflexivity|].
  destruct (frozen_window policy (unpaused_subnet T0) (unpaused_record T0) T0 (5 * Minute)
              (world_at (T0 + 4 * Minute)) H1 eq_refl eq_refl eq_refl) as (H & _).
  exact (H eq_refl).
Defined.

(** C7 fails on a time with a part of a second: the record unpaused at [T1]
    is read back as unpaused at [T0].  It also fails on the zero time, which
    is read back as no time, and on a snapshot without a kind, which is not
    read back at all. *)
Lemma part_of_a_second_is_not_read_back :
  Unmarshal_PauseInfo (Marshal_PauseInfo subnet (unpaused_record T1))
  = Ok (unpaused_record T0)
  /\ Unmarshal_PauseInfo (Marshal_PauseInfo subnet (unpaused_record T1))
     <> Ok (unpaused_record T1)
  /\ Unmarshal_PauseInfo (Marshal_PauseInfo subnet zero_record) = Ok newPauseInfo
  /\ Unmarshal_PauseInfo (Marshal_PauseInfo subnet kindless_record)
     = Err (Leaf "json: cannot unmarshal value into Go struct field").
Proof. vm_compute. repeat split; discriminate. Qed.

Lemma record_round_trip_witness :
  Object (paused_record (T0 + Hour)) <> SameObject
  /\ has_kind (deref subnet (Object (paused_record (T0 + Hour))))
  /\ plain_snapshot (deref subnet (Object (paused_record (T0 + Hour))))
  /\ kept_exactly (LastPauseTime (paused_record (T0 + Hour)))
  /\ kept_exactly (LastUnPauseTime (paused_record (T0 + Hour)))
  /\ kept_exactly (ShouldUnpauseTime (paused_record (T0 + Hour)))
  /\ Unmarshal_PauseInfo (Marshal_PauseInfo subnet (paused_record (T0 + Hour)))
     = Ok (paused_record (T0 + Hour)).
Proof.
  assert (H1 : Object (paused_record (T0 + Hour)) <> SameObject) by discriminate.
  assert (H2 : has_kind (deref subnet (Object (paused_record (T0 + Hour)))))
    by (vm_compute; discriminate).
  assert (Hplain : plain_snapshot (deref subnet (Object (paused_record (T0 + Hour)))))
    by (vm_compute; reflexivity).
  assert (H3 : kept_exactly (LastPauseTime (paused_record (T0 + Hour))))
    by (vm_compute; repeat split; discriminate).
  assert (H4 : kept_exactly (LastUnPauseTime (paused_record (T0 + Hour)))) by exact I.
  assert (H5 : kept_exactly (ShouldUnpauseTime (paused_record (T0 + Hour))))
    by (vm_compute; repeat split; discriminate).
  repeat (split; [assumption|]).
  exact (record_round_trip subnet (paused_record (T0 + Hour)) H1 H2 Hplain H3 H4 H5).
Defined.


(** C9 fails where the pause flag is ["true"] and there is no record: the
    deleted subnet, Ready and Synced, is left as it is.  It also fails for a
    poll interval that is not positive: the draw of the jitter panics and
    nothing is sent. *)
Lemma flagged_deleted_resource_is_left_alone :
  (GetDeletionTimestamp (deleted flagged_true) = Some (1658487600 * Second)
   /\ parsePauseInfo (deleted flagged_true) = Ok None
   /\ getCondition (deleted flagged_true) TypeReady = Ok ready
   /\ isTrue ready = true
   /\ getCondition (deleted flagged_true) TypeSynced = Ok synced
   /\ isTrue synced = true
   /\ Reconcile policy (Got (deleted flagged_true)) (world_at T1)
      = (Ok noResult, world_at T1))
  /\ (GetDeletionTimestamp (deleted subnet) = Some (1658487600 * Second)
      /\ parsePauseInfo (deleted subnet) = Ok None
      /\ getCondition (deleted subnet) TypeReady = Ok ready
      /\ getCondition (deleted subnet) TypeSynced = Ok synced
      /\ (Reconcile policy_without_interval (Got (deleted subnet)) (world_at T1)).1
         = Panic "invalid argument to Int63n"
      /\ calls (Reconcile policy_without_interval (Got (deleted subnet)) (world_at T1)).2
         = []).
Proof. vm_compute. repeat split. Qed.

Lemma deleted_unpaused_resource_is_paused_witness :
  GetDeletionTimestamp (deleted subnet) = Some (1658487600 * Second)
  /\ parsePauseInfo (deleted subnet) = Ok None
  /\ isPaused (pause_flag (deleted subnet)) = false
  /\ getCondition (deleted subnet) TypeReady = Ok ready
  /\ getCondition (deleted subnet) TypeSynced = Ok synced
  /\ calls (Reconcile policy (Got (deleted subnet)) (world_at T1)).2
     = [(paused_object (deleted subnet) newPauseInfo T1 (Some (T1 + Hour)), true)]
  /\ pause_flag (paused_object (deleted subnet) newPauseInfo T1 (Some (T1 + Hour)))
     = "true"%string.
Proof.
  assert (H1 : GetDeletionTimestamp (deleted subnet) = Some (1658487600 * Second))
    by (vm_compute; reflexivity).
  assert (H2 : parsePauseInfo (deleted subnet) = Ok None) by (vm_compute; reflexivity).
  assert (H3 : isPaused (pause_flag (deleted subnet)) = false) by (vm_compute; reflexivity).
  assert (H4 : getCondition (deleted subnet) TypeReady = Ok ready)
    by (vm_compute; reflexivity).
  assert (H5 : getCondition (deleted subnet) TypeSynced = Ok synced)
    by (vm_compute; reflexivity).
  repeat (split; [assumption|]).
  destruct (deleted_unpaused_resource_is_paused policy (deleted subnet) None _
              (world_at T1) ready synced H1 H2 (fun _ => H3) eq_refl I H4 eq_refl
              H5 eq_refl eq_refl) as (Hc & _).
  split; [exact Hc|]. vm_compute. reflexivity.
Defined.

(** The record whose text is the object with the one member [pause], true,
    written by hand on the subnet: the evaluation panics. *)
Lemma paused_branch_needs_the_invariant_witness :
  record_annotation hand_written
  = Some (string_of_list_ascii (print (JObj [("pause"%string, JBool true)])))
  /\ GetDeletionTimestamp hand_written = None
  /\ parsePauseInfo hand_written = Ok (Some only_paused)
  /\ Pause only_paused = true
  /\ Reconcile policy (Got hand_written) (world_at T1)
     = (Panic "nil pointer dereference", world_at T1).
Proof.
  assert (H0 : record_annotation hand_written
               = Some (string_of_list_ascii (print (JObj [("pause"%string, JBool true)]))))
    by (vm_compute; reflexivity).
  assert (H1 : GetDeletionTimestamp hand_written = None) by (vm_compute; reflexivity).
  assert (H2 : parsePauseInfo hand_written = Ok (Some only_paused))
    by (vm_compute; reflexivity).
  repeat (split; [assumption || reflexivity|]).
  destruct (paused_branch_needs_the_invariant policy hand_written only_paused
              (world_at T1) H1 H2 eq_refl) as (H & _).
  exact (H eq_refl).
Defined.

(* ================================================================== *)
(** * Further properties of the drift check *)
(* ================================================================== *)

Lemma remove_annotation_cases (u : object) (k : string) :
  RemoveNestedField u ["metadata"; "annotations"; k]%string =
  match u !! "metadata"%string with
  | Some (VMap meta) =>
      match meta !! "annotations"%string with
      | Some (VMap a) =>
          <["metadata"%string := VMap (<["annotations"%string := VMap (delete k a)]> meta)]> u
      | _ => u
      end
  | _ => u
  end.
Proof.
  cbn [RemoveNestedField].
  destruct (u !! "metadata"%string) as [[| | | | |meta]|] eqn:Hm; try done.
  destruct (meta !! "annotations"%string) as [[| | | | |a]|] eqn:Ha;
    try done; by rewrite insert_id.
Qed.

Lemma remove_annotation_lookup (u : object) (k j : string) :
  j <> "metadata"%string ->
  RemoveNestedField u ["metadata"; "annotations"; k]%string !! j = u !! j.
Proof.
  intros Hj. rewrite remove_annotation_cases.
  destruct (u !! "metadata"%string) as [[| | | | |meta]|]; try done.
  destruct (meta !! "annotations"%string) as [[| | | | |a]|]; try done.
  by rewrite lookup_insert_ne.
Qed.

Lemma strip_lookup (u : object) (j : string) :
  j <> "metadata"%string -> strip u !! j = u !! j.
Proof. intros Hj. unfold strip. by rewrite !remove_annotation_lookup. Qed.

Lemma remove_annotation_region (u : object) (k : string) :
  NestedMap (RemoveNestedField u ["metadata"; "annotations"; k]%string)
    ["metadata"; "annotations"]%string
  = match NestedMap u ["metadata"; "annotations"]%string with
    | Found m => Found (delete k m)
    | r => r
    end.
Proof.
  rewrite remove_annotation_cases. unfold NestedMap. cbn [NestedFieldNoCopy].
  destruct (u !! "metadata"%string) as [[| | | | |meta]|] eqn:Hm; rewrite ?Hm; try done.
  destruct (meta !! "annotations"%string) as [[| | | | |a]|] eqn:Ha;
    rewrite ?Hm, ?Ha; try done.
  by rewrite !lookup_insert_eq.
Qed.

Lemma remove_annotation_labels (u : object) (k : string) :
  NestedMap (RemoveNestedField u ["metadata"; "annotations"; k]%string)
    ["metadata"; "labels"]%string
  = NestedMap u ["metadata"; "labels"]%string.
Proof.
  rewrite remove_annotation_cases. unfold NestedMap. cbn [NestedFieldNoCopy].
  destruct (u !! "metadata"%string) as [[| | | | |meta]|] eqn:Hm; rewrite ?Hm; try done.
  destruct (meta !! "annotations"%string) as [[| | | | |a]|] eqn:Ha;
    rewrite ?Hm; try done.
  rewrite lookup_insert_eq. by rewrite lookup_insert_ne.
Qed.

Lemma strip_spec (u : object) :
  NestedMap (strip u) ["spec"%string] = NestedMap u ["spec"%string].
Proof. unfold NestedMap. cbn [NestedFieldNoCopy]. by rewrite strip_lookup. Qed.

Lemma strip_labels (u : object) :
  NestedMap (strip u) ["metadata"; "labels"]%string
  = NestedMap u ["metadata"; "labels"]%string.
Proof. unfold strip. by rewrite !remove_annotation_labels. Qed.

Lemma strip_annotations (u : object) :
  NestedMap (strip u) ["metadata"; "annotations"]%string
  = without_own (NestedMap u ["metadata"; "annotations"]%string).
Proof.
  unfold strip. rewrite !remove_annotation_region.
  by destruct (NestedMap u ["metadata"; "annotations"]%string).
Qed.

Lemma checkFieldEqual_true_iff (a b : object) (fields : list string) :
  checkFieldEqual a b fields = Ok true <-> same_region a b fields.
Proof.
  unfold checkFieldEqual, same_region, DeepEqual.
  destruct (NestedMap a fields) as [m1| |], (NestedMap b fields) as [m2| |];
    try (split; [done|by intros [? ?]]); try (split; [done|by intros [[] ?]]).
  split.
  - intros [= H]. apply bool_decide_eq_true in H. by subst.
  - intros [_ [= ->]]. by rewrite bool_decide_eq_true_2.
Qed.

Lemma checkFieldEqual_outcomes (a b : object) (fields : list string) :
  checkFieldEqual a b fields = Ok true \/ checkFieldEqual a b fields = Ok false
  \/ checkFieldEqual a b fields = Err (Leaf "accessor error").
Proof.
  unfold checkFieldEqual.
  destruct (NestedMap a fields), (NestedMap b fields); auto.
  destruct (DeepEqual _ _); auto.
Qed.

(** X1.  No drift is reported exactly when the three regions agree: the spec
    and the labels as they are, the annotations without the two annotations of
    the reconciler; each region is missing in both objects or the same map in
    both.  Nothing else of the objects is compared. *)
Theorem no_drift_iff_regions_agree (a b : object) :
  isUpdated a (Some b) = Ok false <->
  same_region a b ["spec"%string]
  /\ (NestedMap a ["metadata"; "annotations"]%string <> WrongType
      /\ without_own (NestedMap a ["metadata"; "annotations"]%string)
         = without_own (NestedMap b ["metadata"; "annotations"]%string))
  /\ same_region a b ["metadata"; "labels"]%string.
Proof.
  assert (Hspec : same_region (strip a) (strip b) ["spec"%string]
                  <-> same_region a b ["spec"%string]).
  { unfold same_region. by rewrite !strip_spec. }
  assert (Hlab : same_region (strip a) (strip b) ["metadata"; "labels"]%string
                 <-> same_region a b ["metadata"; "labels"]%string).
  { unfold same_region. by rewrite !strip_labels. }
  assert (Hann : same_region (strip a) (strip b) ["metadata"; "annotations"]%string
                 <-> NestedMap a ["metadata"; "annotations"]%string <> WrongType
                     /\ without_own (NestedMap a ["metadata"; "annotations"]%string)
                        = without_own (NestedMap b ["metadata"; "annotations"]%string)).
  { unfold same_region. rewrite !strip_annotations.
    destruct (NestedMap a ["metadata"; "annotations"]%string);
      cbn [without_own]; split; intros [? ?]; split; done. }
  rewrite <- Hspec, <- Hann, <- Hlab, <- !checkFieldEqual_true_iff.
  unfold isUpdated.
  destruct (checkFieldEqual_outcomes (strip a) (strip b) ["spec"%string])
    as [->|[->| ->]];
  destruct (checkFieldEqual_outcomes (strip a) (strip b) ["metadata"; "annotations"]%string)
    as [->|[->| ->]];
  destruct (checkFieldEqual_outcomes (strip a) (strip b) ["metadata"; "labels"]%string)
    as [->|[->| ->]];
    split; try done; by intros (? & ? & ?).
Qed.

Lemma checkFieldEqual_sym (a b : object) (fields : list string) :
  checkFieldEqual a b fields = checkFieldEqual b a fields.
Proof.
  unfold checkFieldEqual, DeepEqual.
  destruct (NestedMap a fields) as [m1| |], (NestedMap b fields) as [m2| |]; try done.
  f_equal. apply bool_decide_ext. split; congruence.
Qed.

(** X2.  The order of the two objects does not matter to the drift check. *)
Theorem drift_check_is_symmetric (a b : object) :
  isUpdated a (Some b) = isUpdated b (Some a).
Proof.
  unfold isUpdated.
  by rewrite (checkFieldEqual_sym (strip a)),
       (checkFieldEqual_sym (strip a) _ ["metadata"; "annotations"]%string),
       (checkFieldEqual_sym (strip a) _ ["metadata"; "labels"]%string).
Qed.

(** X3.  A difference of the spec is reported whatever the metadata is: the spec
    is compared first. *)
Theorem spec_change_is_drift (a b : object) :
  NestedMap a ["spec"%string] <> WrongType ->
  NestedMap b ["spec"%string] <> WrongType ->
  NestedMap a ["spec"%string] <> NestedMap b ["spec"%string] ->
  isUpdated a (Some b) = Ok true.
Proof.
  intros Ha Hb Hne. unfold isUpdated.
  assert (H : checkFieldEqual (strip a) (strip b) ["spec"%string] = Ok false).
  { unfold checkFieldEqual, DeepEqual. rewrite !strip_spec.
    destruct (NestedMap a ["spec"%string]) as [m1| |],
             (NestedMap b ["spec"%string]) as [m2| |]; try done.
    rewrite bool_decide_eq_false_2; [done|]. congruence. }
  by rewrite H.
Qed.

Lemma isUpdated_regions (a a' b : object) :
  NestedMap a ["spec"%string] = NestedMap a' ["spec"%string] ->
  NestedMap a ["metadata"; "annotations"]%string
  = NestedMap a' ["metadata"; "annotations"]%string ->
  NestedMap a ["metadata"; "labels"]%string = NestedMap a' ["metadata"; "labels"]%string ->
  isUpdated a (Some b) = isUpdated a' (Some b).
Proof.
  intros H1 H2 H3. unfold isUpdated, checkFieldEqual.
  by rewrite !strip_spec, !strip_annotations, !strip_labels, H1, H2, H3.
Qed.

(** X4.  Only the spec, the annotations and the labels count: any other field of
    the object, and any other field of its metadata, can change without a
    drift being reported. *)
Theorem other_fields_are_not_compared (a b meta : object) (k : string) (v : value) :
  (k <> "spec"%string -> k <> "metadata"%string ->
   isUpdated (<[k := v]> a) (Some b) = isUpdated a (Some b))
  /\ (a !! "metadata"%string = Some (VMap meta) ->
      k <> "annotations"%string -> k <> "labels"%string ->
      isUpdated (<["metadata"%string := VMap (<[k := v]> meta)]> a) (Some b)
      = isUpdated a (Some b)).
Proof.
  split.
  - intros H1 H2. apply isUpdated_regions; unfold NestedMap; cbn [NestedFieldNoCopy];
      by rewrite lookup_insert_ne.
  - intros Hm H1 H2. apply isUpdated_regions; unfold NestedMap; cbn [NestedFieldNoCopy].
    + by rewrite lookup_insert_ne.
    + rewrite lookup_insert_eq, Hm. by rewrite lookup_insert_ne.
    + rewrite lookup_insert_eq, Hm. by rewrite lookup_insert_ne.
Qed.

(* ================================================================== *)
(** * Further properties of the evaluation *)
(* ================================================================== *)

(** X5.  A paused resource that has drifted from its snapshot and is not deleted
    is unpaused: the one call of the client sends the unpaused object, no new
    run is asked for, and neither the poll interval nor the times of the
    record are looked at. *)
Theorem drifted_resource_is_unpaused
    (r : Reconciler) (obj snap : object) (info : PauseInfo) (w : World) :
  GetDeletionTimestamp obj = None ->
  parsePauseInfo obj = Ok (Some info) ->
  Pause info = true ->
  Object info = Snapshot snap ->
  isUpdated obj (Some snap) = Ok true ->
  let obj' := unpaused_object obj info (clock w) in
  let out := Reconcile r (Got obj) w in
  calls out.2 = calls w ++ [(obj', negb (hd false (failures w)))]
  /\ out.1 = (if hd false (failures w)
              then Err (Wrap "unable to unpause"
                          (Wrap "failed to update object" (Leaf "update failed")))
              else Ok noResult)
  /\ pause_flag obj' = EmptyString
  /\ record_annotation obj' = Some (Marshal_PauseInfo obj (unpaused_info info (clock w))).
Proof.
  intros Hdel Hparse Hp Hobj Hupd obj' out.
  assert (Hout : out = reconcilePaused r obj info w).
  { subst out. rewrite (Reconcile_with_record _ _ _ _ Hparse), Hdel.
    cbn [default from_option id]. by rewrite Hp. }
  assert (Hann : GetAnnotations obj' = Some (unpaused_annotations obj info (clock w))).
  { apply Get_SetAnnotations. unfold parsePauseInfo in Hparse.
    destruct (GetAnnotations obj) as [a|] eqn:Ha; [|done].
    by eapply GetAnnotations_metadata_ok. }
  rewrite Hout. unfold reconcilePaused. rewrite Hobj. cbn [deref]. rewrite Hupd.
  rewrite ensureUnPause_paused by done. fold obj'. unfold update_outcome.
  split; [|split; [|split]].
  - by destruct (hd false (failures w)) eqn:Hf; cbn [snd];
      rewrite Update_calls, Now_calls, Now_failures, Hf.
  - by destruct (hd false (failures w)).
  - unfold pause_flag. rewrite Hann. cbn. unfold unpaused_annotations.
    rewrite lookup_insert_ne by done. by rewrite lookup_delete_eq.
  - unfold record_annotation. rewrite Hann. cbn. apply lookup_insert_eq.
Qed.

Lemma reconcileUnpaused_window_over r obj info w :
  window_over r info (clock w) ->
  reconcileUnpaused r obj info w = reconcileConditions r obj info (Now w).2.
Proof.
  intros Hwin. unfold reconcileUnpaused, window_over in *. cbn [Now snd].
  destruct (LastUnPauseTime info) as [t0|]; [|done].
  destruct (FrozenTimeDuration r) as [frozen|]; [|done].
  unfold After, Add. by destruct (Z.ltb_spec (clock w) (t0 + frozen)); [lia|].
Qed.

(** X6.  A resource whose record is absent or says not paused, with no frozen
    window running, Ready and Synced true and a poll interval that is absent
    or positive, is paused, deleted or not: the one call of the client sends
    the paused object, and if its metadata can take annotations the object
    sent has the pause flag ["true"] and carries the record of the pause. *)
Theorem ready_resource_is_paused
    (r : Reconciler) (obj : object) (oinfo : option PauseInfo) (w : World)
    (ready synced : option Condition) :
  parsePauseInfo obj = Ok oinfo ->
  (oinfo = None -> isPaused (pause_flag obj) = false) ->
  let info := default newPauseInfo oinfo in
  Pause info = false ->
  window_over r info (clock w) ->
  getCondition obj TypeReady = Ok ready -> isTrue ready = true ->
  getCondition obj TypeSynced = Ok synced -> isTrue synced = true ->
  positive_interval (UnPausePollInterval r) ->
  let now := clock (Now w).2 in
  let schedule := stored_schedule info now (UnPausePollInterval r) in
  let obj' := paused_object obj info now schedule in
  let out := Reconcile r (Got obj) w in
  calls out.2 = calls w ++ [(obj', negb (hd false (failures w)))]
  /\ out.1 = (if hd false (failures w)
              then Err (Wrap "unable to pause"
                          (Wrap "failed to update object" (Leaf "update failed")))
              else Ok noResult)
  /\ (metadata_ok obj = true ->
      pause_flag obj' = "true"%string
      /\ record_annotation obj'
         = Some (Marshal_PauseInfo (pause_snapshot obj) (paused_info info now schedule))).
Proof.
  intros Hparse Hflag info Hp Hwin Hr Hrt Hs Hst Hi now schedule obj' out.
  assert (Hout : out = reconcileConditions r obj info (Now w).2).
  { subst out. rewrite (Reconcile_unpaused _ _ _ _ Hparse Hflag Hp). fold info.
    by apply reconcileUnpaused_window_over. }
  assert (Hens := ensurePause_unpaused obj info (UnPausePollInterval r) (Now w).2 Hp Hi).
  cbv zeta in Hens. fold now in Hens. fold schedule in Hens. fold obj' in Hens.
  rewrite Hout. unfold reconcileConditions. rewrite Hr, Hrt, Hs, Hst. cbn [negb].
  rewrite Hens. unfold update_outcome. rewrite Now_failures.
  split; [|split].
  - assert (Hc : forall w2, calls w2 = calls w -> failures w2 = failures w ->
                 calls (Update obj' w2).2 = calls w ++ [(obj', negb (hd false (failures w)))]).
    { intros w2 Hc Hf. by rewrite Update_calls, Hc, Hf. }
    destruct (hd false (failures w)); cbn [snd]; apply Hc;
      destruct (UnPausePollInterval r); by rewrite ?Int63n_calls, ?Int63n_failures.
  - by destruct (hd false (failures w)).
  - intros Hm.
    assert (Hann : GetAnnotations obj' = Some (paused_annotations obj info now schedule)).
    { apply Get_SetAnnotations. by apply pause_snapshot_metadata_ok. }
    unfold pause_flag, record_annotation. rewrite Hann. cbn.
    unfold paused_annotations. rewrite lookup_insert_ne by done.
    by rewrite !lookup_insert_eq.
Qed.

(** X7.  A resource that is not paused and not in a frozen window, and whose
    Ready or Synced condition is missing or not true, is left as it is:
    nothing is sent and no new run is asked for. *)
Theorem unready_resource_is_left_alone
    (r : Reconciler) (obj : object) (oinfo : option PauseInfo) (w : World)
    (ready : option Condition) :
  parsePauseInfo obj = Ok oinfo ->
  (oinfo = None -> isPaused (pause_flag obj) = false) ->
  let info := default newPauseInfo oinfo in
  Pause info = false ->
  window_over r info (clock w) ->
  getCondition obj TypeReady = Ok ready ->
  (isTrue ready = false
   \/ exists synced, getCondition obj TypeSynced = Ok synced /\ isTrue synced = false) ->
  Reconcile r (Got obj) w = (Ok noResult, (Now w).2).
Proof.
  intros Hparse Hflag info Hp Hwin Hr Hno.
  rewrite (Reconcile_unpaused _ _ _ _ Hparse Hflag Hp). fold info.
  rewrite reconcileUnpaused_window_over by done.
  unfold reconcileConditions. rewrite Hr.
  destruct (isTrue ready) eqn:Hrt; [|done]. cbn [negb].
  destruct Hno as [?|(synced & Hs & Hst)]; [done|]. by rewrite Hs, Hst.
Qed.

Lemma isPaused_true_iff (v : string) : isPaused v = true <-> v = "true"%string.
Proof. unfold isPaused. apply String.eqb_eq. Qed.

(** X8.  A resource without a record: when its pause flag is exactly ["true"] it
    was paused by someone else and the evaluation does nothing at all,
    whatever its deletion timestamp and its conditions are; with any other
    value of the flag the evaluation is that of a resource that was never
    paused. *)
Theorem resource_paused_by_others (r : Reconciler) (obj : object) (w : World) :
  record_annotation obj = None ->
  (pause_flag obj = "true"%string -> Reconcile r (Got obj) w = (Ok noResult, w))
  /\ (pause_flag obj <> "true"%string ->
      Reconcile r (Got obj) w = reconcileUnpaused r obj newPauseInfo w).
Proof.
  intros Hrec.
  assert (Hparse : parsePauseInfo obj = Ok None).
  { unfold parsePauseInfo. unfold record_annotation in Hrec. by rewrite Hrec. }
  split.
  - intros Hflag. unfold Reconcile. rewrite Hparse. fold (pause_flag obj).
    by rewrite Hflag.
  - intros Hflag. apply (Reconcile_unpaused r obj None w Hparse); [|done].
    intros _. destruct (isPaused (pause_flag obj)) eqn:Hp; [|done].
    by apply isPaused_true_iff in Hp.
Qed.

(** ** The result of an evaluation *)

Lemma Sub_positive (t u : Time) : u < t -> 0 < Sub t u <= maxDuration.
Proof. intros H. rewrite Sub_saturates by lia. unfold maxDuration. lia. Qed.

Lemma reconcileConditions_result r obj info w res :
  (reconcileConditions r obj info w).1 = Ok res -> res = noResult.
Proof.
  unfold reconcileConditions.
  destruct (getCondition obj TypeReady) as [c1| |]; try done.
  destruct (negb (isTrue c1)); [by intros [= <-]|].
  destruct (getCondition obj TypeSynced) as [c2| |]; try done.
  destruct (negb (isTrue c2)); [by intros [= <-]|].
  destruct (ensurePause _ _ _ _) as [[[[] ?] ?] ?]; try done. by intros [= <-].
Qed.

Lemma reconcileUnpaused_result r obj info w res :
  (reconcileUnpaused r obj info w).1 = Ok res ->
  Requeue res = false /\ 0 <= RequeueAfter res <= maxDuration.
Proof.
  assert (Hno : Requeue noResult = false /\ 0 <= RequeueAfter noResult <= maxDuration)
    by (by cbn).
  unfold reconcileUnpaused. cbn [Now].
  destruct (LastUnPauseTime info) as [t0|].
  - destruct (FrozenTimeDuration r) as [frozen|]; [|done].
    unfold After. destruct (Z.ltb_spec (clock w) (Add t0 frozen)).
    + intros [= <-]. cbn. pose proof (Sub_positive _ _ H). lia.
    + by intros ->%reconcileConditions_result.
  - by intros ->%reconcileConditions_result.
Qed.

Lemma reconcilePaused_result r obj info w res :
  (reconcilePaused r obj info w).1 = Ok res ->
  Requeue res = false /\ 0 <= RequeueAfter res <= maxDuration.
Proof.
  assert (Hno : Requeue noResult = false /\ 0 <= RequeueAfter noResult <= maxDuration)
    by (by cbn).
  unfold reconcilePaused.
  destruct (isUpdated _ _) as [[]| |]; try done.
  - destruct (ensureUnPause _ _ _) as [[[[] ?] ?] ?]; try done. by intros [= <-].
  - destruct (UnPausePollInterval r) as [interval|]; [|by intros [= <-]].
    cbn [Now]. destruct (LastPauseTime info) as [tp|]; [|done].
    unfold Before.
    match goal with |- context [Z.ltb ?a ?b] => destruct (Z.ltb_spec a b) end.
    + intros [= <-]. cbn. pose proof (Sub_positive _ _ H). lia.
    + destruct (ensureUnPause _ _ _) as [[[[] ?] ?] ?]; try done. by intros [= <-].
Qed.

(** X9.  Whatever an evaluation returns without an error asks for a new run
    after a duration that is not negative and fits in a duration, and never
    sets the plain requeue flag. *)
Theorem requeue_is_a_duration (r : Reconciler) (got : fetched) (w : World) (res : Result) :
  (Reconcile r got w).1 = Ok res ->
  Requeue res = false /\ 0 <= RequeueAfter res <= maxDuration.
Proof.
  assert (Hno : Requeue noResult = false /\ 0 <= RequeueAfter noResult <= maxDuration)
    by (by cbn).
  unfold Reconcile. destruct got as [obj| |e]; [|by intros [= <-]|done].
  destruct (parsePauseInfo obj) as [oinfo| |]; try done.
  destruct (_ && _); [by intros [= <-]|].
  destruct (match GetDeletionTimestamp obj with Some _ => _ | None => _ end)
    as [[[[] obj'] info'] w']; try done.
  destruct (Pause _).
  - apply reconcilePaused_result.
  - apply reconcileUnpaused_result.
Qed.

(** ** Panics *)

Lemma Unmarshal_Condition_no_panic v msg : Unmarshal_Condition v <> Panic msg.
Proof.
  unfold Unmarshal_Condition, decode_struct.
  destruct (parse _) as [[]|]; try discriminate.
  by destruct (foldl _ _ _).
Qed.

Lemma findCondition_no_panic l ty msg : findCondition l ty <> Panic msg.
Proof.
  induction l as [|c l IH]; [done|]. cbn [findCondition].
  pose proof (Unmarshal_Condition_no_panic (Marshal_value c)) as H.
  destruct (Unmarshal_Condition (Marshal_value c)) as [res|e|m]; [|done|].
  - by destruct (String.eqb _ _).
  - by destruct (H m).
Qed.

Lemma getCondition_no_panic obj ty msg : getCondition obj ty <> Panic msg.
Proof.
  unfold getCondition. destruct (NestedSlice _ _); try done.
  apply findCondition_no_panic.
Qed.

Lemma ensurePause_no_panic obj oinfo interval w msg :
  positive_interval interval -> (ensurePause obj oinfo interval w).1.1.1 <> Panic msg.
Proof.
  intros Hi. rewrite ensurePause_default.
  destruct (Pause (default newPauseInfo oinfo)) eqn:Hp.
  - by rewrite ensurePause_paused.
  - rewrite (ensurePause_unpaused _ _ _ _ Hp Hi). cbn [fst]. unfold update_outcome.
    by destruct (hd false (failures w)).
Qed.

Lemma ensureUnPause_no_panic obj oinfo w msg :
  (ensureUnPause obj oinfo w).1.1.1 <> Panic msg.
Proof.
  destruct oinfo as [info|]; [|done]. destruct (Pause info) eqn:Hp.
  - rewrite ensureUnPause_paused by done. cbn [fst]. unfold update_outcome.
    by destruct (hd false (failures w)).
  - by rewrite ensureUnPause_unpaused.
Qed.

Lemma reconcileConditions_no_panic r obj info w msg :
  positive_interval (UnPausePollInterval r) ->
  (reconcileConditions r obj info w).1 <> Panic msg.
Proof.
  intros Hi. unfold reconcileConditions.
  pose proof (getCondition_no_panic obj TypeReady) as H1.
  destruct (getCondition obj TypeReady) as [c1| |m1]; [|done|by destruct (H1 m1)].
  destruct (negb (isTrue c1)); [done|].
  pose proof (getCondition_no_panic obj TypeSynced) as H2.
  destruct (getCondition obj TypeSynced) as [c2| |m2]; [|done|by destruct (H2 m2)].
  destruct (negb (isTrue c2)); [done|].
  pose proof (ensurePause_no_panic obj (Some info) (UnPausePollInterval r) w) as H3.
  destruct (ensurePause _ _ _ _) as [[[[| |m3] ?] ?] ?]; try done.
  cbn in H3. by destruct (H3 m3).
Qed.

Lemma reconcileUnpaused_no_panic r obj info w msg :
  positive_interval (UnPausePollInterval r) ->
  FrozenTimeDuration r <> None ->
  (reconcileUnpaused r obj info w).1 <> Panic msg.
Proof.
  intros Hi Hf. unfold reconcileUnpaused. cbn [Now].
  destruct (LastUnPauseTime info); [|by apply reconcileConditions_no_panic].
  destruct (FrozenTimeDuration r); [|done].
  destruct (After _ _); [done|]. by apply reconcileConditions_no_panic.
Qed.

Lemma reconcilePaused_no_panic r obj info w msg :
  Object info <> NilObject -> LastPauseTime info <> None ->
  (reconcilePaused r obj info w).1 <> Panic msg.
Proof.
  intros Hobj Ht. unfold reconcilePaused.
  destruct (deref obj (Object info)) as [snap|] eqn:Hd; [|by destruct (Object info)].
  pose proof (isUpdated_no_panic obj snap) as Hnp.
  pose proof (ensureUnPause_no_panic obj (Some info)) as Hun.
  destruct (isUpdated obj (Some snap)) as [[]| |m]; [| |done|by destruct (Hnp m)].
  - specialize (Hun w). destruct (ensureUnPause _ _ _) as [[[[| |m] ?] ?] ?]; try done.
    cbn in Hun. by destruct (Hun m).
  - destruct (UnPausePollInterval r); [|done]. cbn [Now].
    destruct (LastPauseTime info); [|done]. destruct (Before _ _); [done|].
    match goal with |- context [ensureUnPause ?o ?i ?w'] => specialize (Hun w') end.
    destruct (ensureUnPause _ _ _) as [[[[| |m] ?] ?] ?]; try done.
    cbn in Hun. by destruct (Hun m).
Qed.

(** X10.  Once [SetupWithManager] has run, an evaluation does not panic, provided
    the poll interval is absent or positive and the record of a resource that
    is paused and not deleted has its snapshot and the time of its last
    pause. *)
Theorem evaluation_does_not_panic (r : Reconciler) (got : fetched) (w : World) :
  positive_interval (UnPausePollInterval r) ->
  (forall obj info,
      got = Got obj -> GetDeletionTimestamp obj = None ->
      parsePauseInfo obj = Ok (Some info) -> record_is_whole info) ->
  forall msg, (Reconcile (SetupWithManager r) got w).1 <> Panic msg.
Proof.
  intros Hi Hwhole msg.
  set (r' := SetupWithManager r).
  assert (Hi' : positive_interval (UnPausePollInterval r')) by done.
  assert (Hf' : FrozenTimeDuration r' <> None).
  { subst r'. unfold SetupWithManager. cbn. by destruct (FrozenTimeDuration r). }
  destruct got as [obj| |e]; [|done|done].
  pose proof (parsePauseInfo_no_panic obj) as Hpp.
  destruct (parsePauseInfo obj) as [oinfo| |m] eqn:Hparse.
  - destruct oinfo as [info|].
    + rewrite (Reconcile_with_record _ _ _ _ Hparse).
      destruct (GetDeletionTimestamp obj) as [t|] eqn:Hdel.
      * pose proof (ensureUnPause_no_panic obj (Some info) w) as Hun.
        destruct (Pause info) eqn:Hp.
        -- rewrite ensureUnPause_paused in * by done. unfold update_outcome.
           destruct (hd false (failures w)); [done|].
           cbn [default from_option id unpaused_info Pause].
           by apply reconcileUnpaused_no_panic.
        -- rewrite ensureUnPause_unpaused by done. cbn [default from_option id].
           rewrite Hp. by apply reconcileUnpaused_no_panic.
      * cbn [default from_option id]. destruct (Pause info) eqn:Hp.
        -- destruct (Hwhole obj info eq_refl Hdel Hparse Hp).
           by apply reconcilePaused_no_panic.
        -- by apply reconcileUnpaused_no_panic.
    + unfold Reconcile. rewrite Hparse. destruct (_ && _); [done|].
      cbn [default from_option id].
      destruct (GetDeletionTimestamp obj).
      * rewrite ensureUnPause_unpaused by done. cbn [default from_option id newPauseInfo Pause].
        by apply reconcileUnpaused_no_panic.
      * cbn [newPauseInfo Pause]. by apply reconcileUnpaused_no_panic.
  - unfold Reconcile. by rewrite Hparse.
  - by destruct (Hpp m).
Qed.

(** ** The calls of an evaluation *)

Lemma sends_nothing (P : object -> Prop) w : sends_at_most_one P w w.
Proof. exists []. split; [apply extends_refl|]. split; [cbn; lia|constructor]. Qed.

Lemma sends_after_Now (P : object -> Prop) w w' :
  sends_at_most_one P (Now w).2 w' -> sends_at_most_one P w w'.
Proof. intros (l & H & ?). exists l. split; [|done]. exact H. Qed.

Lemma sends_Update (P : object -> Prop) obj w w1 :
  calls w1 = calls w -> P obj -> sends_at_most_one P w (Update obj w1).2.
Proof.
  intros Hc HP. eexists. split; [|split].
  - unfold extends. rewrite Update_calls, Hc. reflexivity.
  - cbn. lia.
  - by repeat constructor.
Qed.

Lemma ensureUnPause_sends (P : object -> Prop) obj oinfo w :
  (forall info now, P (unpaused_object obj info now)) ->
  sends_at_most_one P w (ensureUnPause obj oinfo w).2.
Proof.
  intros HP. destruct oinfo as [info|]; [|apply sends_nothing].
  destruct (Pause info) eqn:Hp.
  - rewrite ensureUnPause_paused by done. cbn [snd]. by apply sends_Update.
  - rewrite ensureUnPause_unpaused by done. apply sends_nothing.
Qed.

Lemma ensurePause_sends (P : object -> Prop) obj oinfo interval w :
  (forall info now schedule, P (paused_object obj info now schedule)) ->
  sends_at_most_one P w (ensurePause obj oinfo interval w).2.
Proof.
  intros HP. rewrite ensurePause_default.
  destruct (Pause (default newPauseInfo oinfo)) eqn:Hp.
  { rewrite ensurePause_paused by done. apply sends_nothing. }
  destruct interval as [i|].
  - destruct (Z.ltb_spec 0 i) as [Hi|Hi].
    + rewrite (ensurePause_unpaused _ _ (Some i) _ Hp Hi). cbn [snd].
      apply sends_Update; [|done]. by rewrite Int63n_calls.
    + unfold ensurePause. cbn [from_option id]. cbv zeta. rewrite Hp.
      cbn [Now]. unfold Int63n. cbn [clock].
      destruct (Z.leb_spec i 0); [|lia]. cbn [snd].
      apply sends_after_Now, sends_nothing.
  - rewrite (ensurePause_unpaused _ _ None _ Hp I). cbn [snd].
    by apply sends_Update.
Qed.

Lemma reconcileConditions_sends (P : object -> Prop) r obj info w :
  (forall info now schedule, P (paused_object obj info now schedule)) ->
  sends_at_most_one P w (reconcileConditions r obj info w).2.
Proof.
  intros HP. unfold reconcileConditions.
  destruct (getCondition obj TypeReady) as [c1| |]; try apply sends_nothing.
  destruct (negb (isTrue c1)); [apply sends_nothing|].
  destruct (getCondition obj TypeSynced) as [c2| |]; try apply sends_nothing.
  destruct (negb (isTrue c2)); [apply sends_nothing|].
  pose proof (ensurePause_sends P obj (Some info) (UnPausePollInterval r) w HP) as H.
  by destruct (ensurePause _ _ _ _) as [[[[] ?] ?] ?].
Qed.

Lemma reconcileUnpaused_sends (P : object -> Prop) r obj info w :
  (forall info now schedule, P (paused_object obj info now schedule)) ->
  sends_at_most_one P w (reconcileUnpaused r obj info w).2.
Proof.
  intros HP. unfold reconcileUnpaused.
  change (let '(now, w0) := Now w in _) with
    (match LastUnPauseTime info with
     | None => reconcileConditions r obj info (Now w).2
     | Some lastUnPauseTime =>
         match FrozenTimeDuration r with
         | None => (Panic "nil pointer dereference", (Now w).2)
         | Some frozen =>
             if After (Add lastUnPauseTime frozen) (Now w).1
             then (Ok {| Requeue := false;
                         RequeueAfter := Sub (Add lastUnPauseTime frozen) (Now w).1 |},
                   (Now w).2)
             else reconcileConditions r obj info (Now w).2
         end
     end).
  apply sends_after_Now.
  destruct (LastUnPauseTime info); [|by apply reconcileConditions_sends].
  destruct (FrozenTimeDuration r); [|apply sends_nothing].
  destruct (After _ _); [apply sends_nothing|by apply reconcileConditions_sends].
Qed.

Lemma reconcilePaused_sends (P : object -> Prop) r obj info w :
  (forall info now, P (unpaused_object obj info now)) ->
  sends_at_most_one P w (reconcilePaused r obj info w).2.
Proof.
  intros HP. unfold reconcilePaused.
  destruct (isUpdated _ _) as [[]| |]; try apply sends_nothing.
  - pose proof (ensureUnPause_sends P obj (Some info) w HP) as H.
    by destruct (ensureUnPause _ _ _) as [[[[] ?] ?] ?].
  - destruct (UnPausePollInterval r); [|apply sends_nothing].
    cbn [Now]. apply sends_after_Now. cbn [Now snd].
    destruct (LastPauseTime info); [|apply sends_nothing].
    destruct (Before _ _); [apply sends_nothing|].
    match goal with |- context [ensureUnPause _ _ ?w'] =>
      pose proof (ensureUnPause_sends P obj (Some info) w' HP) as H end.
    by destruct (ensureUnPause _ _ _) as [[[[] ?] ?] ?].
Qed.

(** The calls of one evaluation: one at most, or two when the resource has a
    deletion timestamp; each object sent is an unpause or a pause of the
    resource, or a pause of the resource once unpaused. *)
Lemma Reconcile_sends (P : object -> Prop) r obj w :
  (forall info now, P (unpaused_object obj info now)) ->
  (forall info now schedule, P (paused_object obj info now schedule)) ->
  (forall info0 now0 info now schedule,
      P (paused_object (unpaused_object obj info0 now0) info now schedule)) ->
  exists l, extends w (Reconcile r (Got obj) w).2 l
            /\ (length l <= 2)%nat
            /\ (GetDeletionTimestamp obj = None -> (length l <= 1)%nat)
            /\ Forall (fun c => P (fst c)) l.
Proof.
  intros Hu Hp Hup.
  assert (Hone : forall w', sends_at_most_one P w w' ->
            exists l, extends w w' l /\ (length l <= 2)%nat
                      /\ (GetDeletionTimestamp obj = None -> (length l <= 1)%nat)
                      /\ Forall (fun c => P (fst c)) l).
  { intros w' (l & ? & ? & ?). exists l. repeat split; auto. }
  unfold Reconcile.
  destruct (parsePauseInfo obj) as [oinfo| |]; try apply Hone, sends_nothing.
  destruct (_ && _); [apply Hone, sends_nothing|].
  set (info := default newPauseInfo oinfo).
  destruct (GetDeletionTimestamp obj) as [t|] eqn:Hdel.
  - destruct (Pause info) eqn:Hpi.
    + rewrite ensureUnPause_paused by done. unfold update_outcome.
      set (obj1 := unpaused_object obj info (clock w)).
      set (w1 := (Update obj1 (Now w).2).2).
      assert (H1 : extends w w1 [(obj1, negb (hd false (failures w)))]).
      { unfold extends. subst w1. by rewrite Update_calls. }
      destruct (hd false (failures w)) eqn:Hf.
      * exists [(obj1, false)]. cbn [snd]. repeat split; [done|cbn; lia|done|].
        repeat constructor. apply Hu.
      * cbn [default from_option id unpaused_info Pause].
        destruct (reconcileUnpaused_sends P r obj1
                    (unpaused_info info (clock w)) w1) as (l & H2 & Hl & HP).
        { intros. apply Hup. }
        exists ([(obj1, true)] ++ l). repeat split.
        -- by apply (extends_trans w w1).
        -- cbn. lia.
        -- done.
        -- constructor; [apply Hu|done].
    + rewrite ensureUnPause_unpaused by done. cbn [default from_option id]. rewrite Hpi.
      apply Hone. by apply reconcileUnpaused_sends.
  - cbn [default from_option id]. destruct (Pause info).
    + apply Hone. by apply reconcilePaused_sends.
    + apply Hone. by apply reconcileUnpaused_sends.
Qed.

(** X11.  An evaluation calls the client twice at most, and once at most for a
    resource without a deletion timestamp; the calls made before stay as they
    were. *)
Theorem evaluation_calls_the_client_at_most_twice (r : Reconciler) (got : fetched)
    (w : World) :
  exists l, extends w (Reconcile r got w).2 l
            /\ (length l <= 2)%nat
            /\ (forall obj, got = Got obj -> GetDeletionTimestamp obj = None ->
                            (length l <= 1)%nat).
Proof.
  destruct got as [obj| |e].
  - destruct (Reconcile_sends (fun _ => True) r obj w) as (l & H1 & H2 & H3 & _); try done.
    exists l. repeat split; [done..|]. by intros ? [= <-].
  - exists []. repeat split; [apply extends_refl|cbn; lia|cbn; lia].
  - exists []. repeat split; [apply extends_refl|cbn; lia|cbn; lia].
Qed.

Lemma SetAnnotations_metadata_ok u a :
  metadata_ok u = true -> metadata_ok (SetAnnotations u (Some a)) = true.
Proof. intros H. eapply GetAnnotations_metadata_ok. by apply Get_SetAnnotations. Qed.

Lemma unpaused_object_agreed obj info now :
  metadata_ok obj = true -> agreed (unpaused_object obj info now).
Proof.
  intros Hm. exists obj, (unpaused_info info now).
  unfold record_annotation, pause_flag, unpaused_object.
  rewrite Get_SetAnnotations by done. cbn [mbind option_bind].
  unfold unpaused_annotations. split.
  - apply lookup_insert_eq.
  - rewrite lookup_insert_ne by done. by rewrite lookup_delete_eq.
Qed.

Lemma paused_object_agreed obj info now schedule :
  metadata_ok obj = true -> agreed (paused_object obj info now schedule).
Proof.
  intros Hm. exists (pause_snapshot obj), (paused_info info now schedule).
  unfold record_annotation, pause_flag, paused_object.
  rewrite Get_SetAnnotations by by apply pause_snapshot_metadata_ok.
  cbn [mbind option_bind]. unfold paused_annotations. split.
  - apply lookup_insert_eq.
  - rewrite lookup_insert_ne by done. by rewrite lookup_insert_eq.
Qed.

(** X12.  In every object an evaluation sends to the client the pause flag and the
    record say the same: the flag is "true" exactly when the record says
    paused.  The metadata of the resource is a map, as the API server has
    it. *)
Theorem flag_and_record_agree_in_every_update (r : Reconciler) (obj : object) (w : World) :
  metadata_ok obj = true ->
  exists l, extends w (Reconcile r (Got obj) w).2 l
            /\ Forall (fun c => agreed (fst c)) l.
Proof.
  intros Hm.
  destruct (Reconcile_sends agreed r obj w) as (l & H1 & _ & _ & H2).
  - intros. by apply unpaused_object_agreed.
  - intros. by apply paused_object_agreed.
  - intros. apply paused_object_agreed. by apply SetAnnotations_metadata_ok.
  - by exists l.
Qed.

(* ================================================================== *)
(** * From one evaluation to the next *)
(* ================================================================== *)

(** ** The annotations as the accessors see them *)

Lemma GetAnnotations_Found (u : object) (a : gmap string string) :
  GetAnnotations u = Some a <->
  NestedMap u ["metadata"; "annotations"]%string = Found (VString <$> a).
Proof.
  unfold GetAnnotations, NestedStringMap.
  destruct (NestedMap u _) as [m| |]; [|done..].
  case_bool_decide as Hall; split.
  - intros [= <-]. f_equal. apply map_eq. intros k.
    rewrite lookup_fmap, lookup_omap.
    destruct (m !! k) as [v|] eqn:Hk; [|done].
    destruct (Hall k v Hk) as [s Hs]. cbn. rewrite Hs. cbn.
    destruct v; cbn in Hs; try done. by injection Hs as ->.
  - intros [= ->]. by rewrite omap_as_string_fmap.
  - done.
  - intros [= ->]. destruct Hall. apply all_strings_fmap.
Qed.

Lemma lookup_SetAnnotations (u : object) (a : gmap string string) (k : string) :
  k <> "metadata"%string -> SetAnnotations u (Some a) !! k = u !! k.
Proof.
  intros Hk. unfold SetAnnotations. cbn [setNestedFieldNoCopy].
  destruct (u !! "metadata"%string) as [[]|]; cbn; try done;
    by rewrite lookup_insert_ne.
Qed.

Lemma metadata_SetAnnotations (u : object) (a : gmap string string) (j : string)
    (rest : list string) :
  metadata_ok u = true -> j <> "annotations"%string ->
  NestedFieldNoCopy (VMap (SetAnnotations u (Some a))) ("metadata"%string :: j :: rest)
  = NestedFieldNoCopy (VMap u) ("metadata"%string :: j :: rest).
Proof.
  unfold metadata_ok, SetAnnotations. cbn [setNestedFieldNoCopy NestedFieldNoCopy].
  destruct (u !! "metadata"%string) as [[]|] eqn:Hm; try done; intros _ Hj; cbn;
    rewrite lookup_insert_eq; by rewrite lookup_insert_ne.
Qed.

Lemma metadata_RemoveNestedField (u : object) (k j : string) (rest : list string) :
  j <> "annotations"%string ->
  NestedFieldNoCopy (VMap (RemoveNestedField u ["metadata"; "annotations"; k]%string))
    ("metadata"%string :: j :: rest)
  = NestedFieldNoCopy (VMap u) ("metadata"%string :: j :: rest).
Proof.
  intros Hj. rewrite remove_annotation_cases. cbn [NestedFieldNoCopy].
  destruct (u !! "metadata"%string) as [[| | | | |meta]|] eqn:Hm; rewrite ?Hm; try done.
  destruct (meta !! "annotations"%string) as [[| | | | |a]|] eqn:Ha; rewrite ?Hm; try done.
  rewrite lookup_insert_eq. by rewrite lookup_insert_ne.
Qed.

Lemma GetDeletionTimestamp_paused_object obj info now schedule :
  metadata_ok obj = true ->
  GetDeletionTimestamp (paused_object obj info now schedule) = GetDeletionTimestamp obj.
Proof.
  intros Hm. unfold GetDeletionTimestamp, getNestedString, NestedString, paused_object.
  rewrite metadata_SetAnnotations by (done || by apply pause_snapshot_metadata_ok).
  unfold pause_snapshot. by rewrite metadata_RemoveNestedField.
Qed.

Lemma region_paused_object obj info now schedule (field : string) :
  field <> "metadata"%string ->
  NestedMap (paused_object obj info now schedule) [field] = NestedMap obj [field].
Proof.
  intros Hf. unfold NestedMap, paused_object, pause_snapshot. cbn [NestedFieldNoCopy].
  by rewrite lookup_SetAnnotations, remove_annotation_lookup.
Qed.

Lemma labels_paused_object obj info now schedule :
  metadata_ok obj = true ->
  NestedMap (paused_object obj info now schedule) ["metadata"; "labels"]%string
  = NestedMap obj ["metadata"; "labels"]%string.
Proof.
  intros Hm. unfold NestedMap, paused_object.
  rewrite metadata_SetAnnotations by (done || by apply pause_snapshot_metadata_ok).
  unfold pause_snapshot. by rewrite metadata_RemoveNestedField.
Qed.

Lemma GetAnnotations_pause_snapshot obj a :
  GetAnnotations obj = Some a ->
  GetAnnotations (pause_snapshot obj) = Some (delete AnnotationKeyPauseInfo a).
Proof.
  rewrite !GetAnnotations_Found. intros H. unfold pause_snapshot.
  by rewrite remove_annotation_region, H, fmap_delete.
Qed.

Lemma kind_of_pause_snapshot obj : kind_of (pause_snapshot obj) = kind_of obj.
Proof.
  unfold kind_of, getNestedString, NestedString, pause_snapshot. cbn [NestedFieldNoCopy].
  by rewrite !remove_annotation_lookup.
Qed.

(** ** The pause as the next evaluation sees it *)

Lemma isUpdated_no_drift (a b : object) :
  same_region a b ["spec"%string] ->
  NestedMap a ["metadata"; "annotations"]%string <> WrongType ->
  without_own (NestedMap a ["metadata"; "annotations"]%string)
  = without_own (NestedMap b ["metadata"; "annotations"]%string) ->
  same_region a b ["metadata"; "labels"]%string ->
  isUpdated a (Some b) = Ok false.
Proof.
  intros Hs Ha1 Ha2 Hl. unfold isUpdated.
  assert (H1 : checkFieldEqual (strip a) (strip b) ["spec"%string] = Ok true).
  { apply checkFieldEqual_true_iff. unfold same_region in *. by rewrite !strip_spec. }
  assert (H2 : checkFieldEqual (strip a) (strip b) ["metadata"; "annotations"]%string
               = Ok true).
  { apply checkFieldEqual_true_iff. unfold same_region. rewrite !strip_annotations.
    split; [|done]. by destruct (NestedMap a ["metadata"; "annotations"]%string). }
  assert (H3 : checkFieldEqual (strip a) (strip b) ["metadata"; "labels"]%string = Ok true).
  { apply checkFieldEqual_true_iff. unfold same_region in *. by rewrite !strip_labels. }
  by rewrite H1, H2, H3.
Qed.

Lemma paused_object_no_drift obj info now schedule a :
  GetAnnotations obj = Some a ->
  NestedMap obj ["spec"%string] <> WrongType ->
  NestedMap obj ["metadata"; "labels"]%string <> WrongType ->
  isUpdated (paused_object obj info now schedule) (Some (pause_snapshot obj)) = Ok false.
Proof.
  intros Ha Hs Hl.
  assert (Hm : metadata_ok obj = true) by by eapply GetAnnotations_metadata_ok.
  assert (Hsnap := GetAnnotations_pause_snapshot obj a Ha).
  assert (Hsent : GetAnnotations (paused_object obj info now schedule)
                  = Some (paused_annotations obj info now schedule)).
  { apply Get_SetAnnotations. by apply pause_snapshot_metadata_ok. }
  apply GetAnnotations_Found in Hsent. pose proof Hsnap as Hsnap'.
  apply GetAnnotations_Found in Hsnap'.
  apply isUpdated_no_drift.
  - unfold same_region. rewrite region_paused_object by done. split; [done|].
    unfold NestedMap, pause_snapshot. cbn [NestedFieldNoCopy].
    by rewrite remove_annotation_lookup.
  - by rewrite Hsent.
  - rewrite Hsent, Hsnap'. cbn [without_own]. f_equal.
    unfold paused_annotations. rewrite Hsnap. cbn [from_option id].
    rewrite <- !fmap_delete. f_equal. apply map_eq. intros k.
    destruct (decide (k = AnnotationKeyPauseInfo)) as [->|Hk1].
    { by rewrite !lookup_delete_eq. }
    rewrite !(lookup_delete_ne _ AnnotationKeyPauseInfo) by done.
    destruct (decide (k = AnnotationKeyReconciliationPaused)) as [->|Hk2].
    { by rewrite !lookup_delete_eq. }
    rewrite !(lookup_delete_ne _ AnnotationKeyReconciliationPaused) by done.
    rewrite !lookup_insert_ne by done. by rewrite lookup_delete_ne.
  - unfold same_region. rewrite labels_paused_object by done. split; [done|].
    unfold pause_snapshot. by rewrite remove_annotation_labels.
Qed.

Lemma stored_time_readable (t : Time) :
  readable t -> stored_time t = Some (whole_seconds t).
Proof.
  intros [_ Hz]. unfold stored_time, IsZero. by destruct (Z.eqb_spec t zeroTime).
Qed.

Lemma parsePauseInfo_record (u snap : object) (record : PauseInfo) :
  record_annotation u = Some (Marshal_PauseInfo snap record) ->
  encodable snap record ->
  parsePauseInfo u = Ok (Some (stored snap record)).
Proof.
  intros Hrec Henc. unfold parsePauseInfo. unfold record_annotation in Hrec.
  by rewrite Hrec, Unmarshal_Marshal.
Qed.

Lemma record_annotation_paused_object obj info now schedule :
  metadata_ok obj = true ->
  record_annotation (paused_object obj info now schedule)
  = Some (Marshal_PauseInfo (pause_snapshot obj) (paused_info info now schedule)).
Proof.
  intros Hm. unfold record_annotation, paused_object.
  rewrite Get_SetAnnotations by by apply pause_snapshot_metadata_ok.
  apply lookup_insert_eq.
Qed.

Lemma record_annotation_unpaused_object obj info now :
  metadata_ok obj = true ->
  record_annotation (unpaused_object obj info now)
  = Some (Marshal_PauseInfo obj (unpaused_info info now)).
Proof.
  intros Hm. unfold record_annotation, unpaused_object.
  rewrite Get_SetAnnotations by done. apply lookup_insert_eq.
Qed.

(** X13.  What a pause writes is what the next evaluation reads: the record says
    paused, its snapshot is the resource as it was without its record
    annotation, and its times are those of the pause cut to the second.  The
    resource has a kind, and the times have years of four digits. *)
Theorem written_pause_is_read_back
    (obj : object) (info : PauseInfo) (interval : option Duration) (w : World) :
  Pause info = false ->
  positive_interval interval ->
  metadata_ok obj = true ->
  kind_of obj <> EmptyString ->
  year_has_four_digits (Some (clock w)) ->
  year_has_four_digits (LastUnPauseTime info) ->
  year_has_four_digits (stored_schedule info (clock w) interval) ->
  parsePauseInfo (ensurePause obj (Some info) interval w).1.1.2
  = Ok (Some {| Pause := true;
                Object := Snapshot (pause_snapshot obj);
                LastPauseTime := stored_time (clock w);
                LastUnPauseTime := LastUnPauseTime info ≫= stored_time;
                ShouldUnpauseTime :=
                  stored_schedule info (clock w) interval ≫= stored_time |}).
Proof.
  intros Hp Hi Hm Hk H1 H2 H3.
  rewrite (ensurePause_unpaused _ _ _ _ Hp Hi). cbn [fst snd].
  rewrite (parsePauseInfo_record _ (pause_snapshot obj)
             (paused_info info (clock w) (stored_schedule info (clock w) interval))).
  - reflexivity.
  - by apply record_annotation_paused_object.
  - split; [|by split; [|split]]. unfold has_kind. cbn [deref paused_info Object].
    by rewrite kind_of_pause_snapshot.
Qed.

(** X14.  What an unpause writes is what the next evaluation reads: the record says
    not paused, has no snapshot and no schedule, and the time of the unpause
    cut to the second. *)
Theorem written_unpause_is_read_back (obj : object) (info : PauseInfo) (w : World) :
  Pause info = true ->
  metadata_ok obj = true ->
  year_has_four_digits (Some (clock w)) ->
  year_has_four_digits (LastPauseTime info) ->
  parsePauseInfo (ensureUnPause obj (Some info) w).1.1.2
  = Ok (Some {| Pause := false;
                Object := NilObject;
                LastPauseTime := LastPauseTime info ≫= stored_time;
                LastUnPauseTime := stored_time (clock w);
                ShouldUnpauseTime := None |}).
Proof.
  intros Hp Hm H1 H2. rewrite ensureUnPause_paused by done. cbn [fst snd].
  rewrite (parsePauseInfo_record _ obj (unpaused_info info (clock w))).
  - reflexivity.
  - by apply record_annotation_unpaused_object.
  - by split; [|split; [|split]].
Qed.

(** X15.  The pause holds at the next evaluation.  A resource with annotations is
    paused under a poll interval; when the object that was sent comes back
    unchanged before the schedule, which is the time of the pause plus the
    interval cut to the second, nothing is sent and a new run is asked for at
    the schedule. *)
Theorem pause_holds_at_the_next_evaluation
    (r : Reconciler) (obj : object) (info : PauseInfo) (a : gmap string string)
    (i : Duration) (w w' : World) :
  Pause info = false ->
  UnPausePollInterval r = Some i -> 0 < i ->
  GetAnnotations obj = Some a ->
  GetDeletionTimestamp obj = None ->
  kind_of obj <> EmptyString ->
  NestedMap obj ["spec"%string] <> WrongType ->
  NestedMap obj ["metadata"; "labels"]%string <> WrongType ->
  readable (clock w) -> readable (clock w + i) ->
  year_has_four_digits (LastUnPauseTime info) ->
  clock w' < whole_seconds (clock w + i) ->
  Reconcile r (Got (ensurePause obj (Some info) (Some i) w).1.1.2) w'
  = (Ok {| Requeue := false;
           RequeueAfter := Sub (whole_seconds (clock w + i)) (clock w') |},
     (Now w').2).
Proof.
  intros Hp Hr Hi Ha Hdel Hk Hs Hl [H1 Hz1] [H2 Hz2] H3 Hlt.
  assert (Hm : metadata_ok obj = true) by by eapply GetAnnotations_metadata_ok.
  rewrite (ensurePause_unpaused _ _ (Some i) _ Hp Hi). cbn [fst snd stored_schedule].
  set (obj1 := paused_object _ _ _ _).
  assert (Hparse : parsePauseInfo obj1
                   = Ok (Some (stored (pause_snapshot obj)
                                 (paused_info info (clock w) (Some (Add (clock w) i)))))).
  { eapply parsePauseInfo_record; [by apply record_annotation_paused_object|].
    split; [|by split; [|split]]. unfold has_kind. cbn [deref paused_info Object].
    by rewrite kind_of_pause_snapshot. }
  rewrite (Reconcile_with_record _ _ _ _ Hparse).
  subst obj1. rewrite GetDeletionTimestamp_paused_object, Hdel by done.
  cbn [default from_option id stored Pause paused_info]. unfold reconcilePaused.
  cbn [stored Object LastPauseTime ShouldUnpauseTime deref paused_info mbind option_bind].
  rewrite (paused_object_no_drift _ _ _ _ a) by done.
  rewrite Hr. cbn [Now]. unfold Add. rewrite !stored_time_readable by done.
  unfold Before. by destruct (Z.ltb_spec (clock w') (whole_seconds (clock w + i))); [|lia].
Qed.

(** X16.  The unpause holds for the frozen window.  When the object that an
    unpause sent comes back before the end of the window, which starts at the
    time of the unpause cut to the second, nothing is sent and a new run is
    asked for at the end of the window, whatever else the resource says. *)
Theorem unpause_holds_for_the_frozen_window
    (r : Reconciler) (obj : object) (info : PauseInfo) (frozen : Duration)
    (w w' : World) :
  Pause info = true ->
  FrozenTimeDuration r = Some frozen ->
  metadata_ok obj = true ->
  readable (clock w) ->
  year_has_four_digits (LastPauseTime info) ->
  clock w' < whole_seconds (clock w) + frozen ->
  Reconcile r (Got (ensureUnPause obj (Some info) w).1.1.2) w'
  = (Ok {| Requeue := false;
           RequeueAfter := Sub (whole_seconds (clock w) + frozen) (clock w') |},
     (Now w').2).
Proof.
  intros Hp Hf Hm [H1 Hz] H2 Hlt.
  rewrite ensureUnPause_paused by done. cbn [fst snd].
  set (obj2 := unpaused_object _ _ _).
  assert (Hparse : parsePauseInfo obj2
                   = Ok (Some (stored obj (unpaused_info info (clock w))))).
  { eapply parsePauseInfo_record; [by apply record_annotation_unpaused_object|].
    by split; [|split; [|split]]. }
  rewrite (Reconcile_with_record _ _ _ _ Hparse).
  assert (Hstep : (match GetDeletionTimestamp obj2 with
                   | Some _ =>
                       ensureUnPause obj2
                         (Some (stored obj (unpaused_info info (clock w)))) w'
                   | None => (Ok tt, obj2,
                              Some (stored obj (unpaused_info info (clock w))), w')
                   end)
                  = (Ok tt, obj2, Some (stored obj (unpaused_info info (clock w))), w')).
  { destruct (GetDeletionTimestamp obj2); [|done]. by rewrite ensureUnPause_unpaused. }
  rewrite Hstep.
  cbn [default from_option id stored Pause unpaused_info]. unfold reconcileUnpaused.
  cbn [Now stored LastUnPauseTime unpaused_info mbind option_bind].
  rewrite stored_time_readable by done. rewrite Hf. unfold After, Add.
  by destruct (Z.ltb_spec (clock w') (whole_seconds (clock w) + frozen)); [|lia].
Qed.

(** ** What a transition leaves as it was *)

Lemma GetAnnotations_paused_object obj info now schedule a :
  GetAnnotations obj = Some a ->
  GetAnnotations (paused_object obj info now schedule)
  = Some (<[AnnotationKeyPauseInfo :=
              Marshal_PauseInfo (pause_snapshot obj) (paused_info info now schedule)]>
            (<[AnnotationKeyReconciliationPaused := "true"%string]> a)).
Proof.
  intros Ha. unfold paused_object.
  rewrite Get_SetAnnotations
    by (apply pause_snapshot_metadata_ok; by eapply GetAnnotations_metadata_ok).
  unfold paused_annotations. rewrite (GetAnnotations_pause_snapshot _ _ Ha).
  cbn [from_option id]. f_equal. apply map_eq. intros k.
  destruct (decide (k = AnnotationKeyPauseInfo)) as [->|Hk1].
  { by rewrite !lookup_insert_eq. }
  rewrite !(lookup_insert_ne _ AnnotationKeyPauseInfo) by done.
  destruct (decide (k = AnnotationKeyReconciliationPaused)) as [->|Hk2].
  { by rewrite !lookup_insert_eq. }
  rewrite !lookup_insert_ne by done. by rewrite lookup_delete_ne.
Qed.

(** X17.  A pause changes nothing of the resource but its two annotations: the
    fields other than the metadata, the fields of the metadata other than the
    annotations, and the annotations other than the pause flag and the record
    are sent as they were. *)
Theorem pause_touches_only_its_annotations
    (obj : object) (info : PauseInfo) (interval : option Duration) (w : World)
    (a : gmap string string) :
  Pause info = false ->
  positive_interval interval ->
  GetAnnotations obj = Some a ->
  let obj' := (ensurePause obj (Some info) interval w).1.1.2 in
  (forall k, k <> "metadata"%string -> obj' !! k = obj !! k)
  /\ (forall j, j <> "annotations"%string ->
                NestedFieldNoCopy (VMap obj') ["metadata"; j]%string
                = NestedFieldNoCopy (VMap obj) ["metadata"; j]%string)
  /\ (exists data,
        GetAnnotations obj'
        = Some (<[AnnotationKeyPauseInfo := data]>
                  (<[AnnotationKeyReconciliationPaused := "true"%string]> a))).
Proof.
  intros Hp Hi Ha obj'. subst obj'.
  assert (Hm : metadata_ok obj = true) by by eapply GetAnnotations_metadata_ok.
  rewrite (ensurePause_unpaused _ _ _ _ Hp Hi). cbn [fst snd].
  split; [|split].
  - intros k Hk. unfold paused_object, pause_snapshot.
    by rewrite lookup_SetAnnotations, remove_annotation_lookup.
  - intros j Hj. unfold paused_object.
    rewrite metadata_SetAnnotations by (done || by apply pause_snapshot_metadata_ok).
    unfold pause_snapshot. by rewrite metadata_RemoveNestedField.
  - eexists. by apply GetAnnotations_paused_object.
Qed.

(** X18.  An unpause changes nothing of the resource but its two annotations: the
    pause flag is taken away, the record is replaced, and everything else is
    sent as it was. *)
Theorem unpause_touches_only_its_annotations
    (obj : object) (info : PauseInfo) (w : World) (a : gmap string string) :
  Pause info = true ->
  GetAnnotations obj = Some a ->
  let obj' := (ensureUnPause obj (Some info) w).1.1.2 in
  (forall k, k <> "metadata"%string -> obj' !! k = obj !! k)
  /\ (forall j, j <> "annotations"%string ->
                NestedFieldNoCopy (VMap obj') ["metadata"; j]%string
                = NestedFieldNoCopy (VMap obj) ["metadata"; j]%string)
  /\ (exists data,
        GetAnnotations obj'
        = Some (<[AnnotationKeyPauseInfo := data]>
                  (delete AnnotationKeyReconciliationPaused a))).
Proof.
  intros Hp Ha obj'. subst obj'.
  assert (Hm : metadata_ok obj = true) by by eapply GetAnnotations_metadata_ok.
  rewrite ensureUnPause_paused by done. cbn [fst snd].
  split; [|split].
  - intros k Hk. unfold unpaused_object. by rewrite lookup_SetAnnotations.
  - intros j Hj. unfold unpaused_object. by rewrite metadata_SetAnnotations.
  - eexists. unfold unpaused_object. rewrite Get_SetAnnotations by done.
    unfold unpaused_annotations. by rewrite Ha.
Qed.

(** ** The conditions *)

Lemma findCondition_Some (l : list value) (ty : string) (res : Condition) :
  findCondition l ty = Ok (Some res) <->
  exists before c after,
    l = before ++ c :: after
    /\ Forall (fun v => exists other,
                 Unmarshal_Condition (Marshal_value v) = Ok other /\ Type_ other <> ty)
         before
    /\ Unmarshal_Condition (Marshal_value c) = Ok res
    /\ Type_ res = ty.
Proof.
  induction l as [|v l IH]; cbn [findCondition].
  - split; [done|]. intros (before & c & after & Hl & _). by destruct before.
  - destruct (Unmarshal_Condition (Marshal_value v)) as [r|e|m] eqn:Hv.
    + destruct (String.eqb_spec (Type_ r) ty) as [Hty|Hty].
      * split.
        -- intros [= <-]. exists [], v, l. by repeat split.
        -- intros (before & c & after & Hl & Hb & Hc & Hr).
           destruct before as [|v' before]; cbn in Hl; injection Hl as <- ->.
           ++ congruence.
           ++ apply Forall_cons in Hb as [(other & Ho & Hne) _]. congruence.
      * rewrite IH. split.
        -- intros (before & c & after & -> & Hb & Hc & Hr).
           exists (v :: before), c, after. repeat split; try done.
           constructor; [by exists r|done].
        -- intros (before & c & after & Hl & Hb & Hc & Hr).
           destruct before as [|v' before]; cbn in Hl; injection Hl as <- ->.
           ++ congruence.
           ++ apply Forall_cons in Hb as [_ Hb]. by exists before, c, after.
    + split; [done|]. intros (before & c & after & Hl & Hb & Hc & Hr).
      destruct before as [|v' before]; cbn in Hl; injection Hl as <- ->.
      * congruence.
      * apply Forall_cons in Hb as [(other & Ho & Hne) _]. congruence.
    + split; [done|]. intros (before & c & after & Hl & Hb & Hc & Hr).
      destruct before as [|v' before]; cbn in Hl; injection Hl as <- ->.
      * congruence.
      * apply Forall_cons in Hb as [(other & Ho & Hne) _]. congruence.
Qed.

(** X19.  The condition that is returned is the first one of the type, decoded:
    the conditions before it are decoded and have another type, the conditions
    after it are not looked at, so that one of them that cannot be decoded is
    no error. *)
Theorem first_condition_of_the_type_is_returned
    (obj : object) (ty : string) (res : Condition) :
  getCondition obj ty = Ok (Some res) <->
  exists before c after,
    NestedSlice obj ["status"; "conditions"]%string = Found (before ++ c :: after)
    /\ Forall (fun v => exists other,
                 Unmarshal_Condition (Marshal_value v) = Ok other /\ Type_ other <> ty)
         before
    /\ Unmarshal_Condition (Marshal_value c) = Ok res
    /\ Type_ res = ty.
Proof.
  unfold getCondition.
  destruct (NestedSlice obj ["status"; "conditions"]%string) as [l| |].
  - rewrite findCondition_Some. split.
    + intros (before & c & after & -> & H). by exists before, c, after.
    + intros (before & c & after & [= ->] & H). by exists before, c, after.
  - split; [done|]. by intros (? & ? & ? & ? & _).
  - split; [done|]. by intros (? & ? & ? & ? & _).
Qed.

Lemma findCondition_None (l : list value) (ty : string) :
  findCondition l ty = Ok None <->
  Forall (fun v => exists other,
            Unmarshal_Condition (Marshal_value v) = Ok other /\ Type_ other <> ty) l.
Proof.
  induction l as [|v l IH]; cbn [findCondition].
  - split; [constructor|done].
  - destruct (Unmarshal_Condition (Marshal_value v)) as [r|e|m] eqn:Hv.
    + destruct (String.eqb_spec (Type_ r) ty) as [Hty|Hty].
      * split; [done|]. intros [(other & Ho & Hne) _]%Forall_cons. congruence.
      * rewrite IH. split.
        -- intros H. constructor; [by exists r|done].
        -- by intros [_ H]%Forall_cons.
    + split; [done|]. intros [(other & Ho & Hne) _]%Forall_cons. congruence.
    + split; [done|]. intros [(other & Ho & Hne) _]%Forall_cons. congruence.
Qed.

(** X20.  No condition is returned, without an error, exactly when the resource has
    no list of conditions or every condition of the list is decoded and has
    another type. *)
Theorem no_condition_of_the_type (obj : object) (ty : string) :
  getCondition obj ty = Ok None <->
  NestedSlice obj ["status"; "conditions"]%string = NotFound
  \/ exists l,
       NestedSlice obj ["status"; "conditions"]%string = Found l
       /\ Forall (fun v => exists other,
                    Unmarshal_Condition (Marshal_value v) = Ok other /\ Type_ other <> ty)
            l.
Proof.
  unfold getCondition.
  destruct (NestedSlice obj ["status"; "conditions"]%string) as [l| |].
  - rewrite findCondition_None. split.
    + intros H. right. by exists l.
    + intros [|(l' & [= ->] & H)]; done.
  - split; [by left|done].
  - split; [done|]. intros [|(l' & ? & _)]; done.
Qed.

(** ** Rejected updates *)

Lemma answered_nothing {A : Type} (out : result A) w :
  exists l, extends w w l /\ answered out l.
Proof. exists []. split; [apply extends_refl|by left]. Qed.

Lemma answered_Update {A : Type} (out : result A) obj w w1 (a : A) (e : error) :
  calls w1 = calls w -> failures w1 = failures w ->
  out = (if hd false (failures w) then Err e else Ok a) ->
  exists l, extends w (Update obj w1).2 l /\ answered out l.
Proof.
  intros Hc Hf ->. eexists. split.
  - unfold extends. rewrite Update_calls, Hc, Hf. reflexivity.
  - destruct (hd false (failures w)); cbn [negb]; [right; right|right; left]; eauto.
Qed.

Lemma ensureUnPause_answered obj oinfo w :
  exists l, extends w (ensureUnPause obj oinfo w).2 l
            /\ answered (ensureUnPause obj oinfo w).1.1.1 l.
Proof.
  destruct oinfo as [info|]; [|apply answered_nothing].
  destruct (Pause info) eqn:Hp.
  - rewrite ensureUnPause_paused by done. cbn [fst snd].
    by eapply answered_Update.
  - rewrite ensureUnPause_unpaused by done. apply answered_nothing.
Qed.

Lemma ensurePause_answered obj oinfo interval w :
  exists l, extends w (ensurePause obj oinfo interval w).2 l
            /\ answered (ensurePause obj oinfo interval w).1.1.1 l.
Proof.
  rewrite ensurePause_default.
  destruct (Pause (default newPauseInfo oinfo)) eqn:Hp.
  { rewrite ensurePause_paused by done. apply answered_nothing. }
  destruct interval as [i|].
  - destruct (Z.ltb_spec 0 i) as [Hi|Hi].
    + rewrite (ensurePause_unpaused _ _ (Some i) _ Hp Hi). cbn [fst snd].
      eapply answered_Update;
        [by rewrite Int63n_calls|by rewrite Int63n_failures|reflexivity].
    + unfold ensurePause. cbn [from_option id]. cbv zeta. rewrite Hp.
      cbn [Now]. unfold Int63n. cbn [clock].
      destruct (Z.leb_spec i 0); [|lia]. cbn [fst snd].
      exists []. split; [|by left]. unfold extends. cbn. by rewrite app_nil_r.
  - rewrite (ensurePause_unpaused _ _ None _ Hp I). cbn [fst snd].
    by eapply answered_Update.
Qed.

Lemma answered_after {A B : Type} (res : result A) (out : result B) l :
  answered res l ->
  (forall a, res = Ok a -> exists b, out = Ok b) ->
  (forall e, res = Err e -> exists e', out = Err e') ->
  answered out l.
Proof.
  intros [->|[(o & a & -> & Hr)|(o & e & -> & Hr)]] Hok Herr.
  - by left.
  - right; left. destruct (Hok a Hr) as [b ->]. eauto.
  - right; right. destruct (Herr e Hr) as [e' ->]. eauto.
Qed.

Lemma reconcileConditions_answered r obj info w :
  exists l, extends w (reconcileConditions r obj info w).2 l
            /\ answered (reconcileConditions r obj info w).1 l.
Proof.
  unfold reconcileConditions.
  destruct (getCondition obj TypeReady) as [c1| |]; try apply answered_nothing.
  destruct (negb (isTrue c1)); [apply answered_nothing|].
  destruct (getCondition obj TypeSynced) as [c2| |]; try apply answered_nothing.
  destruct (negb (isTrue c2)); [apply answered_nothing|].
  destruct (ensurePause_answered obj (Some info) (UnPausePollInterval r) w)
    as (l & Hl & Ha).
  exists l. destruct (ensurePause _ _ _ _) as [[[res ?] ?] w']. cbn [fst snd] in *.
  destruct res; (split; [done|]); eapply answered_after; try exact Ha;
    intros; try discriminate; eauto.
Qed.

Lemma reconcileUnpaused_answered r obj info w :
  exists l, extends w (reconcileUnpaused r obj info w).2 l
            /\ answered (reconcileUnpaused r obj info w).1 l.
Proof.
  unfold reconcileUnpaused. cbn [Now].
  set (w1 := {| clock := _ |}).
  assert (Hw : forall w' l, extends w1 w' l -> extends w w' l) by (intros ??; done).
  assert (Hno : forall out : result Result, exists l, extends w w1 l /\ answered out l).
  { intros out. exists []. split; [by apply Hw, extends_refl|by left]. }
  destruct (LastUnPauseTime info).
  - destruct (FrozenTimeDuration r); [|apply Hno].
    destruct (After _ _); [apply Hno|].
    destruct (reconcileConditions_answered r obj info w1) as (l & Hl & Ha). eauto.
  - destruct (reconcileConditions_answered r obj info w1) as (l & Hl & Ha). eauto.
Qed.

Lemma reconcilePaused_answered r obj info w :
  exists l, extends w (reconcilePaused r obj info w).2 l
            /\ answered (reconcilePaused r obj info w).1 l.
Proof.
  unfold reconcilePaused.
  destruct (isUpdated _ _) as [[]| |]; try apply answered_nothing.
  - destruct (ensureUnPause_answered obj (Some info) w) as (l & Hl & Ha).
    exists l. destruct (ensureUnPause _ _ _) as [[[res ?] ?] w']. cbn [fst snd] in *.
    destruct res; (split; [done|]); eapply answered_after; try exact Ha;
      intros; try discriminate; eauto.
  - destruct (UnPausePollInterval r); [|apply answered_nothing].
    cbn [Now]. set (w1 := {| clock := _ |}).
    assert (Hw : forall w' l, extends w1 w' l -> extends w w' l) by (intros ??; done).
    assert (Hno : forall out : result Result, exists l, extends w w1 l /\ answered out l).
    { intros out. exists []. split; [by apply Hw, extends_refl|by left]. }
    destruct (LastPauseTime info); [|apply Hno].
    destruct (Before _ _); [apply Hno|].
    destruct (ensureUnPause_answered obj (Some info) w1) as (l & Hl & Ha).
    exists l. destruct (ensureUnPause _ _ _) as [[[res ?] ?] w']. cbn [fst snd] in *.
    destruct res; (split; [by apply Hw|]); eapply answered_after; try exact Ha;
      intros; try discriminate; eauto.
Qed.

Lemma Reconcile_answered r got w :
  exists l, extends w (Reconcile r got w).2 l
            /\ (answered (Reconcile r got w).1 l
                \/ exists o l', l = (o, true) :: l' /\ answered (Reconcile r got w).1 l').
Proof.
  assert (Hno : forall out : result Result,
            exists l, extends w w l
                      /\ (answered out l
                          \/ exists o l', l = (o, true) :: l' /\ answered out l')).
  { intros out. exists []. split; [apply extends_refl|by left; left]. }
  unfold Reconcile. destruct got as [obj| |e]; try apply Hno.
  destruct (parsePauseInfo obj) as [oinfo| |]; try apply Hno.
  destruct (_ && _); [apply Hno|].
  set (info := default newPauseInfo oinfo).
  assert (Hbranch : forall obj' info',
            exists l, extends w (if Pause info' then reconcilePaused r obj' info' w
                                 else reconcileUnpaused r obj' info' w).2 l
                      /\ (answered (if Pause info' then reconcilePaused r obj' info' w
                                    else reconcileUnpaused r obj' info' w).1 l
                          \/ exists o l', l = (o, true) :: l' /\
                               answered (if Pause info' then reconcilePaused r obj' info' w
                                         else reconcileUnpaused r obj' info' w).1 l')).
  { intros obj' info'. destruct (Pause info').
    - destruct (reconcilePaused_answered r obj' info' w) as (l & ? & ?). eauto.
    - destruct (reconcileUnpaused_answered r obj' info' w) as (l & ? & ?). eauto. }
  destruct (GetDeletionTimestamp obj) as [t|]; [|apply Hbranch].
  destruct (Pause info) eqn:Hpi.
  - rewrite ensureUnPause_paused by done. unfold update_outcome.
    set (obj1 := unpaused_object obj info (clock w)).
    set (w1 := (Update obj1 (Now w).2).2).
    assert (H1 : extends w w1 [(obj1, negb (hd false (failures w)))]).
    { unfold extends. subst w1. by rewrite Update_calls. }
    destruct (hd false (failures w)) eqn:Hf.
    + exists [(obj1, false)]. cbn [fst snd]. split; [done|]. left. right; right. eauto.
    + cbn [default from_option id unpaused_info Pause].
      destruct (reconcileUnpaused_answered r obj1 (unpaused_info info (clock w)) w1)
        as (l & H2 & Ha).
      exists ([(obj1, true)] ++ l). split; [by apply (extends_trans w w1)|].
      right. by exists obj1, l.
  - rewrite ensureUnPause_unpaused by done. apply Hbranch.
Qed.

(** X21.  An update that the server rejects is never passed over: the evaluation
    returns an error, and it makes no further call after the rejected one. *)
Theorem rejected_update_is_surfaced
    (r : Reconciler) (got : fetched) (w : World) (l : list (object * bool)) (o : object) :
  extends w (Reconcile r got w).2 l ->
  (o, false) ∈ l ->
  (exists e, (Reconcile r got w).1 = Err e) /\ last l = Some (o, false).
Proof.
  intros Hl Hin.
  destruct (Reconcile_answered r got w) as (l0 & Hl0 & H).
  assert (l = l0) as ->.
  { unfold extends in *. rewrite Hl in Hl0. by apply app_inv_head in Hl0. }
  assert (Hone : forall l', answered (Reconcile r got w).1 l' -> (o, false) ∈ l' ->
                 (exists e, (Reconcile r got w).1 = Err e) /\ l' = [(o, false)]).
  { intros l' [->|[(o' & a & -> & _)|(o' & e & -> & He)]] Hin'.
    - by apply elem_of_nil in Hin'.
    - apply list_elem_of_singleton in Hin'. congruence.
    - apply list_elem_of_singleton in Hin'. injection Hin' as ->. eauto. }
  destruct H as [H|(o1 & l' & -> & H)].
  - destruct (Hone _ H Hin) as [He ->]. done.
  - apply elem_of_cons in Hin as [Hin|Hin]; [congruence|].
    destruct (Hone _ H Hin) as [He ->]. done.
Qed.


(** ** The errors of an evaluation *)

Ltac names_step :=
  eexists _, _; split; [reflexivity|unfold steps; repeat first [by left|right]].

Lemma reconcileConditions_error r obj info w e :
  (reconcileConditions r obj info w).1 = Err e -> names_its_step e.
Proof.
  unfold reconcileConditions.
  destruct (getCondition obj TypeReady) as [c1| |]; try done;
    [|intros [= <-]; names_step].
  destruct (negb (isTrue c1)); [done|].
  destruct (getCondition obj TypeSynced) as [c2| |]; try done;
    [|intros [= <-]; names_step].
  destruct (negb (isTrue c2)); [done|].
  destruct (ensurePause _ _ _ _) as [[[[] ?] ?] ?]; try done.
  intros [= <-]. names_step.
Qed.

Lemma reconcileUnpaused_error r obj info w e :
  (reconcileUnpaused r obj info w).1 = Err e -> names_its_step e.
Proof.
  unfold reconcileUnpaused. cbn [Now].
  destruct (LastUnPauseTime info); [|apply reconcileConditions_error].
  destruct (FrozenTimeDuration r); [|done].
  destruct (After _ _); [done|apply reconcileConditions_error].
Qed.

Lemma reconcilePaused_error r obj info w e :
  (reconcilePaused r obj info w).1 = Err e -> names_its_step e.
Proof.
  unfold reconcilePaused.
  destruct (isUpdated _ _) as [[]| |]; try done.
  - destruct (ensureUnPause _ _ _) as [[[[] ?] ?] ?]; try done.
    intros [= <-]. names_step.
  - destruct (UnPausePollInterval r); [|done]. cbn [Now].
    destruct (LastPauseTime info); [|done]. destruct (Before _ _); [done|].
    destruct (ensureUnPause _ _ _) as [[[[] ?] ?] ?]; try done.
    intros [= <-]. names_step.
  - intros [= <-]. names_step.
Qed.

(** X22.  Every error of an evaluation is wrapped with the name of the step that
    failed: reading the object, reading the record, the drift check, one of
    the two conditions, the pause or the unpause. *)
Theorem every_error_names_its_step (r : Reconciler) (got : fetched) (w : World)
    (e : error) :
  (Reconcile r got w).1 = Err e -> names_its_step e.
Proof.
  unfold Reconcile. destruct got as [obj| |e0]; [|done|intros [= <-]; names_step].
  destruct (parsePauseInfo obj) as [oinfo| |]; [|intros [= <-]; names_step|done].
  destruct (_ && _); [done|].
  destruct (match GetDeletionTimestamp obj with Some _ => _ | None => _ end)
    as [[[[] obj'] info'] w']; [|intros [= <-]; names_step|done].
  destruct (Pause _).
  - apply reconcilePaused_error.
  - apply reconcileUnpaused_error.
Qed.

(** ** The errors of the drift check *)

Lemma checkFieldEqual_error (a b : object) (fields : list string) (e : error) :
  checkFieldEqual a b fields = Err e <->
  e = Leaf "accessor error"
  /\ (NestedMap a fields = WrongType \/ NestedMap b fields = WrongType).
Proof.
  unfold checkFieldEqual.
  destruct (NestedMap a fields), (NestedMap b fields); split;
    try done; try (intros [= <-]; auto); try (intros [_ [|]]; done);
    try (by intros [-> _]).
Qed.

Lemma strip_region (u : object) (fields : list string) :
  fields ∈ regions ->
  NestedMap (strip u) fields = WrongType <-> NestedMap u fields = WrongType.
Proof.
  unfold regions. rewrite !elem_of_cons, elem_of_nil.
  intros [->|[->|[->|[]]]].
  - by rewrite strip_spec.
  - rewrite strip_annotations.
    by destruct (NestedMap u ["metadata"; "annotations"]%string).
  - by rewrite strip_labels.
Qed.

(** X23.  The drift check fails only with the error of the accessor, and only
    when one of the three regions, in one of the two objects, is there and is
    not a map; when all of them are maps or missing it gives an answer. *)
Theorem drift_check_fails_only_on_a_malformed_region (a b : object) :
  (forall e, isUpdated a (Some b) = Err e ->
             e = Leaf "accessor error"
             /\ exists fields, fields ∈ regions
                 /\ (NestedMap a fields = WrongType \/ NestedMap b fields = WrongType))
  /\ ((forall fields, fields ∈ regions ->
                      NestedMap a fields <> WrongType /\ NestedMap b fields <> WrongType) ->
      exists drift, isUpdated a (Some b) = Ok drift).
Proof.
  assert (Hfail : forall fields e,
            fields ∈ regions -> checkFieldEqual (strip a) (strip b) fields = Err e ->
            e = Leaf "accessor error"
            /\ exists fields, fields ∈ regions
                /\ (NestedMap a fields = WrongType \/ NestedMap b fields = WrongType)).
  { intros fields e Hin [-> H]%checkFieldEqual_error. split; [done|].
    exists fields. split; [done|]. by rewrite !strip_region in H. }
  assert (Hspec : ["spec"%string] ∈ regions) by (unfold regions; by left).
  assert (Hann : ["metadata"; "annotations"]%string ∈ regions)
    by (unfold regions; right; by left).
  assert (Hlab : ["metadata"; "labels"]%string ∈ regions)
    by (unfold regions; right; right; by left).
  split.
  - intros e. unfold isUpdated.
    destruct (checkFieldEqual (strip a) (strip b) ["spec"%string])
      as [[]|e1|] eqn:H1; try done; [|intros [= <-]; exact (Hfail _ _ Hspec H1)].
    destruct (checkFieldEqual (strip a) (strip b) ["metadata"; "annotations"]%string)
      as [[]|e2|] eqn:H2; try done; [|intros [= <-]; exact (Hfail _ _ Hann H2)].
    destruct (checkFieldEqual (strip a) (strip b) ["metadata"; "labels"]%string)
      as [[]|e3|] eqn:H3; try done. intros [= <-]. exact (Hfail _ _ Hlab H3).
  - intros Hok.
    assert (Hno : forall fields, fields ∈ regions ->
              exists d, checkFieldEqual (strip a) (strip b) fields = Ok d).
    { intros fields Hin. destruct (Hok fields Hin) as [Ha Hb].
      destruct (checkFieldEqual_outcomes (strip a) (strip b) fields) as [H|[H|H]];
        eauto.
      apply checkFieldEqual_error in H as [_ H]. rewrite !strip_region in H by done.
      by destruct H. }
    unfold isUpdated.
    destruct (Hno _ Hspec) as [[] ->]; [|by eexists].
    destruct (Hno _ Hann) as [[] ->]; [|by eexists].
    destruct (Hno _ Hlab) as [[] ->]; by eexists.
Qed.

(** ** Transitions made twice *)

(** X24.  A transition that is made again on what it gave does nothing: the
    object, the record and the world stay as the first one left them, and no
    call is made. *)
Theorem transition_made_again_does_nothing
    (obj : object) (oinfo : option PauseInfo) (interval : option Duration) (w : World) :
  (let '(_, obj', info', w') := ensureUnPause obj oinfo w in
   ensureUnPause obj' info' w' = (Ok tt, obj', info', w'))
  /\ (let '(_, obj', info', w') := ensurePause obj oinfo interval w in
      ensurePause obj' (Some info') interval w' = (Ok tt, obj', info', w')).
Proof.
  split.
  - destruct oinfo as [info|]; [|done]. destruct (Pause info) eqn:Hp.
    + rewrite ensureUnPause_paused by done. by rewrite ensureUnPause_unpaused.
    + rewrite ensureUnPause_unpaused by done. by rewrite ensureUnPause_unpaused.
  - rewrite ensurePause_default.
    destruct (Pause (default newPauseInfo oinfo)) eqn:Hp.
    + rewrite ensurePause_paused by done. by rewrite ensurePause_paused.
    + destruct interval as [i|].
      * destruct (Z.ltb_spec 0 i) as [Hi|Hi].
        -- rewrite (ensurePause_unpaused _ _ (Some i) _ Hp Hi).
           by rewrite ensurePause_paused.
        -- unfold ensurePause at 1. cbn [from_option id]. cbv zeta. rewrite Hp.
           cbn [Now]. unfold Int63n. cbn [clock].
           destruct (Z.leb_spec i 0); [|lia]. by rewrite ensurePause_paused.
      * rewrite (ensurePause_unpaused _ _ None _ Hp I). by rewrite ensurePause_paused.
Qed.

(** ** A pause and the unpause that follows *)

(** X25.  A pause followed by an unpause gives the resource back as far as the
    drift check can tell: the object that the unpause sends shows no drift
    from the resource as it was before the pause.  The resource has
    annotations. *)
Theorem pause_and_unpause_give_the_resource_back
    (obj : object) (info : PauseInfo) (interval : option Duration) (w : World)
    (a : gmap string string) :
  Pause info = false ->
  positive_interval interval ->
  GetAnnotations obj = Some a ->
  NestedMap obj ["spec"%string] <> WrongType ->
  NestedMap obj ["metadata"; "labels"]%string <> WrongType ->
  let '(_, obj1, info1, w1) := ensurePause obj (Some info) interval w in
  let obj2 := (ensureUnPause obj1 (Some info1) w1).1.1.2 in
  isUpdated obj2 (Some obj) = Ok false
  /\ pause_flag obj2 = EmptyString.
Proof.
  intros Hp Hi Ha Hs Hl.
  assert (Hm : metadata_ok obj = true) by by eapply GetAnnotations_metadata_ok.
  rewrite (ensurePause_unpaused _ _ _ _ Hp Hi).
  set (now := clock w). set (schedule := stored_schedule info now interval).
  set (obj1 := paused_object obj info now schedule).
  rewrite ensureUnPause_paused by done. cbn [fst snd].
  set (now' := clock _). set (info1 := paused_info info now schedule).
  assert (Ha1 := GetAnnotations_paused_object obj info now schedule a Ha).
  fold obj1 in Ha1.
  assert (Hm1 : metadata_ok obj1 = true) by by eapply GetAnnotations_metadata_ok.
  assert (Ha2 : GetAnnotations (unpaused_object obj1 info1 now')
                = Some (unpaused_annotations obj1 info1 now'))
    by by apply Get_SetAnnotations.
  split.
  - apply isUpdated_no_drift.
    + unfold same_region, NestedMap, unpaused_object. cbn [NestedFieldNoCopy].
      rewrite lookup_SetAnnotations by done.
      pose proof (region_paused_object obj info now schedule "spec") as H.
      unfold NestedMap in H. cbn [NestedFieldNoCopy] in H. fold obj1 in H.
      rewrite H by done. split; [|done]. exact Hs.
    + apply GetAnnotations_Found in Ha2. by rewrite Ha2.
    + apply GetAnnotations_Found in Ha2. rewrite Ha2.
      apply GetAnnotations_Found in Ha. rewrite Ha. cbn [without_own]. f_equal.
      rewrite <- !fmap_delete. f_equal. unfold unpaused_annotations. rewrite Ha1.
      cbn [from_option id]. apply map_eq. intros k.
      destruct (decide (k = AnnotationKeyPauseInfo)) as [->|Hk1].
      { by rewrite !lookup_delete_eq. }
      rewrite !(lookup_delete_ne _ AnnotationKeyPauseInfo) by done.
      destruct (decide (k = AnnotationKeyReconciliationPaused)) as [->|Hk2].
      { by rewrite !lookup_delete_eq. }
      rewrite !(lookup_delete_ne _ AnnotationKeyReconciliationPaused) by done.
      rewrite lookup_insert_ne by done.
      rewrite !(lookup_delete_ne _ AnnotationKeyReconciliationPaused) by done.
      by rewrite !lookup_insert_ne.
    + unfold same_region, NestedMap, unpaused_object.
      rewrite metadata_SetAnnotations by done.
      pose proof (labels_paused_object obj info now schedule Hm) as H.
      unfold NestedMap in H. fold obj1 in H. rewrite H. split; [|done]. exact Hl.
  - unfold pause_flag. rewrite Ha2. cbn [mbind option_bind]. unfold unpaused_annotations.
    rewrite lookup_insert_ne by done. by rewrite lookup_delete_eq.
Qed.

(** ** The unpause of a deleted resource *)

(** X26.  A deleted resource that is unpaused is not paused again by the same
    evaluation: when the update is accepted and the frozen window is longer
    than the time between two readings of the clock, the unpause is the only
    call and a new run is asked for at the end of the window. *)
Theorem deleted_resource_is_not_paused_again
    (r : Reconciler) (obj : object) (info : PauseInfo) (t : Time) (frozen : Duration)
    (w : World) :
  GetDeletionTimestamp obj = Some t ->
  parsePauseInfo obj = Ok (Some info) ->
  Pause info = true ->
  FrozenTimeDuration r = Some frozen ->
  hd 0 (ticks w) < frozen ->
  hd false (failures w) = false ->
  let out := Reconcile r (Got obj) w in
  calls out.2 = calls w ++ [(unpaused_object obj info (clock w), true)]
  /\ out.1 = Ok {| Requeue := false;
                   RequeueAfter := Sub (clock w + frozen) (clock w + hd 0 (ticks w)) |}.
Proof.
  intros Hdel Hparse Hp Hf Htick Hacc out. subst out.
  assert (Hwin : forall o w1,
            clock w1 < clock w + frozen ->
            reconcileUnpaused r o (unpaused_info info (clock w)) w1
            = (Ok {| Requeue := false;
                     RequeueAfter := Sub (clock w + frozen) (clock w1) |}, (Now w1).2)).
  { intros o w1 Hlt. unfold reconcileUnpaused.
    cbn [Now LastUnPauseTime unpaused_info snd]. rewrite Hf. unfold After, Add.
    by destruct (Z.ltb_spec (clock w1) (clock w + frozen)); [|lia]. }
  rewrite (Reconcile_with_record _ _ _ _ Hparse), Hdel.
  rewrite ensureUnPause_paused by done. unfold update_outcome. rewrite Hacc.
  cbn [default from_option id unpaused_info Pause].
  rewrite Hwin by (cbn; lia). cbn [fst snd]. split; [|reflexivity].
  by rewrite Now_calls, Update_calls, Now_calls, Now_failures, Hacc.
Qed.

(* ================================================================== *)
(** * The further properties on the resource of the tests *)
(* ================================================================== *)

Lemma spec_change_is_drift_witness :
  NestedMap (resized subnet) ["spec"%string] <> WrongType
  /\ NestedMap subnet ["spec"%string] <> WrongType
  /\ NestedMap (resized subnet) ["spec"%string] <> NestedMap subnet ["spec"%string]
  /\ isUpdated (resized subnet) (Some subnet) = Ok true.
Proof.
  assert (H1 : NestedMap (resized subnet) ["spec"%string] <> WrongType)
    by (vm_compute; discriminate).
  assert (H2 : NestedMap subnet ["spec"%string] <> WrongType)
    by (vm_compute; discriminate).
  assert (H3 : NestedMap (resized subnet) ["spec"%string]
               <> NestedMap subnet ["spec"%string]) by (vm_compute; discriminate).
  split; [exact H1|]. split; [exact H2|]. split; [exact H3|].
  exact (spec_change_is_drift (resized subnet) subnet H1 H2 H3).
Defined.

Lemma drifted_resource_is_unpaused_witness :
  GetDeletionTimestamp (resized paused_subnet) = None
  /\ parsePauseInfo (resized paused_subnet) = Ok (Some (paused_record (T0 + Hour)))
  /\ isUpdated (resized paused_subnet) (Some subnet) = Ok true
  /\ calls (Reconcile policy (Got (resized paused_subnet)) (world_at T1)).2
     = [(unpaused_object (resized paused_subnet) (paused_record (T0 + Hour)) T1, true)].
Proof.
  assert (H1 : GetDeletionTimestamp (resized paused_subnet) = None)
    by (vm_compute; reflexivity).
  assert (H2 : parsePauseInfo (resized paused_subnet)
               = Ok (Some (paused_record (T0 + Hour)))) by (vm_compute; reflexivity).
  assert (H3 : isUpdated (resized paused_subnet) (Some subnet) = Ok true)
    by (vm_compute; reflexivity).
  split; [exact H1|]. split; [exact H2|]. split; [exact H3|].
  destruct (drifted_resource_is_unpaused policy (resized paused_subnet) subnet
              (paused_record (T0 + Hour)) (world_at T1) H1 H2 eq_refl eq_refl H3)
    as (H & _).
  exact H.
Defined.

Lemma ready_resource_is_paused_witness :
  parsePauseInfo subnet = Ok None
  /\ isPaused (pause_flag subnet) = false
  /\ getCondition subnet TypeReady = Ok ready
  /\ getCondition subnet TypeSynced = Ok synced
  /\ calls (Reconcile policy (Got subnet) (world_at T1)).2
     = [(paused_object subnet newPauseInfo T1 (Some (T1 + Hour)), true)].
Proof.
  assert (H1 : parsePauseInfo subnet = Ok None) by (vm_compute; reflexivity).
  assert (H2 : isPaused (pause_flag subnet) = false) by (vm_compute; reflexivity).
  assert (H3 : getCondition subnet TypeReady = Ok ready) by (vm_compute; reflexivity).
  assert (H4 : getCondition subnet TypeSynced = Ok synced) by (vm_compute; reflexivity).
  split; [exact H1|]. split; [exact H2|]. split; [exact H3|]. split; [exact H4|].
  destruct (ready_resource_is_paused policy subnet None (world_at T1) ready synced
              H1 (fun _ => H2) eq_refl I H3 eq_refl H4 eq_refl eq_refl) as (H & _).
  exact H.
Defined.

Lemma unready_resource_is_left_alone_witness :
  parsePauseInfo (unready subnet) = Ok None
  /\ isPaused (pause_flag (unready subnet)) = false
  /\ getCondition (unready subnet) TypeReady = Ok not_ready
  /\ isTrue not_ready = false
  /\ Reconcile policy (Got (unready subnet)) (world_at T1)
     = (Ok noResult, (Now (world_at T1)).2).
Proof.
  assert (H1 : parsePauseInfo (unready subnet) = Ok None) by (vm_compute; reflexivity).
  assert (H2 : isPaused (pause_flag (unready subnet)) = false)
    by (vm_compute; reflexivity).
  assert (H3 : getCondition (unready subnet) TypeReady = Ok not_ready)
    by (vm_compute; reflexivity).
  split; [exact H1|]. split; [exact H2|]. split; [exact H3|]. split; [reflexivity|].
  exact (unready_resource_is_left_alone policy (unready subnet) None (world_at T1)
           not_ready H1 (fun _ => H2) eq_refl I H3 (or_introl eq_refl)).
Defined.

Lemma resource_paused_by_others_witness :
  record_annotation flagged_true = None
  /\ pause_flag flagged_true = "true"%string
  /\ Reconcile policy (Got flagged_true) (world_at T1) = (Ok noResult, world_at T1).
Proof.
  assert (H1 : record_annotation flagged_true = None) by (vm_compute; reflexivity).
  assert (H2 : pause_flag flagged_true = "true"%string) by (vm_compute; reflexivity).
  split; [exact H1|]. split; [exact H2|].
  destruct (resource_paused_by_others policy flagged_true (world_at T1) H1) as (H & _).
  exact (H H2).
Defined.

Lemma requeue_is_a_duration_witness :
  (Reconcile policy (Got paused_subnet) (world_at (T0 + 30 * Minute))).1
  = Ok {| Requeue := false; RequeueAfter := 30 * Minute |}
  /\ 0 <= 30 * Minute <= maxDuration.
Proof.
  assert (H1 : (Reconcile policy (Got paused_subnet) (world_at (T0 + 30 * Minute))).1
               = Ok {| Requeue := false; RequeueAfter := 30 * Minute |})
    by (vm_compute; reflexivity).
  split; [exact H1|].
  destruct (requeue_is_a_duration policy (Got paused_subnet)
              (world_at (T0 + 30 * Minute)) _ H1) as (_ & H).
  exact H.
Defined.

Lemma evaluation_does_not_panic_witness :
  positive_interval (UnPausePollInterval policy)
  /\ parsePauseInfo paused_subnet = Ok (Some (paused_record (T0 + Hour)))
  /\ record_is_whole (paused_record (T0 + Hour))
  /\ (Reconcile (SetupWithManager policy) (Got paused_subnet) (world_at T1)).1
     <> Panic "nil pointer dereference".
Proof.
  assert (H1 : positive_interval (UnPausePollInterval policy)) by (vm_compute; reflexivity).
  assert (H2 : parsePauseInfo paused_subnet = Ok (Some (paused_record (T0 + Hour))))
    by (vm_compute; reflexivity).
  assert (H3 : record_is_whole (paused_record (T0 + Hour)))
    by (intros _; split; discriminate).
  split; [exact H1|]. split; [exact H2|]. split; [exact H3|].
  apply (evaluation_does_not_panic policy (Got paused_subnet) (world_at T1) H1).
  intros obj info Hobj _ Hparse. injection Hobj as <-.
  rewrite H2 in Hparse. injection Hparse as <-. exact H3.
Defined.

Lemma flag_and_record_agree_in_every_update_witness :
  metadata_ok subnet = true
  /\ exists l, extends (world_at T1) (Reconcile policy (Got subnet) (world_at T1)).2 l
               /\ Forall (fun c => agreed (fst c)) l.
Proof.
  split; [reflexivity|].
  exact (flag_and_record_agree_in_every_update policy subnet (world_at T1) eq_refl).
Defined.

Lemma written_pause_is_read_back_witness :
  metadata_ok subnet = true
  /\ kind_of subnet <> EmptyString
  /\ year_has_four_digits (Some T1)
  /\ year_has_four_digits (Some (T1 + Hour))
  /\ parsePauseInfo (ensurePause subnet (Some newPauseInfo) (Some Hour) (world_at T1)).1.1.2
     = Ok (Some {| Pause := true;
                   Object := Snapshot subnet;
                   LastPauseTime := Some T0;
                   LastUnPauseTime := None;
                   ShouldUnpauseTime := Some (T0 + Hour) |}).
Proof.
  assert (H1 : kind_of subnet <> EmptyString) by (vm_compute; discriminate).
  assert (H2 : year_has_four_digits (Some T1))
    by (split; [vm_compute; discriminate|vm_compute; reflexivity]).
  assert (H3 : year_has_four_digits (Some (T1 + Hour)))
    by (split; [vm_compute; discriminate|vm_compute; reflexivity]).
  split; [reflexivity|]. split; [exact H1|]. split; [exact H2|]. split; [exact H3|].
  rewrite (written_pause_is_read_back subnet newPauseInfo (Some Hour) (world_at T1)
             eq_refl eq_refl eq_refl H1 H2 I H3).
  vm_compute. reflexivity.
Defined.

Lemma written_unpause_is_read_back_witness :
  metadata_ok paused_subnet = true
  /\ year_has_four_digits (Some T1)
  /\ year_has_four_digits (Some T0)
  /\ parsePauseInfo
       (ensureUnPause paused_subnet (Some (paused_record (T0 + Hour))) (world_at T1)).1.1.2
     = Ok (Some {| Pause := false;
                   Object := NilObject;
                   LastPauseTime := Some T0;
                   LastUnPauseTime := Some T0;
                   ShouldUnpauseTime := None |}).
Proof.
  assert (H1 : metadata_ok paused_subnet = true) by (vm_compute; reflexivity).
  assert (H2 : year_has_four_digits (Some T1))
    by (split; [vm_compute; discriminate|vm_compute; reflexivity]).
  assert (H3 : year_has_four_digits (Some T0))
    by (split; [vm_compute; discriminate|vm_compute; reflexivity]).
  split; [exact H1|]. split; [exact H2|]. split; [exact H3|].
  rewrite (written_unpause_is_read_back paused_subnet (paused_record (T0 + Hour))
             (world_at T1) eq_refl H1 H2 H3).
  vm_compute. reflexivity.
Defined.

Lemma pause_holds_at_the_next_evaluation_witness :
  GetAnnotations subnet = Some {["some"%string := "value"%string]}
  /\ GetDeletionTimestamp subnet = None
  /\ kind_of subnet <> EmptyString
  /\ readable T1
  /\ readable (T1 + Hour)
  /\ T0 + 30 * Minute < whole_seconds (T1 + Hour)
  /\ Reconcile policy
       (Got (ensurePause subnet (Some newPauseInfo) (Some Hour) (world_at T1)).1.1.2)
       (world_at (T0 + 30 * Minute))
     = (Ok {| Requeue := false; RequeueAfter := 30 * Minute |},
        (Now (world_at (T0 + 30 * Minute))).2).
Proof.
  assert (H1 : GetAnnotations subnet = Some {["some"%string := "value"%string]})
    by (vm_compute; reflexivity).
  assert (H2 : GetDeletionTimestamp subnet = None) by (vm_compute; reflexivity).
  assert (H3 : kind_of subnet <> EmptyString) by (vm_compute; discriminate).
  assert (H4 : NestedMap subnet ["spec"%string] <> WrongType)
    by (vm_compute; discriminate).
  assert (H5 : NestedMap subnet ["metadata"; "labels"]%string <> WrongType)
    by (vm_compute; discriminate).
  assert (H6 : readable T1)
    by (split; [split; [vm_compute; discriminate|vm_compute; reflexivity]
               |vm_compute; discriminate]).
  assert (H7 : readable (T1 + Hour))
    by (split; [split; [vm_compute; discriminate|vm_compute; reflexivity]
               |vm_compute; discriminate]).
  assert (H8 : T0 + 30 * Minute < whole_seconds (T1 + Hour)) by (vm_compute; reflexivity).
  split; [exact H1|]. split; [exact H2|]. split; [exact H3|]. split; [exact H6|].
  split; [exact H7|]. split; [exact H8|].
  rewrite (pause_holds_at_the_next_evaluation policy subnet newPauseInfo _ Hour
             (world_at T1) (world_at (T0 + 30 * Minute))
             eq_refl eq_refl eq_refl H1 H2 H3 H4 H5 H6 H7 I H8).
  vm_compute. reflexivity.
Defined.

Lemma unpause_holds_for_the_frozen_window_witness :
  metadata_ok paused_subnet = true
  /\ readable T1
  /\ T0 + Minute < whole_seconds T1 + DefaultFrozenTimeDuration
  /\ Reconcile policy
       (Got (ensureUnPause paused_subnet (Some (paused_record (T0 + Hour)))
               (world_at T1)).1.1.2)
       (world_at (T0 + Minute))
     = (Ok {| Requeue := false; RequeueAfter := 4 * Minute |},
        (Now (world_at (T0 + Minute))).2).
Proof.
  assert (H1 : metadata_ok paused_subnet = true) by (vm_compute; reflexivity).
  assert (H2 : readable T1)
    by (split; [split; [vm_compute; discriminate|vm_compute; reflexivity]
               |vm_compute; discriminate]).
  assert (H3 : year_has_four_digits (Some T0))
    by (split; [vm_compute; discriminate|vm_compute; reflexivity]).
  assert (H4 : T0 + Minute < whole_seconds T1 + DefaultFrozenTimeDuration)
    by (vm_compute; reflexivity).
  split; [exact H1|]. split; [exact H2|]. split; [exact H4|].
  rewrite (unpause_holds_for_the_frozen_window policy paused_subnet
             (paused_record (T0 + Hour)) DefaultFrozenTimeDuration
             (world_at T1) (world_at (T0 + Minute)) eq_refl eq_refl H1 H2 H3 H4).
  vm_compute. reflexivity.
Defined.

Lemma pause_touches_only_its_annotations_witness :
  GetAnnotations subnet = Some {["some"%string := "value"%string]}
  /\ (ensurePause subnet (Some newPauseInfo) (Some Hour) (world_at T1)).1.1.2
       !! "spec"%string
     = subnet !! "spec"%string.
Proof.
  assert (H1 : GetAnnotations subnet = Some {["some"%string := "value"%string]})
    by (vm_compute; reflexivity).
  split; [exact H1|].
  destruct (pause_touches_only_its_annotations subnet newPauseInfo (Some Hour)
              (world_at T1) _ eq_refl eq_refl H1) as (H & _).
  apply H. discriminate.
Defined.

Lemma unpause_touches_only_its_annotations_witness :
  GetAnnotations paused_subnet = Some (default ∅ (GetAnnotations paused_subnet))
  /\ (ensureUnPause paused_subnet (Some (paused_record (T0 + Hour))) (world_at T1)).1.1.2
       !! "spec"%string
     = paused_subnet !! "spec"%string.
Proof.
  assert (H1 : GetAnnotations paused_subnet
               = Some (default ∅ (GetAnnotations paused_subnet)))
    by (vm_compute; reflexivity).
  split; [exact H1|].
  destruct (unpause_touches_only_its_annotations paused_subnet
              (paused_record (T0 + Hour)) (world_at T1) _ eq_refl H1) as (H & _).
  apply H. discriminate.
Defined.

Lemma rejected_update_is_surfaced_witness :
  extends (rejecting T1) (Reconcile policy (Got subnet) (rejecting T1)).2
    [(paused_object subnet newPauseInfo T1 (Some (T1 + Hour)), false)]
  /\ exists e, (Reconcile policy (Got subnet) (rejecting T1)).1 = Err e.
Proof.
  assert (H1 : extends (rejecting T1) (Reconcile policy (Got subnet) (rejecting T1)).2
                 [(paused_object subnet newPauseInfo T1 (Some (T1 + Hour)), false)])
    by (vm_compute; reflexivity).
  split; [exact H1|].
  destruct (rejected_update_is_surfaced policy (Got subnet) (rejecting T1) _
              (paused_object subnet newPauseInfo T1 (Some (T1 + Hour))) H1
              (list_elem_of_here _ _)) as (H & _).
  exact H.
Defined.

Lemma every_error_names_its_step_witness :
  (Reconcile policy (Got garbled) (world_at T1)).1
  = Err (Wrap "unable to parse pause info"
           (Leaf "invalid character in JSON text"))
  /\ names_its_step
       (Wrap "unable to parse pause info"
          (Leaf "invalid character in JSON text")).
Proof.
  assert (H1 : (Reconcile policy (Got garbled) (world_at T1)).1
               = Err (Wrap "unable to parse pause info"
                        (Leaf "invalid character in JSON text")))
    by (vm_compute; reflexivity).
  split; [exact H1|].
  exact (every_error_names_its_step policy (Got garbled) (world_at T1) _ H1).
Defined.

Lemma pause_and_unpause_give_the_resource_back_witness :
  GetAnnotations subnet = Some {["some"%string := "value"%string]}
  /\ isUpdated
       (ensureUnPause
          (ensurePause subnet (Some newPauseInfo) (Some Hour) (world_at T1)).1.1.2
          (Some (ensurePause subnet (Some newPauseInfo) (Some Hour) (world_at T1)).1.2)
          (ensurePause subnet (Some newPauseInfo) (Some Hour) (world_at T1)).2).1.1.2
       (Some subnet)
     = Ok false.
Proof.
  assert (H1 : GetAnnotations subnet = Some {["some"%string := "value"%string]})
    by (vm_compute; reflexivity).
  assert (H2 : NestedMap subnet ["spec"%string] <> WrongType)
    by (vm_compute; discriminate).
  assert (H3 : NestedMap subnet ["metadata"; "labels"]%string <> WrongType)
    by (vm_compute; discriminate).
  split; [exact H1|].
  pose proof (pause_and_unpause_give_the_resource_back subnet newPauseInfo (Some Hour)
                (world_at T1) _ eq_refl eq_refl H1 H2 H3) as H.
  destruct (ensurePause subnet (Some newPauseInfo) (Some Hour) (world_at T1))
    as [[[res obj1] info1] w1].
  exact (proj1 H).
Defined.

Lemma deleted_resource_is_not_paused_again_witness :
  GetDeletionTimestamp (deleted paused_subnet) = Some (1658487600 * Second)
  /\ parsePauseInfo (deleted paused_subnet) = Ok (Some (paused_record (T0 + Hour)))
  /\ calls (Reconcile policy (Got (deleted paused_subnet)) (world_at T1)).2
     = [(unpaused_object (deleted paused_subnet) (paused_record (T0 + Hour)) T1, true)]
  /\ (Reconcile policy (Got (deleted paused_subnet)) (world_at T1)).1
     = Ok {| Requeue := false; RequeueAfter := 5 * Minute |}.
Proof.
  assert (H1 : GetDeletionTimestamp (deleted paused_subnet) = Some (1658487600 * Second))
    by (vm_compute; reflexivity).
  assert (H2 : parsePauseInfo (deleted paused_subnet)
               = Ok (Some (paused_record (T0 + Hour)))) by (vm_compute; reflexivity).
  split; [exact H1|]. split; [exact H2|].
  exact (deleted_resource_is_not_paused_again policy (deleted paused_subnet)
           (paused_record (T0 + Hour)) _ DefaultFrozenTimeDuration (world_at T1)
           H1 H2 eq_refl eq_refl eq_refl eq_refl).
Defined.
